(** * boutique-chic-pos: the record store, the schema codecs, the sale processor
    and the analytics aggregator

    A shallow embedding of [backend/app/database/csv_handler.py],
    [backend/app/api/sales.py], [backend/app/api/products.py],
    [backend/app/api/customers.py] and the pydantic models they use, with the
    properties of the specification proved about it, and further properties of
    the same code after them.

    Modelling choices.
    - A Python object is a [value]; a [dict] with string keys that is used as a
      record is a [gmap string value]; a JSON object keeps its pairs in order.
    - A Python [float] is a binary64 [float] of the kernel, so the arithmetic of
      the code is the arithmetic of the model.
    - A Python [str] is a [string] whose characters are code points below 256.
    - A CSV file is modelled by the table that [to_csv] is handed: a list of
      rows, each row the dict of its cells. What [read_csv] makes of the text
      when it reads it back (the inference of a column's dtype) is outside the
      model; the id columns are read as strings, as [read_all] asks for.
    - A raised exception is [Raise e]; the tables written before it was raised
      stay written.
    - [json.loads] is embedded on the strings of the model. An escape that
      names a code point from 256 on, which [json.loads] decodes, and the
      recursion limit of the interpreter, at which it raises, are outside the
      model: what is stated of the decoding is stated of texts that
      [json.dumps] wrote for values of the model.
    - What pydantic accepts when an endpoint builds its response is a
      parameter ([Pydantic]). *)

From Stdlib Require Import ZArith String Ascii List Floats Lia Bool.
From stdpp Require Import gmap strings list fin_maps sorting.
Import ListNotations.

#[local] Open Scope string_scope.
#[local] Open Scope Z_scope.

(** ** Python values *)

#[local] Unset Elimination Schemes.
Inductive value : Type :=
  | VNone
  | VBool (b : bool)
  | VInt (z : Z)
  | VFloat (f : float)
  | VStr (s : string)
  | VList (l : list value)
  | VDict (d : list (string * value)).
#[local] Set Elimination Schemes.

Abbreviation row := (gmap string value).
Abbreviation DataFrame := (list (gmap string value)).

(** The failure kinds of the specification. The code raises them as
    [HTTPException]s: 400 with "Product ... not found" ([NotFound]), 400 with
    "Insufficient stock ..." ([InsufficientStock]), 400 with "Product with this
    SKU already exists" ([Conflict]), and 500 for every other exception
    ([InternalFailure]). *)
Inductive failure : Type :=
  | NotFound
  | InsufficientStock
  | Conflict
  | InternalFailure.

Inductive exn : Type :=
  | TypeError
  | ValueError
  | OverflowError
  | AttributeError
  | HTTPException (status_code : Z) (detail : failure).

Inductive result (A : Type) : Type :=
  | Ok (a : A)
  | Raise (e : exn).
Arguments Ok {A} a.
Arguments Raise {A} e.

#[global] Instance result_ret : MRet result := fun A a => Ok a.
#[global] Instance result_bind : MBind result := fun A B k m =>
  match m with
  | Ok a => k a
  | Raise e => Raise e
  end.
#[global] Instance result_fmap : FMap result := fun A B f m =>
  match m with
  | Ok a => Ok (f a)
  | Raise e => Raise e
  end.

(** [try: ... except (ValueError, TypeError): dflt] *)
Definition except_value_type {A} (m : result A) (dflt : A) : result A :=
  match m with
  | Raise ValueError | Raise TypeError => Ok dflt
  | _ => m
  end.

(** What Python's text conversions of numbers do is not part of the
    repository; the three that the code reaches are taken as parameters:
    [float.__repr__], [float(s)] and [int(s)] on a string ([None] stands for
    the [ValueError]), and [str] of a list or a dict. *)
Class PyText : Type := {
  float_repr : float -> string;
  float_of_str : string -> option float;
  int_of_str : string -> option Z;
  container_str : value -> string
}.

(** ** Numbers *)

(** [float(z)] for an integer: the nearest binary64. *)
Definition float_of_int (z : Z) : float :=
  SF2Prim (binary_normalize prec emax z 0 false).

(** [int(f)]: truncation towards zero; [None] on an infinity or a NaN. *)
Definition int_of_float (f : float) : option Z :=
  match Prim2SF f with
  | S754_zero _ => Some 0
  | S754_finite s m e =>
      let a := if 0 <=? e then Z.pos m * 2 ^ e else Z.pos m / 2 ^ (- e) in
      Some (if s then - a else a)
  | S754_infinity _ | S754_nan => None
  end.

Definition is_inf (f : float) : bool := PrimFloat.is_infinity f.

Definition bool_to_Z (b : bool) : Z := if b then 1 else 0.

Section Conversions.
Context `{PyText}.

(** [float(v)] *)
Definition py_float (v : value) : result float :=
    match v with
    | VFloat f => Ok f
    | VInt z =>
        let f := float_of_int z in
        if is_inf f then Raise OverflowError else Ok f
    | VBool b => Ok (float_of_int (bool_to_Z b))
    | VStr s =>
        match float_of_str s with
        | Some f => Ok f
        | None => Raise ValueError
        end
    | VNone | VList _ | VDict _ => Raise TypeError
    end.

(** [int(v)] *)
Definition py_int (v : value) : result Z :=
    match v with
    | VInt z => Ok z
    | VBool b => Ok (bool_to_Z b)
    | VFloat f =>
        match int_of_float f with
        | Some z => Ok z
        | None => if PrimFloat.is_nan f then Raise ValueError else Raise OverflowError
        end
    | VStr s =>
        match int_of_str s with
        | Some z => Ok z
        | None => Raise ValueError
        end
    | VNone | VList _ | VDict _ => Raise TypeError
    end.
End Conversions.

(** Decimal digits of a non-negative integer, most significant first. *)
Definition digit_char (d : Z) : ascii := ascii_of_N (48 + Z.to_N d).

Fixpoint digits_aux (fuel : nat) (n : Z) (acc : string) : string :=
  match fuel with
  | O => acc
  | S fuel' =>
      let acc' := String (digit_char (n mod 10)) acc in
      if n <? 10 then acc' else digits_aux fuel' (n / 10) acc'
  end.

Definition digits_of (n : Z) : string :=
  digits_aux (S (Z.to_nat (Z.log2 n))) n "".

(** [str(z)] for an integer *)
Definition str_of_int (z : Z) : string :=
  if z <? 0 then String "-" (digits_of (- z)) else digits_of z.

(** ** The JSON codec ([json.dumps], [json.loads])

    [json.dumps] is called with its defaults: separators [", "] and [": "],
    and [ensure_ascii], so that every character outside [' '..'~'] is escaped.
    [json.loads] is the recursive-descent scanner of the [json] module. The
    characters of this model stop at code point 255: a [\uXXXX] escape above
    that is not a text of the model and is answered like a malformed one. *)

Definition c_quote : ascii := "034"%char.
Definition c_backslash : ascii := "092"%char.

Definition hex_char (n : N) : ascii :=
  if (n <? 10)%N then ascii_of_N (48 + n) else ascii_of_N (87 + n).

Definition escape_char (c : ascii) : string :=
  let n := N_of_ascii c in
  if (n =? 34)%N then String c_backslash (String c_quote "")
  else if (n =? 92)%N then String c_backslash (String c_backslash "")
  else if (n =? 8)%N then String c_backslash "b"
  else if (n =? 12)%N then String c_backslash "f"
  else if (n =? 10)%N then String c_backslash "n"
  else if (n =? 13)%N then String c_backslash "r"
  else if (n =? 9)%N then String c_backslash "t"
  else if (32 <=? n)%N && (n <=? 126)%N then String c ""
  else String c_backslash
         (String "u" (String "0" (String "0"
           (String (hex_char (n / 16)) (String (hex_char (n mod 16)) ""))))).

Fixpoint escape (s : string) : string :=
  match s with
  | EmptyString => ""
  | String c r => escape_char c +:+ escape r
  end.

(** [encode_basestring_ascii] *)
Definition json_quote (s : string) : string :=
  String c_quote (escape s +:+ String c_quote "").

Section Join.
Context {A : Type} (f : A -> string).

(** [", ".join(f(x) for x in l)] *)
Fixpoint join_items (l : list A) : string :=
  match l with
  | [] => ""
  | x :: l' =>
      match l' with
      | [] => f x
      | _ :: _ => f x +:+ ", " +:+ join_items l'
      end
  end.
End Join.

Section Json.
Context `{PyText}.

Definition json_float (f : float) : string :=
  if PrimFloat.is_nan f then "NaN"
  else if PrimFloat.eqb f PrimFloat.infinity then "Infinity"
  else if PrimFloat.eqb f PrimFloat.neg_infinity then "-Infinity"
  else float_repr f.

Fixpoint json_dumps (v : value) : string :=
  match v with
  | VNone => "null"
  | VBool true => "true"
  | VBool false => "false"
  | VInt z => str_of_int z
  | VFloat f => json_float f
  | VStr s => json_quote s
  | VList l => "[" +:+ join_items json_dumps l +:+ "]"
  | VDict d =>
      "{" +:+ join_items (fun kv => json_quote (fst kv) +:+ ": " +:+ json_dumps (snd kv)) d +:+ "}"
  end.

Definition is_ws (c : ascii) : bool :=
  let n := N_of_ascii c in
  (n =? 32)%N || (n =? 9)%N || (n =? 10)%N || (n =? 13)%N.

Fixpoint skip_ws (s : string) : string :=
  match s with
  | String c r => if is_ws c then skip_ws r else s
  | EmptyString => s
  end.

Definition is_digit (c : ascii) : bool :=
  let n := N_of_ascii c in (48 <=? n)%N && (n <=? 57)%N.

Definition hex_value (c : ascii) : option N :=
  let n := N_of_ascii c in
  if (48 <=? n)%N && (n <=? 57)%N then Some (n - 48)%N
  else if (97 <=? n)%N && (n <=? 102)%N then Some (n - 87)%N
  else if (65 <=? n)%N && (n <=? 70)%N then Some (n - 55)%N
  else None.

Definition hex4 (h1 h2 h3 h4 : ascii) : option N :=
  match hex_value h1, hex_value h2, hex_value h3, hex_value h4 with
  | Some a, Some b, Some c, Some d => Some (((a * 16 + b) * 16 + c) * 16 + d)%N
  | _, _, _, _ => None
  end.

Definition cons_char (c : ascii) (o : option (string * string)) : option (string * string) :=
  match o with
  | Some (str, rest) => Some (String c str, rest)
  | None => None
  end.

(** [scanstring], after the opening quote: the decoded string and the text
    after the closing quote. *)
Fixpoint scan_string (s : string) : option (string * string) :=
  match s with
  | EmptyString => None
  | String c r =>
      if Ascii.eqb c c_quote then Some ("", r)
      else if Ascii.eqb c c_backslash then
        match r with
        | EmptyString => None
        | String e r1 =>
            if Ascii.eqb e c_quote then cons_char c_quote (scan_string r1)
            else if Ascii.eqb e c_backslash then cons_char c_backslash (scan_string r1)
            else if Ascii.eqb e "/" then cons_char "/" (scan_string r1)
            else if Ascii.eqb e "b" then cons_char "008" (scan_string r1)
            else if Ascii.eqb e "f" then cons_char "012" (scan_string r1)
            else if Ascii.eqb e "n" then cons_char "010" (scan_string r1)
            else if Ascii.eqb e "r" then cons_char "013" (scan_string r1)
            else if Ascii.eqb e "t" then cons_char "009" (scan_string r1)
            else if Ascii.eqb e "u" then
              match r1 with
              | String h1 (String h2 (String h3 (String h4 r2))) =>
                  match hex4 h1 h2 h3 h4 with
                  | Some n =>
                      if (n <? 256)%N then cons_char (ascii_of_N n) (scan_string r2)
                      else None
                  | None => None
                  end
              | _ => None
              end
            else None
        end
      else if (N_of_ascii c <? 32)%N then None
      else cons_char c (scan_string r)
  end.

Fixpoint span_digits (s : string) : string * string :=
  match s with
  | String c r =>
      if is_digit c then let '(d, r') := span_digits r in (String c d, r')
      else ("", s)
  | EmptyString => ("", "")
  end.

Fixpoint Z_of_digits (s : string) (acc : Z) : Z :=
  match s with
  | EmptyString => acc
  | String c r => Z_of_digits r (acc * 10 + (Z.of_N (N_of_ascii c) - 48))
  end.

(** The integer part of [NUMBER_RE]: an optional minus, then a lone zero or a
    digit from 1 to 9 followed by digits. *)
Definition scan_integer (s : string) : option (bool * string * string) :=
  let '(neg, s1) :=
    match s with
    | String "-" r => (true, r)
    | _ => (false, s)
    end in
  match s1 with
  | String c r =>
      if Ascii.eqb c "0" then Some (neg, "0", r)
      else if is_digit c then
        let '(d, r') := span_digits r in Some (neg, String c d, r')
      else None
  | EmptyString => None
  end.

(** The fraction of [NUMBER_RE]: a dot and at least one digit, or nothing. *)
Definition scan_frac (s : string) : string * string :=
  match s with
  | String "." r =>
      match span_digits r with
      | (EmptyString, _) => ("", s)
      | (d, r') => (String "." d, r')
      end
  | _ => ("", s)
  end.

(** The exponent of [NUMBER_RE]: e or E, an optional sign and at least one
    digit, or nothing. *)
Definition scan_exp (s : string) : string * string :=
  match s with
  | String e r =>
      if Ascii.eqb e "e" || Ascii.eqb e "E" then
        let '(sign, r1) :=
          match r with
          | String "+" r1 => ("+", r1)
          | String "-" r1 => ("-", r1)
          | _ => ("", r)
          end in
        match span_digits r1 with
        | (EmptyString, _) => ("", s)
        | (d, r') => (String e (sign +:+ d), r')
        end
      else ("", s)
  | EmptyString => ("", s)
  end.

Definition scan_number (s : string) : option (value * string) :=
  match scan_integer s with
  | None => None
  | Some (neg, int_text, r) =>
      let '(frac, r1) := scan_frac r in
      let '(exp, r2) := scan_exp r1 in
      match frac, exp with
      | EmptyString, EmptyString =>
          let n := Z_of_digits int_text 0 in
          Some (VInt (if neg then - n else n), r2)
      | _, _ =>
          match float_of_str ((if neg then "-" else "") +:+ int_text +:+ frac +:+ exp) with
          | Some f => Some (VFloat f, r2)
          | None => None
          end
      end
  end.

(** [dict(pairs)]: a key that comes again keeps its first place and takes the
    later value. *)
Fixpoint dict_set (k : string) (v : value) (d : list (string * value)) : list (string * value) :=
  match d with
  | [] => [(k, v)]
  | (k', v') :: d' =>
      if String.eqb k' k then (k', v) :: d' else (k', v') :: dict_set k v d'
  end.

Definition dict_of_pairs (ps : list (string * value)) : list (string * value) :=
  fold_left (fun d kv => dict_set (fst kv) (snd kv) d) ps [].

Section Containers.
Variable parse : string -> option (value * string).

(** [JSONArray], from the first element on; [n] bounds the elements. *)
Fixpoint parse_elems (n : nat) (s : string) : option (list value * string) :=
  match n with
  | O => None
  | S n' =>
      match parse s with
      | None => None
      | Some (v, r) =>
          match skip_ws r with
          | String c r1 =>
              if Ascii.eqb c "]" then Some ([v], r1)
              else if Ascii.eqb c "," then
                match parse_elems n' (skip_ws r1) with
                | Some (vs, r2) => Some (v :: vs, r2)
                | None => None
                end
              else None
          | EmptyString => None
          end
      end
  end.

(** [JSONObject], from the quote of the first key on. *)
Fixpoint parse_members (n : nat) (s : string) : option (list (string * value) * string) :=
  match n with
  | O => None
  | S n' =>
      match s with
      | String c r =>
          if Ascii.eqb c c_quote then
            match scan_string r with
            | None => None
            | Some (k, r1) =>
                match skip_ws r1 with
                | String c1 r2 =>
                    if Ascii.eqb c1 ":" then
                      match parse (skip_ws r2) with
                      | None => None
                      | Some (v, r3) =>
                          match skip_ws r3 with
                          | String c2 r4 =>
                              if Ascii.eqb c2 "}" then Some ([(k, v)], r4)
                              else if Ascii.eqb c2 "," then
                                match parse_members n' (skip_ws r4) with
                                | Some (ps, r5) => Some ((k, v) :: ps, r5)
                                | None => None
                                end
                              else None
                          | EmptyString => None
                          end
                      end
                    else None
                | EmptyString => None
                end
            end
          else None
      | EmptyString => None
      end
  end.
End Containers.

(** [s[len(p):]] when [s.startswith(p)] *)
Fixpoint strip_prefix (p s : string) : option string :=
  match p with
  | EmptyString => Some s
  | String a p' =>
      match s with
      | String b s' => if Ascii.eqb a b then strip_prefix p' s' else None
      | EmptyString => None
      end
  end.

(** [scan_once]; [fuel] bounds the nesting and is spent by no other step. *)
Fixpoint parse_value (fuel : nat) (s : string) : option (value * string) :=
  match fuel with
  | O => None
  | S fuel' =>
      match s with
      | EmptyString => None
      | String c r =>
          if Ascii.eqb c c_quote then
            match scan_string r with
            | Some (str, r1) => Some (VStr str, r1)
            | None => None
            end
          else if Ascii.eqb c "{" then
            match skip_ws r with
            | String c1 r1 =>
                if Ascii.eqb c1 "}" then Some (VDict [], r1)
                else
                  match parse_members (parse_value fuel') (String.length s)
                          (String c1 r1) with
                  | Some (ps, r2) => Some (VDict (dict_of_pairs ps), r2)
                  | None => None
                  end
            | EmptyString => None
            end
          else if Ascii.eqb c "[" then
            match skip_ws r with
            | String c1 r1 =>
                if Ascii.eqb c1 "]" then Some (VList [], r1)
                else
                  match parse_elems (parse_value fuel') (String.length s)
                          (String c1 r1) with
                  | Some (vs, r2) => Some (VList vs, r2)
                  | None => None
                  end
            | EmptyString => None
            end
          else
            match strip_prefix "null" s, strip_prefix "true" s, strip_prefix "false" s with
            | Some r1, _, _ => Some (VNone, r1)
            | _, Some r1, _ => Some (VBool true, r1)
            | _, _, Some r1 => Some (VBool false, r1)
            | None, None, None =>
                match scan_number s with
                | Some x => Some x
                | None =>
                    match strip_prefix "NaN" s, strip_prefix "Infinity" s,
                          strip_prefix "-Infinity" s with
                    | Some r1, _, _ => Some (VFloat PrimFloat.nan, r1)
                    | _, Some r1, _ => Some (VFloat PrimFloat.infinity, r1)
                    | _, _, Some r1 => Some (VFloat PrimFloat.neg_infinity, r1)
                    | None, None, None => None
                    end
                end
            end
      end
  end.

(** [json.loads(s)]; [None] is the [JSONDecodeError]. The embedding reads
    the texts that [json.dumps] writes for the values of the model: it
    decodes no escape of a code point from 256 on, and it has no recursion
    limit. *)
Definition json_loads (s : string) : option value :=
  match parse_value (S (String.length s)) (skip_ws s) with
  | Some (v, r) =>
      match skip_ws r with
      | EmptyString => Some v
      | _ => None
      end
  | None => None
  end.
End Json.

(** ** Python operators on values *)

Inductive number : Type :=
  | NInt (z : Z)
  | NFloat (f : float).

Definition as_number (v : value) : option number :=
  match v with
  | VInt z => Some (NInt z)
  | VBool b => Some (NInt (bool_to_Z b))
  | VFloat f => Some (NFloat f)
  | _ => None
  end.

(** Python compares an [int] with a [float] by their exact values. *)
Definition int_lt_float (z : Z) (f : float) : bool :=
  match Prim2SF f with
  | S754_nan => false
  | S754_infinity s => negb s
  | S754_zero _ => z <? 0
  | S754_finite s m e =>
      let v := if s then Z.neg m else Z.pos m in
      if 0 <=? e then z <? v * 2 ^ e else z * 2 ^ (- e) <? v
  end.

Definition float_lt_int (f : float) (z : Z) : bool :=
  match Prim2SF f with
  | S754_nan => false
  | S754_infinity s => s
  | S754_zero _ => 0 <? z
  | S754_finite s m e =>
      let v := if s then Z.neg m else Z.pos m in
      if 0 <=? e then v * 2 ^ e <? z else v <? z * 2 ^ (- e)
  end.

Definition num_lt (a b : number) : bool :=
  match a, b with
  | NInt x, NInt y => x <? y
  | NFloat x, NFloat y => PrimFloat.ltb x y
  | NInt x, NFloat y => int_lt_float x y
  | NFloat x, NInt y => float_lt_int x y
  end.

(** [a < b] *)
Definition py_lt (a b : value) : result bool :=
  match as_number a, as_number b with
  | Some x, Some y => Ok (num_lt x y)
  | _, _ =>
      match a, b with
      | VStr s, VStr t => Ok (String.ltb s t)
      | _, _ => Raise TypeError
      end
  end.

(** [a >= b] on two strings, the one comparison of [>=] the code makes. *)
Definition py_ge (a b : value) : result bool :=
  match a, b with
  | VStr s, VStr t => Ok (String.leb t s)
  | _, _ =>
      match as_number a, as_number b with
      | Some x, Some y =>
          match x, y with
          | NInt p, NInt q => Ok (q <=? p)
          | NFloat p, NFloat q => Ok (PrimFloat.leb q p)
          | NInt p, NFloat q => Ok (negb (int_lt_float p q) && negb (PrimFloat.is_nan q))
          | NFloat p, NInt q => Ok (negb (float_lt_int p q) && negb (PrimFloat.is_nan p))
          end
      | _, _ => Raise TypeError
      end
  end.

Definition float_of_number (n : number) : result float :=
  match n with
  | NFloat f => Ok f
  | NInt z =>
      let f := float_of_int z in
      if is_inf f then Raise OverflowError else Ok f
  end.

Definition num_arith (fz : Z -> Z -> Z) (ff : float -> float -> float)
    (a b : value) : result value :=
  match as_number a, as_number b with
  | Some (NInt x), Some (NInt y) => Ok (VInt (fz x y))
  | Some x, Some y =>
      p ← float_of_number x; q ← float_of_number y; Ok (VFloat (ff p q))
  | _, _ => Raise TypeError
  end.

(** [a + b]: numbers, and two strings *)
Definition py_add (a b : value) : result value :=
  match a, b with
  | VStr s, VStr t => Ok (VStr (s +:+ t))
  | VList s, VList t => Ok (VList (s ++ t))
  | _, _ => num_arith Z.add PrimFloat.add a b
  end.

(** [a - b] *)
Definition py_sub (a b : value) : result value :=
  num_arith Z.sub PrimFloat.sub a b.

(** [a / b] on a float and a positive count, the one division the code
    makes ([total_sales / total_transactions], under [total_transactions > 0]) *)
Definition py_truediv (a : value) (n : Z) : result value :=
  match as_number a with
  | Some x => p ← float_of_number x; Ok (VFloat (PrimFloat.div p (float_of_int n)))
  | None => Raise TypeError
  end.

(** [d.get(k, dflt)] *)
Definition get (k : string) (dflt : value) (d : gmap string value) : value :=
  default dflt (d !! k).

(** [bool(d)] of an [Optional[dict]] *)
Definition truthy (o : option (gmap string value)) : bool :=
  match o with
  | Some d => negb (bool_decide (d = ∅))
  | None => false
  end.

(** [s.lower()] *)
Definition lower_char (c : ascii) : ascii :=
  let n := N_of_ascii c in
  if ((65 <=? n) && (n <=? 90) || (192 <=? n) && (n <=? 222) && negb (n =? 215))%N
  then ascii_of_N (n + 32) else c.

Fixpoint py_lower (s : string) : string :=
  match s with
  | EmptyString => ""
  | String c r => String (lower_char c) (py_lower r)
  end.

Section Str.
Context `{PyText}.

(** [str(v)] *)
Definition py_str (v : value) : string :=
  match v with
  | VStr s => s
  | VNone => "None"
  | VBool true => "True"
  | VBool false => "False"
  | VInt z => str_of_int z
  | VFloat f => float_repr f
  | VList _ | VDict _ => container_str v
  end.
End Str.

(** ** Missing cells

    [pd.isna(value) or value == 'nan' or str(value).lower() == 'nan'].
    [pd.isna] of a list is an array, one cell per element, and Python refuses
    the truth value of an array of two or more cells ([isna_ambiguous]); of a
    float the three tests say the same, that it is a NaN. *)

Definition isna_scalar (v : value) : bool :=
  match v with
  | VNone => true
  | VFloat f => PrimFloat.is_nan f
  | _ => false
  end.

Definition isna_ambiguous (v : value) : bool :=
  match v with
  | VList (_ :: _ :: _) => true
  | _ => false
  end.

Definition is_missing (v : value) : bool :=
  match v with
  | VList [x] => isna_scalar x
  | VStr s => String.eqb (py_lower s) "nan"
  | _ => isna_scalar v
  end.

(** The customer's test has one more case: [or value == ''] *)
Definition is_missing_or_empty (v : value) : bool :=
  is_missing v || match v with VStr EmptyString => true | _ => false end.

(** [for key, value in record.items(): if <missing>: record[key] = <default>] *)
Definition fill_missing (missing : value -> bool) (dflt : string -> value)
    (record : gmap string value) : result (gmap string value) :=
  if bool_decide (map_Forall (fun _ v => isna_ambiguous v = false) record)
  then Ok (map_imap (fun k v => Some (if missing v then dflt k else v)) record)
  else Raise ValueError.

Section Codecs.
Context `{PyText}.

(** [if 'id' in record: record['id'] = str(record['id'])] *)
Definition str_field (field : string) (record : gmap string value) : gmap string value :=
  match record !! field with
  | Some v => <[field := VStr (py_str v)]> record
  | None => record
  end.

(** [if field in record and record[field] is not None:
       try: record[field] = float(record[field])
       except (ValueError, TypeError): record[field] = 0.0] *)
Definition float_field (field : string) (record : gmap string value)
    : result (gmap string value) :=
  match record !! field with
  | None | Some VNone => Ok record
  | Some v =>
      f ← except_value_type (py_float v) 0%float;
      Ok (<[field := VFloat f]> record)
  end.

Definition int_field (field : string) (record : gmap string value)
    : result (gmap string value) :=
  match record !! field with
  | None | Some VNone => Ok record
  | Some v =>
      z ← except_value_type (py_int v) 0;
      Ok (<[field := VInt z]> record)
  end.

(** [if field in record:
       try: record[field] = int(record[field]) if record[field] is not None else 0
       except (ValueError, TypeError): record[field] = 0] *)
Definition int_field_or_zero (field : string) (record : gmap string value)
    : result (gmap string value) :=
  match record !! field with
  | None => Ok record
  | Some VNone => Ok (<[field := VInt 0]> record)
  | Some v =>
      z ← except_value_type (py_int v) 0;
      Ok (<[field := VInt z]> record)
  end.

Definition float_field_or_zero (field : string) (record : gmap string value)
    : result (gmap string value) :=
  match record !! field with
  | None => Ok record
  | Some VNone => Ok (<[field := VFloat 0]> record)
  | Some v =>
      f ← except_value_type (py_float v) 0%float;
      Ok (<[field := VFloat f]> record)
  end.

(** [if field in record and isinstance(record[field], str):
       try: record[field] = json.loads(record[field])
       except (json.JSONDecodeError, TypeError): record[field] = <empty>
     elif field not in record or record[field] is None:
       record[field] = <empty>] *)
Definition decode_field (field : string) (empty : value) (record : gmap string value)
    : gmap string value :=
  match record !! field with
  | Some (VStr s) => <[field := default empty (json_loads s)]> record
  | None | Some VNone => <[field := empty]> record
  | Some _ => record
  end.

(** [if field in data:
       if isinstance(data[field], list): data[field] = json.dumps(data[field])
       elif isinstance(data[field], str):
         try: json.loads(data[field])
         except (json.JSONDecodeError, TypeError): data[field] = '[]'
       else: data[field] = '[]'] *)
Definition encode_list_field (field : string) (data : gmap string value)
    : gmap string value :=
  match data !! field with
  | None => data
  | Some (VList l) => <[field := VStr (json_dumps (VList l))]> data
  | Some (VStr s) =>
      match json_loads s with
      | Some _ => data
      | None => <[field := VStr "[]"]> data
      end
  | Some _ => <[field := VStr "[]"]> data
  end.

(** [if field in data and isinstance(data[field], list):
       data[field] = json.dumps(data[field])], and the same for a [dict] *)
Definition dumps_if_list (field : string) (data : gmap string value) : gmap string value :=
  match data !! field with
  | Some (VList l) => <[field := VStr (json_dumps (VList l))]> data
  | _ => data
  end.

Definition dumps_if_dict (field : string) (data : gmap string value) : gmap string value :=
  match data !! field with
  | Some (VDict d) => <[field := VStr (json_dumps (VDict d))]> data
  | _ => data
  end.
End Codecs.

(** ** The record store ([CSVHandler])

    [read_all] and [save_dataframe] read and write the whole table; a method
    is a function of the table that returns the table it leaves behind. *)

Fixpoint mapM {A B : Type} (f : A -> result B) (l : list A) : result (list B) :=
  match l with
  | [] => Ok []
  | x :: l' => y ← f x; ys ← mapM f l'; Ok (y :: ys)
  end.

Module CSVHandler.

(** [df['id'] == record_id], row by row; the id column is read as strings *)
Definition has_id (record_id : string) (r : gmap string value) : bool :=
  match r !! "id" with
  | Some (VStr s) => String.eqb s record_id
  | _ => false
  end.

(** [df.empty] *)
Definition empty (df : list (gmap string value)) : bool :=
  match df with
  | [] => true
  | _ :: _ => false
  end.

Definition find_by_id (record_id : string) (df : list (gmap string value))
    : option (gmap string value) :=
  if empty df then None
  else
    let record := List.filter (has_id record_id) df in
    if empty record then None else head record.

(** [uuid] is the value of [str(uuid4())] *)
Definition create (uuid : string) (data : gmap string value) (df : list (gmap string value))
    : list (gmap string value) * gmap string value :=
  let data := match data !! "id" with
              | None => <["id" := VStr uuid]> data
              | Some _ => data
              end in
  ((df ++ [data])%list, data).

(** [for key, value in data.items(): if key != 'id': df.loc[mask, key] = value],
    on one row of the mask *)
Definition set_fields (data r : gmap string value) : gmap string value :=
  base.delete "id" data ∪ r.

Definition update (record_id : string) (data : gmap string value)
    (df : list (gmap string value))
    : list (gmap string value) * option (gmap string value) :=
  if empty df then (df, None)
  else if negb (existsb (has_id record_id) df) then (df, None)
  else
    let df' := map (fun r => if has_id record_id r then set_fields data r else r) df in
    (df', head (List.filter (has_id record_id) df')).

Definition delete (record_id : string) (df : list (gmap string value))
    : list (gmap string value) * bool :=
  if empty df then (df, false)
  else
    let initial_length := length df in
    let df' := List.filter (fun r => negb (has_id record_id r)) df in
    if Nat.eqb (length df') initial_length then (df, false)
    else (df', true).

Definition get_all (df : list (gmap string value)) : list (gmap string value) :=
  if empty df then [] else df.

End CSVHandler.

(** ** The schema codecs *)

Module ProductCSVHandler.
Section Product.
Context `{PyText}.

Definition nan_default (key : string) : value :=
  if bool_decide (key ∈ ["description"; "image"]) then VStr ""
  else if bool_decide (key ∈ ["price"; "cost"]) then VFloat 0
  else if bool_decide (key ∈ ["stock"]) then VInt 0
  else VNone.

Definition _process_product_record (record : gmap string value)
    : result (gmap string value) :=
  record ← fill_missing is_missing nan_default record;
  let record := str_field "id" record in
  record ← float_field "price" record;
  record ← float_field "cost" record;
  record ← int_field "stock" record;
  Ok (decode_field "variants" (VList []) record).

Definition create (uuid : string) (data : gmap string value) (df : list (gmap string value))
    : list (gmap string value) * result (gmap string value) :=
  let data := encode_list_field "variants" data in
  let '(df', created_record) := CSVHandler.create uuid data df in
  (df', _process_product_record created_record).

Definition update (record_id : string) (data : gmap string value)
    (df : list (gmap string value))
    : list (gmap string value) * result (option (gmap string value)) :=
  let data := encode_list_field "variants" data in
  match CSVHandler.update record_id data df with
  | (df', None) => (df', Ok None)
  | (df', Some updated_record) => (df', Some <$> _process_product_record updated_record)
  end.

Definition find_by_id (record_id : string) (df : list (gmap string value))
    : result (option (gmap string value)) :=
  match CSVHandler.find_by_id record_id df with
  | None => Ok None
  | Some record => Some <$> _process_product_record record
  end.

(** [df['sku'] == sku], row by row *)
Definition has_sku (sku : string) (r : gmap string value) : bool :=
  match r !! "sku" with
  | Some (VStr s) => String.eqb s sku
  | _ => false
  end.

Definition find_by_sku (sku : string) (df : list (gmap string value))
    : result (option (gmap string value)) :=
  if CSVHandler.empty df then Ok None
  else
    let record := List.filter (has_sku sku) df in
    match head record with
    | None => Ok None
    | Some r => Some <$> _process_product_record r
    end.

Definition get_all (df : list (gmap string value)) : result (list (gmap string value)) :=
  if CSVHandler.empty df then Ok [] else mapM _process_product_record df.

End Product.
End ProductCSVHandler.

Module CustomerCSVHandler.
Section Customer.
Context `{PyText}.

Definition nan_default (key : string) : value :=
  if bool_decide (key ∈ ["alternate_phone"; "email"; "address"; "gender"; "last_visit"])
  then VNone
  else if bool_decide (key ∈ ["loyalty_points"; "visits"]) then VInt 0
  else if bool_decide (key ∈ ["total_spent"]) then VFloat 0
  else VNone.

Definition _process_customer_record (record : gmap string value)
    : result (gmap string value) :=
  record ← fill_missing is_missing_or_empty nan_default record;
  let record := str_field "id" record in
  record ← int_field_or_zero "loyalty_points" record;
  record ← float_field_or_zero "total_spent" record;
  record ← int_field_or_zero "visits" record;
  Ok (decode_field "preferences" (VDict []) record).

Definition create (uuid : string) (data : gmap string value) (df : list (gmap string value))
    : list (gmap string value) * result (gmap string value) :=
  let data := dumps_if_dict "preferences" data in
  let '(df', created_record) := CSVHandler.create uuid data df in
  (df', _process_customer_record created_record).

Definition update (record_id : string) (data : gmap string value)
    (df : list (gmap string value))
    : list (gmap string value) * result (option (gmap string value)) :=
  let data := dumps_if_dict "preferences" data in
  match CSVHandler.update record_id data df with
  | (df', None) => (df', Ok None)
  | (df', Some updated_record) => (df', Some <$> _process_customer_record updated_record)
  end.

Definition find_by_id (record_id : string) (df : list (gmap string value))
    : result (option (gmap string value)) :=
  match CSVHandler.find_by_id record_id df with
  | None => Ok None
  | Some record => Some <$> _process_customer_record record
  end.

End Customer.
End CustomerCSVHandler.

Module SalesCSVHandler.
Section Sales.
Context `{PyText}.

Definition nan_default (key : string) : value :=
  if bool_decide (key ∈ ["customer_id"; "timestamp"]) then VNone
  else if bool_decide (key ∈ ["paid_amount"; "remaining_amount"]) then VFloat 0
  else VNone.

Definition _process_sale_record (record : gmap string value)
    : result (gmap string value) :=
  record ← fill_missing is_missing nan_default record;
  let record := str_field "id" record in
  let record := str_field "cashier_id" record in
  record ← float_field "subtotal" record;
  record ← float_field "total" record;
  record ← float_field "paid_amount" record;
  record ← float_field "remaining_amount" record;
  Ok (decode_field "items" (VList []) record).

(** [if 'paid_amount' in data and 'total' in data: ...]; [data.get(k, 0)] of a
    key that is there is its value. *)
Definition payment_status (data : gmap string value) : result (gmap string value) :=
  match data !! "paid_amount", data !! "total" with
  | Some vp, Some vt =>
      paid_amount ← py_float vp;
      total ← py_float vt;
      if PrimFloat.leb total paid_amount then
        Ok (<["paid_amount" := VFloat total]>
              (<["remaining_amount" := VInt 0]>
                 (<["status" := VStr "completed"]> data)))
      else
        Ok (<["remaining_amount" := VFloat (PrimFloat.sub total paid_amount)]>
              (<["status" := VStr "partial_payment"]> data))
  | _, _ => Ok data
  end.

(** [now] is the value of [datetime.utcnow().isoformat()] *)
Definition create (now uuid : string) (data : gmap string value)
    (df : list (gmap string value))
    : list (gmap string value) * result (gmap string value) :=
  let data := dumps_if_list "items" data in
  let data := match data !! "timestamp" with
              | None => <["timestamp" := VStr now]> data
              | Some _ => data
              end in
  match payment_status data with
  | Raise e => (df, Raise e)
  | Ok data =>
      let '(df', created_record) := CSVHandler.create uuid data df in
      (df', _process_sale_record created_record)
  end.

Definition update (record_id : string) (data : gmap string value)
    (df : list (gmap string value))
    : list (gmap string value) * result (option (gmap string value)) :=
  let data := dumps_if_list "items" data in
  match CSVHandler.update record_id data df with
  | (df', None) => (df', Ok None)
  | (df', Some updated_record) => (df', Some <$> _process_sale_record updated_record)
  end.

Definition find_by_id (record_id : string) (df : list (gmap string value))
    : result (option (gmap string value)) :=
  match CSVHandler.find_by_id record_id df with
  | None => Ok None
  | Some record => Some <$> _process_sale_record record
  end.

Definition get_all (df : list (gmap string value)) : result (list (gmap string value)) :=
  if CSVHandler.empty df then Ok [] else mapM _process_sale_record df.

End Sales.
End SalesCSVHandler.

(** ** The pydantic models ([models/product.py], [models/sales.py])

    A model is a record; [dict] is what [.dict()] returns, with every field
    as a key, also those left at [None]. *)

Definition opt_str (o : option string) : value :=
  match o with
  | Some s => VStr s
  | None => VNone
  end.

Definition opt_float (o : option float) : value :=
  match o with
  | Some f => VFloat f
  | None => VNone
  end.

Module ProductVariant.
Record t : Type := {
  id : string;
  size : string;
  color : string;
  stock : Z;
  sku : string
}.

Definition dict (v : t) : value :=
  VDict [("id", VStr (id v)); ("size", VStr (size v)); ("color", VStr (color v));
         ("stock", VInt (stock v)); ("sku", VStr (sku v))].
End ProductVariant.

Module ProductCreate.
Record t : Type := {
  name : string;
  category : string;
  price : float;
  cost : float;
  stock : Z;
  sku : string;
  description : option string;
  image : option string;
  variants : list ProductVariant.t
}.

Definition dict (p : t) : gmap string value :=
  <["name" := VStr (name p)]>
  (<["category" := VStr (category p)]>
  (<["price" := VFloat (price p)]>
  (<["cost" := VFloat (cost p)]>
  (<["stock" := VInt (stock p)]>
  (<["sku" := VStr (sku p)]>
  (<["description" := opt_str (description p)]>
  (<["image" := opt_str (image p)]>
  (<["variants" := VList (map ProductVariant.dict (variants p))]> ∅)))))))).
End ProductCreate.

Inductive PaymentMethod : Type :=
  | CASH
  | CREDIT_CARD
  | DEBIT_CARD
  | MOBILE_PAYMENT.

Definition payment_method_value (m : PaymentMethod) : string :=
  match m with
  | CASH => "cash"
  | CREDIT_CARD => "credit_card"
  | DEBIT_CARD => "debit_card"
  | MOBILE_PAYMENT => "mobile_payment"
  end.

Inductive SaleStatus : Type :=
  | COMPLETED
  | PARTIAL_PAYMENT
  | REFUNDED
  | PARTIAL_REFUND
  | CANCELLED.

Definition sale_status_value (s : SaleStatus) : string :=
  match s with
  | COMPLETED => "completed"
  | PARTIAL_PAYMENT => "partial_payment"
  | REFUNDED => "refunded"
  | PARTIAL_REFUND => "partial_refund"
  | CANCELLED => "cancelled"
  end.

Module SaleItem.
Record t : Type := {
  product_id : string;
  variant_id : option string;
  quantity : Z;
  price : float;
  product_name : option string
}.

Definition dict (i : t) : value :=
  VDict [("product_id", VStr (product_id i)); ("variant_id", opt_str (variant_id i));
         ("quantity", VInt (quantity i)); ("price", VFloat (price i));
         ("product_name", opt_str (product_name i))].
End SaleItem.

Module SaleCreate.
Record t : Type := {
  customer_id : option string;
  items : list SaleItem.t;
  subtotal : float;
  total : float;
  payment_method : PaymentMethod;
  cashier_id : string;
  timestamp : option string;
  status : SaleStatus;
  paid_amount : option float;
  remaining_amount : option float
}.

Definition dict (s : t) : gmap string value :=
  <["customer_id" := opt_str (customer_id s)]>
  (<["items" := VList (map SaleItem.dict (items s))]>
  (<["subtotal" := VFloat (subtotal s)]>
  (<["total" := VFloat (total s)]>
  (<["payment_method" := VStr (payment_method_value (payment_method s))]>
  (<["cashier_id" := VStr (cashier_id s)]>
  (<["timestamp" := opt_str (timestamp s)]>
  (<["status" := VStr (sale_status_value (status s))]>
  (<["paid_amount" := opt_float (paid_amount s)]>
  (<["remaining_amount" := opt_float (remaining_amount s)]> ∅))))))))).
End SaleCreate.

(** ** The endpoints ([api/products.py], [api/sales.py])

    The three tables are the state; an endpoint is a computation that may
    raise and that leaves behind the tables it has written. The response
    model that wraps a returned record is not part of the embedding. *)

Record World : Type := {
  products_db : list (gmap string value);
  customers_db : list (gmap string value);
  sales_db : list (gmap string value)
}.

Definition IO (A : Type) : Type := World -> World * result A.

Definition io_ret {A} (a : A) : IO A := fun w => (w, Ok a).

Definition io_raise {A} (e : exn) : IO A := fun w => (w, Raise e).

Definition io_bind {A B} (m : IO A) (k : A -> IO B) : IO B := fun w =>
  match m w with
  | (w', Ok a) => k a w'
  | (w', Raise e) => (w', Raise e)
  end.

Notation "'let*' x := m 'in' k" := (io_bind m (fun x => k))
  (at level 10, x name, m at level 100, k at level 200).

Definition io_lift {A} (r : result A) : IO A := fun w => (w, r).

(** [for x in l: body(x)] *)
Fixpoint io_for {A} (l : list A) (body : A -> IO unit) : IO unit :=
  match l with
  | [] => io_ret tt
  | x :: l' => let* _ := body x in io_for l' body
  end.

(** [try: ... except HTTPException: raise
     except Exception as e: raise HTTPException(status_code=500, ...)] *)
Definition try_http {A} (m : IO A) : IO A := fun w =>
  match m w with
  | (w', Raise (HTTPException s d)) => (w', Raise (HTTPException s d))
  | (w', Raise _) => (w', Raise (HTTPException 500 InternalFailure))
  | (w', Ok a) => (w', Ok a)
  end.

Definition read_products {A} (f : list (gmap string value) -> result A) : IO A :=
  fun w => (w, f (products_db w)).

Definition read_customers {A} (f : list (gmap string value) -> result A) : IO A :=
  fun w => (w, f (customers_db w)).

Definition read_sales {A} (f : list (gmap string value) -> result A) : IO A :=
  fun w => (w, f (sales_db w)).

Definition on_products {A} (f : list (gmap string value) -> list (gmap string value) * result A)
    : IO A := fun w =>
  let '(df, r) := f (products_db w) in
  ({| products_db := df; customers_db := customers_db w; sales_db := sales_db w |}, r).

Definition on_customers {A} (f : list (gmap string value) -> list (gmap string value) * result A)
    : IO A := fun w =>
  let '(df, r) := f (customers_db w) in
  ({| products_db := products_db w; customers_db := df; sales_db := sales_db w |}, r).

Definition on_sales {A} (f : list (gmap string value) -> list (gmap string value) * result A)
    : IO A := fun w =>
  let '(df, r) := f (sales_db w) in
  ({| products_db := products_db w; customers_db := customers_db w; sales_db := df |}, r).

(** What the clock and the id generator answer during one call. *)
Record Env : Type := {
  utcnow_visit : string;
  utcnow_sale : string;
  uuid4 : string
}.

Section Endpoints.
Context `{PyText}.

(** [api/products.py], [create_product] *)
Definition create_product (uuid : string) (product : ProductCreate.t)
    : IO (gmap string value) :=
  try_http (
    let* existing_product :=
      read_products (ProductCSVHandler.find_by_sku (ProductCreate.sku product)) in
    if truthy existing_product then io_raise (HTTPException 400 Conflict)
    else
      let product_data := ProductCreate.dict product in
      let* created_product := on_products (ProductCSVHandler.create uuid product_data) in
      io_ret created_product).

(** The body of [for item in sale.items] in [create_sale] *)
Definition check_and_take_stock (item : SaleItem.t) : IO unit :=
  let* product :=
    read_products (ProductCSVHandler.find_by_id (SaleItem.product_id item)) in
  if negb (truthy product) then
    let* all_products := read_products ProductCSVHandler.get_all in
    io_raise (HTTPException 400 NotFound)
  else
    let product := default ∅ product in
    let current_stock := get "stock" (VInt 0) product in
    let* short := io_lift (py_lt current_stock (VInt (SaleItem.quantity item))) in
    if (short : bool) then io_raise (HTTPException 400 InsufficientStock)
    else
      let* new_stock := io_lift (py_sub current_stock (VInt (SaleItem.quantity item))) in
      let* _ := on_products
        (ProductCSVHandler.update (SaleItem.product_id item) {["stock" := new_stock]}) in
      io_ret tt.

(** [if sale.customer_id: ...] in [create_sale] *)
Definition update_customer_stats (env : Env) (sale : SaleCreate.t) : IO unit :=
  match SaleCreate.customer_id sale with
  | None | Some EmptyString => io_ret tt
  | Some customer_id =>
      let* customer := read_customers (CustomerCSVHandler.find_by_id customer_id) in
      if truthy customer then
        let customer := default ∅ customer in
        let* new_total_spent := io_lift
          (py_add (get "total_spent" (VInt 0) customer) (VFloat (SaleCreate.total sale))) in
        let* new_visits := io_lift (py_add (get "visits" (VInt 0) customer) (VInt 1)) in
        let* points := io_lift (py_int (VFloat (SaleCreate.total sale))) in
        let* new_loyalty_points := io_lift
          (py_add (get "loyalty_points" (VInt 0) customer) (VInt points)) in
        let* _ := on_customers
          (CustomerCSVHandler.update customer_id
             (<["total_spent" := new_total_spent]>
             (<["visits" := new_visits]>
             (<["loyalty_points" := new_loyalty_points]>
             (<["last_visit" := VStr (utcnow_visit env)]> ∅))))) in
        io_ret tt
      else io_ret tt
  end.

(** [api/sales.py], [create_sale] *)
Definition create_sale (env : Env) (sale : SaleCreate.t) : IO (gmap string value) :=
  try_http (
    let* _ := io_for (SaleCreate.items sale) check_and_take_stock in
    let* _ := update_customer_stats env sale in
    let sale_data := SaleCreate.dict sale in
    let* created_sale :=
      on_sales (SalesCSVHandler.create (utcnow_sale env) (uuid4 env) sale_data) in
    io_ret created_sale).

End Endpoints.

(** ** The analytics aggregator ([api/sales.py], [get_sales_analytics])

    The window starts at [cutoff_date], the value of
    [(datetime.utcnow() - timedelta(days=days)).isoformat()]. The loop that
    fills [product_sales] is embedded, since it may raise; the sort of its
    entries into [top_products], which compares numbers and raises nothing,
    is not, and the answer is without that field. *)

Record SalesAnalytics : Type := {
  total_sales : float;
  total_transactions : Z;
  average_order_value : float;
  sales_by_payment_method : list (value * Z);
  sales_by_day : list (string * float);
  revenue_trend : list (string * float)
}.

Fixpoint filterM {A : Type} (p : A -> result bool) (l : list A) : result (list A) :=
  match l with
  | [] => Ok []
  | x :: l' =>
      b ← p x; ys ← filterM p l'; Ok (if (b : bool) then x :: ys else ys)
  end.

Fixpoint fold_leftM {A B : Type} (f : A -> B -> result A) (l : list B) (a : A) : result A :=
  match l with
  | [] => Ok a
  | x :: l' => a' ← f a x; fold_leftM f l' a'
  end.

(** [sum(l)]: from the integer 0, left to right *)
Definition py_sum (l : list value) : result value :=
  fold_leftM py_add l (VInt 0).

(** [v[:10]]; a key of a dict must be hashable, which a slice of a list is
    not *)
Definition date_part (v : value) : result string :=
  match v with
  | VStr s => Ok (String.substring 0 10 s)
  | _ => Raise TypeError
  end.

(** [d[k] += x] on a [defaultdict(float)]: the dict keeps its keys in the
    order they came in *)
Fixpoint dict_add (k : string) (x : float) (d : list (string * float)) : list (string * float) :=
  match d with
  | [] => [(k, PrimFloat.add 0 x)]
  | (k', a) :: d' =>
      if String.eqb k' k then (k', PrimFloat.add a x) :: d'
      else (k', a) :: dict_add k x d'
  end.

(** The float that [acc + v] adds to a float [acc] *)
Definition addend (v : value) : result float :=
  match as_number v with
  | Some n => float_of_number n
  | None => Raise TypeError
  end.

Definition daily_step (daily_sales : list (string * float)) (sale : gmap string value)
    : result (list (string * float)) :=
  sale_date ← date_part (get "timestamp" (VStr "") sale);
  x ← addend (get "total" (VInt 0) sale);
  Ok (dict_add sale_date x daily_sales).

(** The order of [sorted(daily_sales.items())]: by the date; no two items
    of a dict have the same key, so the revenue never decides. *)
Definition item_le (x y : string * float) : Prop :=
  Is_true (String.leb (fst x) (fst y)).

#[global] Instance item_le_dec : RelDecision item_le.
Proof. intros x y. unfold item_le. apply _. Defined.

(** [bool(v)] *)
Definition py_bool (v : value) : bool :=
  match v with
  | VNone => false
  | VBool b => b
  | VInt z => negb (z =? 0)
  | VFloat f => negb (PrimFloat.eqb f 0)
  | VStr s => negb (String.eqb s "")
  | VList l => match l with [] => false | _ :: _ => true end
  | VDict d => match d with [] => false | _ :: _ => true end
  end.

(** [for x in v]: the elements of a list, the characters of a string, the
    keys of a dict *)
Definition py_iter (v : value) : result (list value) :=
  match v with
  | VList l => Ok l
  | VStr s => Ok (map (fun c => VStr (String c EmptyString)) (list_ascii_of_string s))
  | VDict d => Ok (map (fun kv => VStr (fst kv)) d)
  | VNone | VBool _ | VInt _ | VFloat _ => Raise TypeError
  end.

(** [item.get(k, dflt)], a method that only a dict has *)
Definition item_get (k : string) (dflt : value) (item : value) : result value :=
  match item with
  | VDict d =>
      Ok (match List.find (fun kv => String.eqb (fst kv) k) d with
          | Some kv => snd kv
          | None => dflt
          end)
  | _ => Raise AttributeError
  end.

(** [s * n] *)
Definition py_repeat {A} (n : Z) (l : list A) : list A :=
  List.concat (repeat l (Z.to_nat n)).

Definition as_count (v : value) : option Z :=
  match v with
  | VInt z => Some z
  | VBool b => Some (bool_to_Z b)
  | _ => None
  end.

(** [a * b]: two numbers, or a string or a list and a count. The code adds
    the product to a number next, which a string or a list fails. *)
Definition py_mul (a b : value) : result value :=
  match a, as_count b, as_count a, b with
  | VStr s, Some n, _, _ | _, _, Some n, VStr s =>
      Ok (VStr (string_of_list_ascii (py_repeat n (list_ascii_of_string s))))
  | VList l, Some n, _, _ | _, _, Some n, VList l => Ok (VList (py_repeat n l))
  | _, _, _, _ => num_arith Z.mul PrimFloat.mul a b
  end.

(** A list and a dict cannot be the key of a dict. *)
Definition hashable (v : value) : bool :=
  match v with
  | VList _ | VDict _ => false
  | _ => true
  end.

(** The test that finds a key in a dict: [None], strings, and numbers by
    their value. A NaN is found again: the NaNs that reach these dicts are the
    one object that [json.loads] returns, and a dict tests identity first. *)
Definition key_eq (a b : value) : bool :=
  match a, b with
  | VNone, VNone => true
  | VStr s, VStr t => String.eqb s t
  | _, _ =>
      match as_number a, as_number b with
      | Some (NInt x), Some (NInt y) => x =? y
      | Some (NFloat x), Some (NFloat y) =>
          PrimFloat.eqb x y || PrimFloat.is_nan x && PrimFloat.is_nan y
      | Some (NInt x), Some (NFloat y) | Some (NFloat y), Some (NInt x) =>
          negb (PrimFloat.is_nan y) && negb (int_lt_float x y) && negb (float_lt_int y x)
      | _, _ => false
      end
  end.

(** An entry of [product_sales] *)
Module ProductSales.
Record t : Type := {
  quantity : value;
  revenue : value;
  name : value
}.

(** [{"quantity": 0, "revenue": 0, "name": ""}] *)
Definition fresh : t :=
  {| quantity := VInt 0; revenue := VInt 0; name := VStr "" |}.
End ProductSales.

(** The statements on [d[k]] of a [defaultdict], on the entry of the key:
    the fresh one when the key is new. *)
Fixpoint on_entry {E : Type} (fresh : E) (k : value) (f : E -> result E)
    (d : list (value * E)) : result (list (value * E)) :=
  match d with
  | [] => e ← f fresh; Ok [(k, e)]
  | (k', e) :: d' =>
      if key_eq k' k then e' ← f e; Ok ((k', e') :: d')
      else d'' ← on_entry fresh k f d'; Ok ((k', e) :: d'')
  end.

(** [Counter(l)] *)
Definition Counter (l : list value) : result (list (value * Z)) :=
  fold_leftM
    (fun c k => if hashable k then on_entry 0 k (fun n => Ok (n + 1)) c else Raise TypeError)
    l [].

(** [except Exception as e: raise HTTPException(status_code=500, ...)] *)
Definition try_500 {A} (m : IO A) : IO A := fun w =>
  match m w with
  | (w', Raise _) => (w', Raise (HTTPException 500 InternalFailure))
  | (w', Ok a) => (w', Ok a)
  end.

Section Analytics.
Context `{PyText}.

Definition in_window (cutoff_date : string) (s : gmap string value) : result bool :=
  py_ge (get "timestamp" (VStr "") s) (VStr cutoff_date).

(** [products_db.find_by_id(product_id)]: the ids of the table are strings,
    and none of them equals a key that is not one. *)
Definition find_product (products : list (gmap string value)) (product_id : value)
    : result (option (gmap string value)) :=
  match product_id with
  | VStr s => ProductCSVHandler.find_by_id s products
  | _ => Ok None
  end.

(** The body of [for item in sale.get('items', [])] *)
Definition item_step (products : list (gmap string value))
    (product_sales : list (value * ProductSales.t)) (item : value)
    : result (list (value * ProductSales.t)) :=
  product_id ← item_get "product_id" VNone item;
  quantity ← item_get "quantity" (VInt 0) item;
  price ← item_get "price" (VInt 0) item;
  revenue ← py_mul price quantity;
  if hashable product_id then
    on_entry ProductSales.fresh product_id (fun e =>
      quantity ← py_add (ProductSales.quantity e) quantity;
      revenue ← py_add (ProductSales.revenue e) revenue;
      name ← (if py_bool (ProductSales.name e) then Ok (ProductSales.name e)
              else
                product ← find_product products product_id;
                Ok (match product with
                    | Some p => if truthy product then get "name" (VStr "Unknown") p
                                else VStr "Unknown"
                    | None => VStr "Unknown"
                    end));
      Ok {| ProductSales.quantity := quantity;
            ProductSales.revenue := revenue;
            ProductSales.name := name |}) product_sales
  else Raise TypeError.

(** The body of [for sale in recent_sales] *)
Definition sale_step (products : list (gmap string value))
    (product_sales : list (value * ProductSales.t)) (sale : gmap string value)
    : result (list (value * ProductSales.t)) :=
  items ← py_iter (get "items" (VList []) sale);
  fold_leftM (item_step products) items product_sales.

Definition get_sales_analytics (cutoff_date : string) : IO SalesAnalytics :=
  try_500 (
    let* all_sales := read_sales SalesCSVHandler.get_all in
    let* all_products := read_products ProductCSVHandler.get_all in
    let* recent_sales := io_lift (filterM (in_window cutoff_date) all_sales) in
    let* total_sales := io_lift (py_sum (map (get "total" (VInt 0)) recent_sales)) in
    let total_transactions := Z.of_nat (length recent_sales) in
    let* average_order_value := io_lift
      (if 0 <? total_transactions then py_truediv total_sales total_transactions
       else Ok (VInt 0)) in
    let* product_sales :=
      read_products (fun products => fold_leftM (sale_step products) recent_sales []) in
    let* payment_methods := io_lift
      (Counter (map (get "payment_method" (VStr "unknown")) recent_sales)) in
    let* daily_sales := io_lift (fold_leftM daily_step recent_sales []) in
    let revenue_trend := merge_sort item_le daily_sales in
    let* total_sales := io_lift (py_float total_sales) in
    let* average_order_value := io_lift (py_float average_order_value) in
    io_ret {| total_sales := total_sales;
              total_transactions := total_transactions;
              average_order_value := average_order_value;
              sales_by_payment_method := payment_methods;
              sales_by_day := daily_sales;
              revenue_trend := revenue_trend |}).

(** Whether the two rollups of the window that are not sums of totals go
    through: the loop over the items of its sales, and the count of its
    payment methods. *)
Definition rollups (cutoff_date : string) (w : World) : result unit :=
  all_sales ← SalesCSVHandler.get_all (sales_db w);
  recent_sales ← filterM (in_window cutoff_date) all_sales;
  _ ← fold_leftM (sale_step (products_db w)) recent_sales [];
  _ ← Counter (map (get "payment_method" (VStr "unknown")) recent_sales);
  Ok tt.

End Analytics.

(** ** Notions used in the statements *)

(** What may follow a value in the text that [json_dumps] writes: the end,
    or the comma or bracket that closes its place. *)
Definition delimited (rest : string) : bool :=
  match rest with
  | EmptyString => true
  | String c _ => Ascii.eqb c "," || Ascii.eqb c "]" || Ascii.eqb c "}"
  end.

(** Nesting depth of a value. *)
Fixpoint depth (v : value) : nat :=
  match v with
  | VList l => S (list_max (map depth l))
  | VDict d => S (list_max (map (fun kv => depth (snd kv)) d))
  | _ => O
  end.

(** The values that [json.dumps] writes without a float in them, the keys of
    every dict distinct (as the keys of a Python dict are). *)
Fixpoint json_safe (v : value) : Prop :=
  match v with
  | VFloat _ => False
  | VList l => fold_right (fun x acc => json_safe x /\ acc) True l
  | VDict d =>
      NoDup (map fst d) /\ fold_right (fun kv acc => json_safe (snd kv) /\ acc) True d
  | _ => True
  end.

(** The first character of the text of a value: no blank, and no closing
    bracket. *)
Definition value_head (s : string) : bool :=
  match s with
  | String c _ => negb (is_ws c) && negb (Ascii.eqb c "]") && negb (Ascii.eqb c "}")
  | EmptyString => false
  end.

(** One pair of an object in the text of [json_dumps] *)
Definition json_member `{PyText} (kv : string * value) : string :=
  json_quote (fst kv) +:+ ": " +:+ json_dumps (snd kv).

(** The stock of a product record that the codec returned. *)
Definition stock_of (product : gmap string value) : Z :=
  match get "stock" (VInt 0) product with
  | VInt z => z
  | _ => 0
  end.

(** The table [update] leaves behind when some row has the key. *)
Definition updated_table (record_id : string) (data : gmap string value)
    (df : list (gmap string value)) : list (gmap string value) :=
  map (fun r => if CSVHandler.has_id record_id r then CSVHandler.set_fields data r else r) df.

(** The table of products after [quantity] of the product [product_id],
    whose record is [product], has been taken from its stock. *)
Definition take_stock (product_id : string) (product : gmap string value) (quantity : Z)
    (df : list (gmap string value)) : list (gmap string value) :=
  updated_table product_id {["stock" := VInt (stock_of product - quantity)]} df.

Definition with_products (df : list (gmap string value)) (w : World) : World :=
  {| products_db := df; customers_db := customers_db w; sales_db := sales_db w |}.

Definition with_customers (df : list (gmap string value)) (w : World) : World :=
  {| products_db := products_db w; customers_db := df; sales_db := sales_db w |}.

Definition with_sales (df : list (gmap string value)) (w : World) : World :=
  {| products_db := products_db w; customers_db := customers_db w; sales_db := df |}.

(** Scenario B of the specification: a sale of total 100 with [paid] paid. *)
Definition scenario_B_item : SaleItem.t :=
  {| SaleItem.product_id := "p1"; SaleItem.variant_id := None;
     SaleItem.quantity := 1; SaleItem.price := 100;
     SaleItem.product_name := None |}.

Definition scenario_B_sale (paid : float) : SaleCreate.t :=
  {| SaleCreate.customer_id := None;
     SaleCreate.items := [scenario_B_item];
     SaleCreate.subtotal := 100;
     SaleCreate.total := 100;
     SaleCreate.payment_method := CASH;
     SaleCreate.cashier_id := "u1";
     SaleCreate.timestamp := None;
     SaleCreate.status := COMPLETED;
     SaleCreate.paid_amount := Some paid;
     SaleCreate.remaining_amount := None |}.

(** The aggregates of a customer record that the codec returned. *)
Definition spent_of (customer : gmap string value) : float :=
  match get "total_spent" (VInt 0) customer with
  | VFloat x => x
  | _ => 0%float
  end.

Definition visits_of (customer : gmap string value) : Z :=
  match get "visits" (VInt 0) customer with
  | VInt z => z
  | _ => 0
  end.

Definition points_of (customer : gmap string value) : Z :=
  match get "loyalty_points" (VInt 0) customer with
  | VInt z => z
  | _ => 0
  end.

(** The payload of the one [update] call that [create_sale] makes for a
    customer [customer] and a sale of total [total], [points] being
    [int(total)] and [now] the time of the call. *)
Definition customer_stats (customer : gmap string value) (total : float) (points : Z)
    (now : string) : gmap string value :=
  <["total_spent" := VFloat (PrimFloat.add (spent_of customer) total)]>
  (<["visits" := VInt (visits_of customer + 1)]>
  (<["loyalty_points" := VInt (points_of customer + points)]>
  (<["last_visit" := VStr now]> ∅))).

(** A cell that the float conversion of a codec takes: no list of two or
    more elements, and no integer beyond the range of a float. *)
Definition float_ready (v : value) : Prop :=
  isna_ambiguous v = false
  /\ forall z, v = VInt z -> is_inf (float_of_int z) = false.

(** Scenario A of the specification: a product with 5 in stock, a sale of 5
    of it and then a sale of 1. *)
Definition scenario_A_product : gmap string value :=
  <["id" := VStr "p1"]> (<["name" := VStr "Dress"]> (<["category" := VStr "Women"]>
  (<["price" := VFloat 20]> (<["cost" := VFloat 8]> (<["stock" := VInt 5]>
  (<["sku" := VStr "DR-1"]> (<["description" := VStr ""]> (<["image" := VStr ""]>
  (<["variants" := VStr "[]"]> ∅))))))))).

Definition scenario_A_world : World :=
  {| products_db := [scenario_A_product]; customers_db := []; sales_db := [] |}.

Definition scenario_A_sale (quantity : Z) : SaleCreate.t :=
  {| SaleCreate.customer_id := None;
     SaleCreate.items :=
       [{| SaleItem.product_id := "p1"; SaleItem.variant_id := None;
           SaleItem.quantity := quantity; SaleItem.price := 20;
           SaleItem.product_name := None |}];
     SaleCreate.subtotal := 100;
     SaleCreate.total := 100;
     SaleCreate.payment_method := CASH;
     SaleCreate.cashier_id := "u1";
     SaleCreate.timestamp := None;
     SaleCreate.status := COMPLETED;
     SaleCreate.paid_amount := Some 100%float;
     SaleCreate.remaining_amount := None |}.

Definition scenario_env : Env :=
  {| utcnow_visit := "2024-05-01T10:00:00.000000";
     utcnow_sale := "2024-05-01T10:00:00.000100";
     uuid4 := "6f1c2a7e-0000-4000-8000-000000000001" |}.

(** A products file with one product, created with the sku 12345, as
    [read_all] returns it: the dtype map of [read_all] names the id columns
    only, so pandas reads the column of digits as integers. And the request
    of a second product with that sku. *)
Definition numeric_sku_row : gmap string value :=
  <["id" := VStr "p1"]> (<["name" := VStr "Dress"]> (<["category" := VStr "Women"]>
  (<["price" := VFloat 20]> (<["cost" := VFloat 8]> (<["stock" := VInt 5]>
  (<["sku" := VInt 12345]> (<["description" := VStr ""]> (<["image" := VStr ""]>
  (<["variants" := VStr "[]"]> ∅))))))))).

Definition numeric_sku_world : World :=
  {| products_db := [numeric_sku_row]; customers_db := []; sales_db := [] |}.

Definition numeric_sku_product : ProductCreate.t :=
  {| ProductCreate.name := "Scarf";
     ProductCreate.category := "Accessories";
     ProductCreate.price := 12;
     ProductCreate.cost := 5;
     ProductCreate.stock := 3;
     ProductCreate.sku := "12345";
     ProductCreate.description := None;
     ProductCreate.image := None;
     ProductCreate.variants := [] |}.

(** An instance of the text conversions for the closed examples; nothing
    that is proved depends on what it answers. *)
Definition example_text : PyText :=
  {| float_repr := fun _ => "0.0";
     float_of_str := fun _ => None;
     int_of_str := fun _ => None;
     container_str := fun _ => "[]" |}.

(** What a call came to, without the record it returned. *)
Definition outcome {A : Type} (r : result A) : result unit :=
  match r with
  | Ok _ => Ok tt
  | Raise e => Raise e
  end.

Section Observations.
Context `{PyText}.

(** The stock that a lookup of a product finds. *)
Definition stock_in_table (product_id : string) (df : list (gmap string value))
    : result (option Z) :=
  match ProductCSVHandler.find_by_id product_id df with
  | Ok (Some p) => Ok (Some (stock_of p))
  | Ok None => Ok None
  | Raise e => Raise e
  end.

(** The aggregates that a lookup of a customer finds: total spent, visits,
    loyalty points. *)
Definition stats_in_table (customer_id : string) (df : list (gmap string value))
    : result (option (float * Z * Z)) :=
  match CustomerCSVHandler.find_by_id customer_id df with
  | Ok (Some c) => Ok (Some (spent_of c, visits_of c, points_of c))
  | Ok None => Ok None
  | Raise e => Raise e
  end.

End Observations.

(** Scenario C of the specification: a customer with no spend, no visit and
    no point yet, and a sale of total 37.5 linked to them. *)
Definition scenario_C_customer : gmap string value :=
  <["id" := VStr "c1"]> (<["first_name" := VStr "Ada"]> (<["last_name" := VStr "Byron"]>
  (<["loyalty_points" := VInt 0]> (<["total_spent" := VFloat 0]> (<["visits" := VInt 0]>
  (<["last_visit" := VNone]> (<["preferences" := VStr "{}"]> ∅))))))).

Definition scenario_C_world : World :=
  {| products_db := [scenario_A_product];
     customers_db := [scenario_C_customer];
     sales_db := [] |}.

Definition scenario_C_sale : SaleCreate.t :=
  {| SaleCreate.customer_id := Some "c1";
     SaleCreate.items :=
       [{| SaleItem.product_id := "p1"; SaleItem.variant_id := None;
           SaleItem.quantity := 1; SaleItem.price := 37.5;
           SaleItem.product_name := None |}];
     SaleCreate.subtotal := 37.5;
     SaleCreate.total := 37.5;
     SaleCreate.payment_method := CREDIT_CARD;
     SaleCreate.cashier_id := "u1";
     SaleCreate.timestamp := None;
     SaleCreate.status := COMPLETED;
     SaleCreate.paid_amount := Some 37.5%float;
     SaleCreate.remaining_amount := None |}.

(** A line item fails the stock check in a world: its product is absent (and
    the table can be listed for the log), or the product has less in stock
    than the item asks for. *)
Definition item_rejected `{PyText} (item : SaleItem.t) (w : World) (why : failure) : Prop :=
  (why = NotFound
   /\ ProductCSVHandler.find_by_id (SaleItem.product_id item) (products_db w) = Ok None
   /\ exists ps, ProductCSVHandler.get_all (products_db w) = Ok ps)
  \/
  (why = InsufficientStock
   /\ exists p, ProductCSVHandler.find_by_id (SaleItem.product_id item) (products_db w)
                = Ok (Some p)
                /\ stock_of p < SaleItem.quantity item).

(** *** The analytics, in the words of the specification

    A sale is seen as its timestamp and its total. The window is the set of
    sales whose timestamp is at or after the cutoff, in the order of strings
    (the order of ISO timestamps); the revenue of a list of sales is the sum
    of their totals, from 0.0, in the order of the table; the day of a sale
    is the first ten characters of its timestamp. *)

Section Views.
Context `{PyText}.

(** The timestamp and the total of a stored sale, when the codec accepts
    the row and leaves a string and a float there. *)
Definition sale_view (r : gmap string value) : result (string * float) :=
  p ← SalesCSVHandler._process_sale_record r;
  match p !! "timestamp", p !! "total" with
  | Some (VStr ts), Some (VFloat x) => Ok (ts, x)
  | _, _ => Raise TypeError
  end.

End Views.

Definition in_window_view (cutoff_date : string) (v : string * float) : bool :=
  String.leb cutoff_date (fst v).

Definition revenue (l : list (string * float)) : float :=
  fold_left PrimFloat.add (map snd l) 0%float.

Definition sale_date (ts : string) : string := String.substring 0 10 ts.

Definition on_day (day : string) (l : list (string * float)) : list (string * float) :=
  List.filter (fun v => String.eqb (sale_date (fst v)) day) l.

Definition average (l : list (string * float)) : float :=
  match l with
  | [] => 0%float
  | _ :: _ => PrimFloat.div (revenue l) (float_of_int (Z.of_nat (length l)))
  end.

(** A processed sale with its view. *)
Definition viewed (s : gmap string value) (v : string * float) : Prop :=
  s !! "timestamp" = Some (VStr (fst v)) /\ s !! "total" = Some (VFloat (snd v)).

(** [d.get(k)] on a dict kept as a list of pairs *)
Fixpoint alookup (k : string) (d : list (string * float)) : option float :=
  match d with
  | [] => None
  | (k', a) :: d' => if String.eqb k' k then Some a else alookup k d'
  end.

Definition daily_of (l : list (string * float)) (d : list (string * float))
    : list (string * float) :=
  fold_left (fun d v => dict_add (sale_date (fst v)) (snd v) d) l d.

(** Scenario D of the specification: a window of thirty days before
    2024-05-01T10:00:00, one sale dated before the window and three in it,
    two of them on the same day. *)
Definition scenario_D_row (id timestamp : string) (total : float) : gmap string value :=
  <["id" := VStr id]> (<["cashier_id" := VStr "u1"]> (<["timestamp" := VStr timestamp]>
  (<["subtotal" := VFloat total]> (<["total" := VFloat total]>
  (<["payment_method" := VStr "cash"]> (<["status" := VStr "completed"]>
  (<["items" := VStr "[]"]> ∅))))))).

Definition scenario_D_world : World :=
  {| products_db := [];
     customers_db := [];
     sales_db := [ scenario_D_row "s1" "2024-03-15T09:00:00.000000" 50;
                   scenario_D_row "s2" "2024-04-10T12:00:00.000000" 20;
                   scenario_D_row "s3" "2024-04-05T08:00:00.000000" 10;
                   scenario_D_row "s4" "2024-04-10T15:30:00.000000" 5.5 ] |}.

Definition scenario_D_cutoff : string := "2024-04-01T10:00:00.000000".

(** A sale of two lines of the product of scenario A, 2 and then 10 of it,
    and a sale of 5 of it that leaves [paid_amount] out. *)
Definition split_sale : SaleCreate.t :=
  {| SaleCreate.customer_id := None;
     SaleCreate.items :=
       [{| SaleItem.product_id := "p1"; SaleItem.variant_id := None;
           SaleItem.quantity := 2; SaleItem.price := 20;
           SaleItem.product_name := None |};
        {| SaleItem.product_id := "p1"; SaleItem.variant_id := None;
           SaleItem.quantity := 10; SaleItem.price := 20;
           SaleItem.product_name := None |}];
     SaleCreate.subtotal := 240;
     SaleCreate.total := 240;
     SaleCreate.payment_method := CASH;
     SaleCreate.cashier_id := "u1";
     SaleCreate.timestamp := None;
     SaleCreate.status := COMPLETED;
     SaleCreate.paid_amount := Some 240%float;
     SaleCreate.remaining_amount := None |}.

Definition unpaid_sale : SaleCreate.t :=
  {| SaleCreate.customer_id := None;
     SaleCreate.items :=
       [{| SaleItem.product_id := "p1"; SaleItem.variant_id := None;
           SaleItem.quantity := 5; SaleItem.price := 20;
           SaleItem.product_name := None |}];
     SaleCreate.subtotal := 100;
     SaleCreate.total := 100;
     SaleCreate.payment_method := CASH;
     SaleCreate.cashier_id := "u1";
     SaleCreate.timestamp := None;
     SaleCreate.status := COMPLETED;
     SaleCreate.paid_amount := None;
     SaleCreate.remaining_amount := None |}.

(** The record that a lookup finds, or the empty record. *)
Definition found (r : result (option (gmap string value))) : gmap string value :=
  match r with
  | Ok (Some p) => p
  | _ => ∅
  end.

(** *** Shapes that the proofs name *)

(** A stage that converts one field: it leaves the other cells alone, and a
    cell put in another field's place passes through it. *)
Definition converts (f : string) (stage : gmap string value -> result (gmap string value))
    : Prop :=
  forall r r', stage r = Ok r' ->
    (forall k, k <> f -> r' !! k = r !! k)
    /\ (forall k v, k <> f -> stage (<[k := v]> r) = Ok (<[k := v]> r'))
    /\ (r <> ∅ -> r' <> ∅).

(** The float that the product codec returns for a stored float: a NaN is a
    missing value, and the codec puts 0.0 in its place. *)
Definition not_nan (x : float) : float := if PrimFloat.is_nan x then 0%float else x.

(** The sum that [+=] builds for a day, from what the dict holds for it. *)
Definition accumulate (o : option float) (xs : list float) : option float :=
  fold_left (fun o x => Some (PrimFloat.add (default 0%float o) x)) xs o.

Section Shapes.
Context `{PyText}.

(** The dict that [SalesCSVHandler.create] hands to [payment_status]. *)
Definition prepared (now : string) (data : gmap string value) : gmap string value :=
  let data := dumps_if_list "items" data in
  match data !! "timestamp" with
  | None => <["timestamp" := VStr now]> data
  | Some _ => data
  end.

(** The row that [ProductCSVHandler.create] stores for a request. *)
Definition stored_product (uuid : string) (p : ProductCreate.t) : gmap string value :=
  <["id" := VStr uuid]>
  (<["name" := VStr (ProductCreate.name p)]>
  (<["category" := VStr (ProductCreate.category p)]>
  (<["price" := VFloat (ProductCreate.price p)]>
  (<["cost" := VFloat (ProductCreate.cost p)]>
  (<["stock" := VInt (ProductCreate.stock p)]>
  (<["sku" := VStr (ProductCreate.sku p)]>
  (<["description" := opt_str (ProductCreate.description p)]>
  (<["image" := opt_str (ProductCreate.image p)]>
  (<["variants" :=
       VStr (json_dumps (VList (map ProductVariant.dict (ProductCreate.variants p))))]>
     ∅))))))))).

End Shapes.

(** ** The response models ([models/product.py], [models/customer.py],
    [models/sales.py])

    An endpoint builds its response inside its [try]:
    [CustomerResponse(..., data=customer)],
    [ProductListResponse(..., data=products, total=...)] and the like validate
    each record that they are handed against [Customer], [Product] or [Sale].
    A record that the model rejects raises pydantic's [ValidationError], a
    [ValueError], and the [except Exception] of the endpoint answers it as 500.
    Which records a model accepts is decided by pydantic from the field types
    and the validators of the model; the decision is taken as a parameter, so
    that what is proved holds whatever it is. An endpoint that answers returns
    the response built from the records that it handed over. *)
Inductive response_model : Type :=
  | Customer
  | Product
  | Sale.

Class Pydantic : Type := {
  accepts : response_model -> gmap string value -> bool
}.

(** [Response(success=True, message=..., data=records, ...)]: the records
    of a list, or the one record of an [Optional] *)
Definition respond {validation : Pydantic} (model : response_model)
    (records : list (gmap string value)) : IO unit :=
  if forallb (accepts model) records then io_ret tt else io_raise ValueError.

(** ** The other endpoints of [api/products.py]

    [get_product], [update_product] and [update_sale] are embedded up to the
    response that they build last, after every write: what is stated of them
    is the 404 and 400 that they raise before it and the table that they
    leave. *)

Section ProductEndpoints.
Context `{PyText}.

(** [get_product] *)
Definition get_product (product_id : string) : IO (option (gmap string value)) :=
  try_http (
    let* product := read_products (ProductCSVHandler.find_by_id product_id) in
    if negb (truthy product) then io_raise (HTTPException 404 NotFound)
    else io_ret product).

(** [delete_product]; the handler of products has the [delete] of the base
    class. *)
Definition delete_product (product_id : string) : IO unit :=
  try_http (
    let* existing_product := read_products (ProductCSVHandler.find_by_id product_id) in
    if negb (truthy existing_product) then io_raise (HTTPException 404 NotFound)
    else
      let* success := on_products (fun df =>
        let '(df', deleted) := CSVHandler.delete product_id df in (df', Ok deleted)) in
      if negb success then io_raise (HTTPException 500 InternalFailure)
      else io_ret tt).

End ProductEndpoints.

Definition opt_int (o : option Z) : value :=
  match o with
  | Some z => VInt z
  | None => VNone
  end.

(** [v is not None] *)
Definition is_not_None (v : value) : bool :=
  match v with
  | VNone => false
  | _ => true
  end.

(** [{k: v for k, v in d.items() if v is not None}] *)
Definition without_None (d : gmap string value) : gmap string value :=
  filter (fun kv => is_not_None (snd kv) = true) d.

(** [models/product.py], [ProductUpdate]: every field is optional, and a
    field left out is [None]. *)
Module ProductUpdate.
Record t : Type := {
  name : option string;
  category : option string;
  price : option float;
  cost : option float;
  stock : option Z;
  sku : option string;
  description : option string;
  image : option string;
  variants : option (list ProductVariant.t)
}.

Definition dict (p : t) : gmap string value :=
  <["name" := opt_str (name p)]>
  (<["category" := opt_str (category p)]>
  (<["price" := opt_float (price p)]>
  (<["cost" := opt_float (cost p)]>
  (<["stock" := opt_int (stock p)]>
  (<["sku" := opt_str (sku p)]>
  (<["description" := opt_str (description p)]>
  (<["image" := opt_str (image p)]>
  (<["variants" := match variants p with
                   | Some vs => VList (map ProductVariant.dict vs)
                   | None => VNone
                   end]> ∅)))))))).
End ProductUpdate.

Section ProductUpdateEndpoint.
Context `{PyText}.

(** [existing_sku and existing_sku['id'] != product_id]. Every row of a
    DataFrame has every column: a row that the table holds no id for is read
    with the empty string for its id, which is the id of no request. *)
Definition other_product (existing_sku : option (gmap string value)) (product_id : string)
    : bool :=
  truthy existing_sku &&
  match existing_sku with
  | Some p =>
      match p !! "id" with
      | Some (VStr s) => negb (String.eqb s product_id)
      | _ => true
      end
  | None => false
  end.

(** [if product_update.sku: ...] in [update_product] *)
Definition check_new_sku (product_id : string) (product_update : ProductUpdate.t)
    : IO unit :=
  match ProductUpdate.sku product_update with
  | None | Some EmptyString => io_ret tt
  | Some sku =>
      let* existing_sku := read_products (ProductCSVHandler.find_by_sku sku) in
      if other_product existing_sku product_id
      then io_raise (HTTPException 400 Conflict)
      else io_ret tt
  end.

(** [update_product] *)
Definition update_product (product_id : string) (product_update : ProductUpdate.t)
    : IO (option (gmap string value)) :=
  try_http (
    let* existing_product := read_products (ProductCSVHandler.find_by_id product_id) in
    if negb (truthy existing_product) then io_raise (HTTPException 404 NotFound)
    else
      let* _ := check_new_sku product_id product_update in
      let update_data := without_None (ProductUpdate.dict product_update) in
      let* updated_product :=
        on_products (ProductCSVHandler.update product_id update_data) in
      io_ret updated_product).

End ProductUpdateEndpoint.

(** ** The endpoints of [api/customers.py] *)

Section CustomerEndpoints.
Context `{PyText} {validation : Pydantic}.

(** [CustomerCSVHandler.get_all] *)
Definition customers_get_all (df : list (gmap string value))
    : result (list (gmap string value)) :=
  if CSVHandler.empty df then Ok []
  else mapM CustomerCSVHandler._process_customer_record df.

(** [update_customer_loyalty] *)
Definition update_customer_loyalty (customer_id : string) (points : Z)
    : IO (option (gmap string value)) :=
  try_http (
    let* existing_customer := read_customers (CustomerCSVHandler.find_by_id customer_id) in
    if negb (truthy existing_customer) then io_raise (HTTPException 404 NotFound)
    else
      let update_data := {["loyalty_points" := VInt (Z.max 0 points)]} in
      let* updated_customer :=
        on_customers (CustomerCSVHandler.update customer_id update_data) in
      let* _ := respond Customer (option_list updated_customer) in
      io_ret updated_customer).

(** [delete_customer] *)
Definition delete_customer (customer_id : string) : IO unit :=
  try_http (
    let* existing_customer := read_customers (CustomerCSVHandler.find_by_id customer_id) in
    if negb (truthy existing_customer) then io_raise (HTTPException 404 NotFound)
    else
      let* success := on_customers (fun df =>
        let '(df', deleted) := CSVHandler.delete customer_id df in (df', Ok deleted)) in
      if negb success then io_raise (HTTPException 500 InternalFailure)
      else io_ret tt).

(** [v.lower()], a method that only a string has *)
Definition lower_of (v : value) : result string :=
  match v with
  | VStr s => Ok (py_lower s)
  | _ => Raise AttributeError
  end.

(** [a in b] on two strings *)
Definition py_in (a b : string) : bool :=
  match String.index 0 a b with
  | Some _ => true
  | None => false
  end.

(** [search_lower in c.get('name', '').lower()
     or search_lower in c.get('email', '').lower()
     or search_lower in c.get('phone', '').lower()] *)
Definition customer_matches (search_lower : string) (c : gmap string value) : result bool :=
  name ← lower_of (get "name" (VStr "") c);
  if py_in search_lower name then Ok true
  else
    email ← lower_of (get "email" (VStr "") c);
    if py_in search_lower email then Ok true
    else
      phone ← lower_of (get "phone" (VStr "") c);
      Ok (py_in search_lower phone).

(** [l[skip:skip + limit]], for the [skip >= 0] and [limit >= 1] that the
    query admits *)
Definition page {A} (skip limit : nat) (l : list A) : list A :=
  firstn limit (skipn skip l).

(** [get_customers]: the page and the total *)
Definition get_customers (skip limit : nat) (search : option string)
    : IO (list (gmap string value) * Z) :=
  try_500 (
    let* all_customers := read_customers customers_get_all in
    let* all_customers :=
      match search with
      | None | Some EmptyString => io_ret all_customers
      | Some search =>
          let search_lower := py_lower search in
          io_lift (filterM (customer_matches search_lower) all_customers)
      end in
    let total := Z.of_nat (length all_customers) in
    let customers := page skip limit all_customers in
    let* _ := respond Customer customers in
    io_ret (customers, total)).

End CustomerEndpoints.

(** [models/customer.py], [CustomerPreferences] *)
Module CustomerPreferences.
Record t : Type := {
  size : option string;
  style : option (list string)
}.

Definition dict (p : t) : value :=
  VDict [("size", opt_str (size p));
         ("style", match style p with
                   | Some l => VList (map VStr l)
                   | None => VNone
                   end)].
End CustomerPreferences.

(** ** Notions on the stock *)

Section StockNotions.
Context `{PyText}.

(** A row of the table of products whose stock, as the codec reads it, is
    not negative. *)
Definition stock_not_negative (r : gmap string value) : Prop :=
  forall p, ProductCSVHandler._process_product_record r = Ok p -> 0 <= stock_of p.

End StockNotions.

(** ** The other endpoints of [api/sales.py] *)

(** [models/sales.py], [SaleUpdate]: every field is optional, and a field
    left out is [None]. *)
Module SaleUpdate.
Record t : Type := {
  status : option SaleStatus;
  paid_amount : option float;
  remaining_amount : option float;
  items : option (list SaleItem.t);
  cashier_id : option string
}.

Definition dict (s : t) : gmap string value :=
  <["status" := match status s with
                | Some st => VStr (sale_status_value st)
                | None => VNone
                end]>
  (<["paid_amount" := opt_float (paid_amount s)]>
  (<["remaining_amount" := opt_float (remaining_amount s)]>
  (<["items" := match items s with
                | Some l => VList (map SaleItem.dict l)
                | None => VNone
                end]>
  (<["cashier_id" := opt_str (cashier_id s)]> ∅)))).
End SaleUpdate.

Section SaleUpdateEndpoint.
Context `{PyText}.

(** [update_sale] *)
Definition update_sale (sale_id : string) (sale_update : SaleUpdate.t)
    : IO (option (gmap string value)) :=
  try_http (
    let* existing_sale := read_sales (SalesCSVHandler.find_by_id sale_id) in
    if negb (truthy existing_sale) then io_raise (HTTPException 404 NotFound)
    else
      let update_data := without_None (SaleUpdate.dict sale_update) in
      let* updated_sale := on_sales (SalesCSVHandler.update sale_id update_data) in
      io_ret updated_sale).

End SaleUpdateEndpoint.

(** ** The daily report ([api/sales.py], [get_daily_report]) *)

(** [v[:10]]: of a string and of a list; nothing else of what a cell holds
    has a slice. *)
Definition py_slice10 (v : value) : result value :=
  match v with
  | VStr s => Ok (VStr (String.substring 0 10 s))
  | VList l => Ok (VList (firstn 10 l))
  | _ => Raise TypeError
  end.

(** [v == s] for a string [s] *)
Definition eq_str (v : value) (s : string) : bool :=
  match v with
  | VStr t => String.eqb t s
  | _ => false
  end.

(** The dict that the report returns *)
Module DailyReport.
Record t : Type := {
  date : string;
  total_revenue : value;
  total_transactions : Z;
  total_items_sold : value;
  average_order_value : value;
  sales : list (gmap string value)
}.
End DailyReport.

(** [s.get('timestamp', '')[:10] == date] *)
Definition on_date (date : string) (s : gmap string value) : result bool :=
  d ← py_slice10 (get "timestamp" (VStr "") s);
  Ok (eq_str d date).

(** [sum(item.get('quantity', 0) for item in s.get('items', []))]: the
    generator is consumed item by item. *)
Definition items_sold (s : gmap string value) : result value :=
  items ← py_iter (get "items" (VList []) s);
  fold_leftM (fun acc item => q ← item_get "quantity" (VInt 0) item; py_add acc q)
    items (VInt 0).

Section DailyReportEndpoint.
Context `{PyText}.

Definition get_daily_report (date : string) : IO DailyReport.t :=
  try_500 (
    let* all_sales := read_sales SalesCSVHandler.get_all in
    let* daily_sales := io_lift (filterM (on_date date) all_sales) in
    let* total_revenue := io_lift (py_sum (map (get "total" (VInt 0)) daily_sales)) in
    let total_transactions := Z.of_nat (length daily_sales) in
    let* total_items_sold := io_lift
      (fold_leftM (fun acc s => n ← items_sold s; py_add acc n) daily_sales (VInt 0)) in
    let* average_order_value := io_lift
      (if 0 <? total_transactions then py_truediv total_revenue total_transactions
       else Ok (VInt 0)) in
    io_ret {| DailyReport.date := date;
              DailyReport.total_revenue := total_revenue;
              DailyReport.total_transactions := total_transactions;
              DailyReport.total_items_sold := total_items_sold;
              DailyReport.average_order_value := average_order_value;
              DailyReport.sales := daily_sales |}).

End DailyReportEndpoint.

(** ** The handler of users ([UserCSVHandler]) *)

Module UserCSVHandler.
Section User.
Context `{PyText}.

(** This codec has no test for missing values and converts no number: it
    returns every record. *)
Definition _process_user_record (record : gmap string value) : gmap string value :=
  let record := str_field "id" record in
  decode_field "permissions" (VList []) record.

(** [create] returns the record as it is stored, its permissions as text. *)
Definition create (uuid : string) (data : gmap string value) (df : list (gmap string value))
    : list (gmap string value) * gmap string value :=
  let data := dumps_if_list "permissions" data in
  CSVHandler.create uuid data df.

(** [df['email'] == email], row by row *)
Definition has_email (email : string) (r : gmap string value) : bool :=
  match r !! "email" with
  | Some (VStr s) => String.eqb s email
  | _ => false
  end.

Definition find_by_email (email : string) (df : list (gmap string value))
    : option (gmap string value) :=
  if CSVHandler.empty df then None
  else
    let record := List.filter (has_email email) df in
    match head record with
    | None => None
    | Some r => Some (_process_user_record r)
    end.

End User.
End UserCSVHandler.

(** ** Examples for the further properties *)

(** The record that a call returned, or the empty record. *)
Definition returned (r : result (gmap string value)) : gmap string value :=
  match r with
  | Ok p => p
  | Raise _ => ∅
  end.

(** An instance of the validation of the responses for the closed examples;
    nothing that is proved depends on what it answers. *)
Definition example_pydantic : Pydantic := {| accepts := fun _ _ => true |}.

(** A customer as the table has one that was created without an email, and
    one whose first name spells "nan". *)
Definition example_customer_no_email : gmap string value :=
  <["id" := VStr "c2"]> (<["first_name" := VStr "Bob"]> (<["last_name" := VStr "Hale"]>
  (<["email" := VStr ""]> (<["phone" := VStr "5550100"]> (<["loyalty_points" := VInt 4]>
  (<["total_spent" := VFloat 8]> (<["visits" := VInt 1]>
  (<["preferences" := VStr "{}"]> ∅)))))))).

Definition example_customer_nan : gmap string value :=
  <["first_name" := VStr "Nan"]> scenario_C_customer.

(** The preferences of a customer, and the dict of a request that states
    them. *)
Definition example_preferences : CustomerPreferences.t :=
  {| CustomerPreferences.size := Some "M";
     CustomerPreferences.style := Some ["casual"; "linen"] |}.

Definition example_customer_data : gmap string value :=
  <["first_name" := VStr "Ada"]> (<["last_name" := VStr "Byron"]>
  (<["email" := VNone]> (<["phone" := VNone]> (<["loyalty_points" := VInt 0]>
  (<["total_spent" := VFloat 0]> (<["visits" := VInt 0]>
  (<["preferences" := CustomerPreferences.dict example_preferences]> ∅))))))).

(** A user as [create] is given one. *)
Definition example_user : gmap string value :=
  <["name" := VStr "Ada"]> (<["email" := VStr "ada@example.org"]>
  (<["role" := VStr "cashier"]>
  (<["permissions" := VList (map VStr ["sales"; "products"])]>
  (<["is_active" := VBool true]> (<["hashed_password" := VStr "$2b$12$abcdef"]> ∅))))).

(** The sales of scenario D, each as its timestamp and its total. *)
Definition scenario_D_views : list (string * float) :=
  [("2024-03-15T09:00:00.000000", 50%float);
   ("2024-04-10T12:00:00.000000", 20%float);
   ("2024-04-05T08:00:00.000000", 10%float);
   ("2024-04-10T15:30:00.000000", 5.5%float)].

(** What the analytics answer in scenario D. *)
Definition scenario_D_analytics : SalesAnalytics :=
  {| total_sales := 35.5;
     total_transactions := 3;
     average_order_value := PrimFloat.div 35.5 3;
     sales_by_payment_method := [(VStr "cash", 3)];
     sales_by_day := [("2024-04-10", 25.5%float); ("2024-04-05", 10%float)];
     revenue_trend := [("2024-04-05", 10%float); ("2024-04-10", 25.5%float)] |}.

(** The exceptions that leave the codecs: the conversions of a cell to a
    number catch [ValueError] and [TypeError], so what a codec raises is the
    [ValueError] of an ambiguous test of a list, or an [OverflowError]. *)
Inductive codec_error : exn -> Prop :=
  | codec_ValueError : codec_error ValueError
  | codec_OverflowError : codec_error OverflowError.

(** ** The lists of [api/sales.py] and [api/products.py] *)

(** [v == z] for an integer [z]: a number equals it by its exact value, and
    nothing else does. *)
Definition eq_int (v : value) (z : Z) : bool :=
  match as_number v with
  | Some (NInt x) => x =? z
  | Some (NFloat f) =>
      negb (float_lt_int f z) && negb (int_lt_float z f) && negb (PrimFloat.is_nan f)
  | None => false
  end.

Section Lists.
Context `{PyText} {validation : Pydantic}.

(** [s.get('timestamp', '') <= end_date] *)
Definition before_end (end_date : string) (s : gmap string value) : result bool :=
  py_ge (VStr end_date) (get "timestamp" (VStr "") s).

(** [get_sales]: the page and the total. A filter whose parameter is [None]
    or empty is not applied. *)
Definition get_sales (skip limit : nat)
    (cashier_id customer_id start_date end_date : option string)
    : IO (list (gmap string value) * Z) :=
  try_500 (
    let* all_sales := read_sales SalesCSVHandler.get_all in
    let all_sales :=
      match cashier_id with
      | None | Some EmptyString => all_sales
      | Some cashier_id =>
          List.filter (fun s => eq_str (get "cashier_id" VNone s) cashier_id) all_sales
      end in
    let all_sales :=
      match customer_id with
      | None | Some EmptyString => all_sales
      | Some customer_id =>
          List.filter (fun s => eq_str (get "customer_id" VNone s) customer_id) all_sales
      end in
    let* all_sales :=
      match start_date with
      | None | Some EmptyString => io_ret all_sales
      | Some start_date => io_lift (filterM (in_window start_date) all_sales)
      end in
    let* all_sales :=
      match end_date with
      | None | Some EmptyString => io_ret all_sales
      | Some end_date => io_lift (filterM (before_end end_date) all_sales)
      end in
    let total := Z.of_nat (length all_sales) in
    let sales := page skip limit all_sales in
    let* _ := respond Sale sales in
    io_ret (sales, total)).

(** [p.get('stock', 0) <= threshold and p.get('stock', 0) > 0] *)
Definition is_low_stock (threshold : Z) (p : gmap string value) : result bool :=
  le ← py_ge (VInt threshold) (get "stock" (VInt 0) p);
  if (le : bool) then py_lt (VInt 0) (get "stock" (VInt 0) p) else Ok false.

(** [get_low_stock_products]: the list and its length *)
Definition get_low_stock_products (threshold : Z) : IO (list (gmap string value) * Z) :=
  try_500 (
    let* all_products := read_products ProductCSVHandler.get_all in
    let* low_stock_products := io_lift (filterM (is_low_stock threshold) all_products) in
    let* _ := respond Product low_stock_products in
    io_ret (low_stock_products, Z.of_nat (length low_stock_products))).

(** [get_out_of_stock_products] *)
Definition get_out_of_stock_products : IO (list (gmap string value) * Z) :=
  try_500 (
    let* all_products := read_products ProductCSVHandler.get_all in
    let out_of_stock_products :=
      List.filter (fun p => eq_int (get "stock" (VInt 0) p) 0) all_products in
    let* _ := respond Product out_of_stock_products in
    io_ret (out_of_stock_products, Z.of_nat (length out_of_stock_products))).

End Lists.

(** ** The ranking of [api/customers.py] *)

(** [sorted(l, key=key, reverse=True)]: a stable sort by [<] on the keys, the
    greater first and the equal in the order in which they came; it raises
    when two keys that it compares have no order. [insert_desc] puts one more
    element in its place, after the ones whose key is not less. *)
Fixpoint insert_desc {A : Type} (key : A -> value) (x : A) (l : list A) : result (list A) :=
  match l with
  | [] => Ok [x]
  | y :: l' =>
      lt ← py_lt (key y) (key x);
      if (lt : bool) then Ok (x :: y :: l')
      else r ← insert_desc key x l'; Ok (y :: r)
  end.

Definition sorted_desc {A : Type} (key : A -> value) (l : list A) : result (list A) :=
  fold_leftM (fun ranked x => insert_desc key x ranked) l [].

Section Ranking.
Context `{PyText} {validation : Pydantic}.

(** [get_top_loyalty_customers]: the list and its length *)
Definition get_top_loyalty_customers (limit : nat) : IO (list (gmap string value) * Z) :=
  try_500 (
    let* all_customers := read_customers customers_get_all in
    let* ranked := io_lift (sorted_desc (get "loyalty_points" (VInt 0)) all_customers) in
    let top_customers := firstn limit ranked in
    let* _ := respond Customer top_customers in
    io_ret (top_customers, Z.of_nat (length top_customers))).

End Ranking.

(** Where [insert_desc] puts a customer whose points are integers. *)
Fixpoint insert_by_points (x : gmap string value) (l : list (gmap string value))
    : list (gmap string value) :=
  match l with
  | [] => [x]
  | y :: l' =>
      if points_of y <? points_of x then x :: y :: l' else y :: insert_by_points x l'
  end.

Definition rank_by_points (l : list (gmap string value)) : list (gmap string value) :=
  fold_left (fun ranked x => insert_by_points x ranked) l [].

Definition more_points (a b : gmap string value) : Prop := points_of b <= points_of a.

(** A customer whose points are an integer, as the codec leaves them. *)
Definition int_points (c : gmap string value) : Prop :=
  get "loyalty_points" (VInt 0) c = VInt (points_of c).

(** * Properties *)

(** ** Strings and digits *)

#[local] Arguments String.append !_ _ / : simpl nomatch.

Lemma append_assoc (a b c : string) : (a +:+ b) +:+ c = a +:+ (b +:+ c).
Proof. induction a as [|x a IH]; simpl; [reflexivity | f_equal; exact IH]. Qed.

Lemma append_empty_r (a : string) : a +:+ "" = a.
Proof. induction a as [|x a IH]; simpl; [reflexivity | f_equal; exact IH]. Qed.

Lemma length_append (a b : string) :
  String.length (a +:+ b) = (String.length a + String.length b)%nat.
Proof. induction a as [|x a IH]; simpl; [reflexivity | f_equal; exact IH]. Qed.

Lemma digit_char_value (d : Z) :
  0 <= d < 10 -> Z.of_N (N_of_ascii (digit_char d)) - 48 = d.
Proof.
  intros Hd. unfold digit_char.
  rewrite N_ascii_embedding by lia. lia.
Qed.

Lemma digit_char_is_digit (d : Z) : 0 <= d < 10 -> is_digit (digit_char d) = true.
Proof.
  intros Hd. unfold is_digit, digit_char.
  rewrite N_ascii_embedding by lia.
  apply andb_true_iff. split; apply N.leb_le; lia.
Qed.

Lemma digits_aux_app (fuel : nat) : forall (n : Z) (acc1 acc2 : string),
  digits_aux fuel n (acc1 +:+ acc2) = digits_aux fuel n acc1 +:+ acc2.
Proof.
  induction fuel as [|fuel IH]; intros n acc1 acc2; simpl; [reflexivity|].
  destruct (n <? 10); [reflexivity|].
  apply (IH (n / 10) (String (digit_char (n mod 10)) acc1) acc2).
Qed.

Lemma digits_aux_value (fuel : nat) : forall (n : Z) (acc : string),
  0 <= n < 2 ^ Z.of_nat fuel ->
  Z_of_digits (digits_aux fuel n acc) 0 = Z_of_digits acc n.
Proof.
  induction fuel as [|fuel IH]; intros n acc Hn.
  - simpl in *. replace n with 0 by lia. reflexivity.
  - simpl digits_aux. destruct (Z.ltb_spec n 10) as [Hlt|Hge].
    + simpl. rewrite digit_char_value by (rewrite Z.mod_small; lia).
      rewrite Z.mod_small by lia. reflexivity.
    + rewrite IH.
      * simpl. rewrite digit_char_value by (apply Z.mod_pos_bound; lia).
        f_equal. pose proof (Z.div_mod n 10). lia.
      * rewrite Nat2Z.inj_succ, Z.pow_succ_r in Hn by lia.
        split; [apply Z.div_pos; lia|].
        apply Z.div_lt_upper_bound; lia.
Qed.

Lemma digits_aux_span (fuel : nat) : forall (n : Z) (acc : string),
  0 <= n ->
  span_digits (digits_aux fuel n acc) =
    (digits_aux fuel n (fst (span_digits acc)), snd (span_digits acc)).
Proof.
  induction fuel as [|fuel IH]; intros n acc Hn; simpl digits_aux.
  - now destruct (span_digits acc).
  - assert (Hd : is_digit (digit_char (n mod 10)) = true)
      by (apply digit_char_is_digit, Z.mod_pos_bound; lia).
    destruct (n <? 10).
    + simpl. rewrite Hd. now destruct (span_digits acc).
    + rewrite IH by (apply Z.div_pos; lia).
      simpl. rewrite Hd. now destruct (span_digits acc).
Qed.

Lemma digits_aux_head (fuel : nat) : forall (n : Z) (acc : string),
  0 < n < 2 ^ Z.of_nat fuel ->
  exists c r, digits_aux fuel n acc = String c r
              /\ is_digit c = true /\ Ascii.eqb c "0" = false.
Proof.
  induction fuel as [|fuel IH]; intros n acc Hn.
  - simpl in Hn. lia.
  - simpl digits_aux. destruct (Z.ltb_spec n 10) as [Hlt|Hge].
    + exists (digit_char (n mod 10)), acc. split; [reflexivity|].
      rewrite Z.mod_small by lia.
      assert (Hc : n = 1 \/ n = 2 \/ n = 3 \/ n = 4 \/ n = 5 \/ n = 6 \/ n = 7
                   \/ n = 8 \/ n = 9) by lia.
      destruct Hc as [->|[->|[->|[->|[->|[->|[->|[->| ->]]]]]]]]; split; reflexivity.
    + apply IH.
      rewrite Nat2Z.inj_succ, Z.pow_succ_r in Hn by lia.
      split; [apply Z.div_str_pos; lia|].
      apply Z.div_lt_upper_bound; lia.
Qed.

Lemma digits_fuel (n : Z) : 0 <= n -> n < 2 ^ Z.of_nat (S (Z.to_nat (Z.log2 n))).
Proof.
  intros Hn. rewrite Nat2Z.inj_succ, Z2Nat.id by apply Z.log2_nonneg.
  destruct (Z.eq_dec n 0) as [->|Hne]; [reflexivity|].
  apply Z.log2_spec. lia.
Qed.

(** ** The JSON codec: what [json_loads] reads back from [json_dumps] *)

Section JsonRoundTrip.
Context `{PyText}.

Lemma scan_escape_char (c : ascii) (s : string) :
  scan_string (escape_char c +:+ s) = cons_char c (scan_string s).
Proof.
  destruct c as [[] [] [] [] [] [] [] []]; reflexivity.
Qed.

Lemma scan_escape (s rest : string) :
  scan_string (escape s +:+ String c_quote rest) = Some (s, rest).
Proof.
  induction s as [|c s IH]; [reflexivity|].
  simpl escape. rewrite append_assoc, scan_escape_char, IH. reflexivity.
Qed.

Lemma scan_json_quote (s rest : string) :
  exists r, json_quote s +:+ rest = String c_quote r
            /\ scan_string r = Some (s, rest).
Proof.
  exists (escape s +:+ String c_quote rest). split.
  - unfold json_quote. simpl. now rewrite append_assoc.
  - apply scan_escape.
Qed.

Lemma span_digits_delimited (rest : string) :
  delimited rest = true -> span_digits rest = ("", rest).
Proof.
  destruct rest as [|c r]; [reflexivity|].
  destruct c as [[] [] [] [] [] [] [] []]; simpl; intros Hd;
    try discriminate Hd; reflexivity.
Qed.

Lemma scan_frac_delimited (rest : string) :
  delimited rest = true -> scan_frac rest = ("", rest).
Proof.
  destruct rest as [|c r]; [reflexivity|].
  destruct c as [[] [] [] [] [] [] [] []]; simpl; intros Hd;
    try discriminate Hd; reflexivity.
Qed.

Lemma scan_exp_delimited (rest : string) :
  delimited rest = true -> scan_exp rest = ("", rest).
Proof.
  destruct rest as [|c r]; [reflexivity|].
  destruct c as [[] [] [] [] [] [] [] []]; simpl; intros Hd;
    try discriminate Hd; reflexivity.
Qed.

Lemma scan_integer_digit (c : ascii) (r : string) :
  is_digit c = true ->
  scan_integer (String c r) =
    if Ascii.eqb c "0" then Some (false, "0", r)
    else let '(d, r') := span_digits r in Some (false, String c d, r').
Proof.
  destruct c as [[] [] [] [] [] [] [] []]; simpl; intros Hd;
    try discriminate Hd; reflexivity.
Qed.

Lemma digits_of_span (n : Z) (rest : string) :
  0 <= n -> delimited rest = true ->
  span_digits (digits_of n +:+ rest) = (digits_of n, rest).
Proof.
  intros Hn Hd. unfold digits_of.
  rewrite <- (digits_aux_app _ n "" rest).
  change ("" +:+ rest) with rest.
  rewrite digits_aux_span by assumption.
  rewrite span_digits_delimited by assumption. reflexivity.
Qed.

Lemma scan_integer_digits (n : Z) (rest : string) :
  0 <= n -> delimited rest = true ->
  scan_integer (digits_of n +:+ rest) = Some (false, digits_of n, rest).
Proof.
  intros Hn Hd.
  destruct (Z.eq_dec n 0) as [->|Hne]; [reflexivity|].
  destruct (digits_aux_head (S (Z.to_nat (Z.log2 n))) n "") as (c & r & Hcr & Hc & Hz).
  { split; [lia | now apply digits_fuel]. }
  pose proof (digits_of_span n rest Hn Hd) as Hspan.
  unfold digits_of in *. rewrite Hcr in *. simpl in *.
  rewrite Hc in Hspan.
  rewrite scan_integer_digit, Hz by assumption.
  destruct (span_digits (r +:+ rest)) as [d r']. now inversion Hspan.
Qed.

Lemma digits_of_value (n : Z) : 0 <= n -> Z_of_digits (digits_of n) 0 = n.
Proof.
  intros Hn. unfold digits_of.
  rewrite digits_aux_value by (split; [assumption | now apply digits_fuel]).
  reflexivity.
Qed.

Lemma scan_number_int (z : Z) (rest : string) :
  delimited rest = true ->
  scan_number (str_of_int z +:+ rest) = Some (VInt z, rest).
Proof.
  intros Hd. unfold scan_number, str_of_int.
  destruct (Z.ltb_spec z 0) as [Hneg|Hpos].
  - assert (Hs : scan_integer (String "-" (digits_of (- z)) +:+ rest)
                 = Some (true, digits_of (- z), rest)).
    { pose proof (scan_integer_digits (- z) rest ltac:(lia) Hd) as Hi.
      destruct (digits_aux_head (S (Z.to_nat (Z.log2 (- z)))) (- z) "") as (c & r & Hcr & Hc & Hz).
      { split; [lia | apply digits_fuel; lia]. }
      unfold digits_of in *. rewrite Hcr in *. simpl in Hi |- *.
      rewrite scan_integer_digit, Hz in Hi by assumption.
      unfold scan_integer. rewrite Hz, Hc.
      destruct (span_digits (r +:+ rest)) as [d r']. inversion Hi; subst. reflexivity. }
    rewrite Hs, scan_frac_delimited, scan_exp_delimited by assumption.
    rewrite digits_of_value by lia. do 2 f_equal. f_equal. lia.
  - rewrite scan_integer_digits, scan_frac_delimited, scan_exp_delimited by assumption.
    rewrite digits_of_value by lia. reflexivity.
Qed.

End JsonRoundTrip.

Section JsonValues.
Context `{PyText}.

Lemma digit_value_head (c : ascii) (r : string) :
  is_digit c = true -> value_head (String c r) = true.
Proof.
  destruct c as [[] [] [] [] [] [] [] []]; simpl; intros Hd;
    try discriminate Hd; reflexivity.
Qed.

Lemma str_of_int_head (z : Z) :
  exists c r, str_of_int z = String c r
              /\ (is_digit c || Ascii.eqb c "-") = true.
Proof.
  unfold str_of_int. destruct (Z.ltb_spec z 0) as [Hneg|Hpos].
  - exists "-"%char, (digits_of (- z)). split; reflexivity.
  - destruct (Z.eq_dec z 0) as [->|Hne].
    + exists "0"%char, "". split; reflexivity.
    + destruct (digits_aux_head (S (Z.to_nat (Z.log2 z))) z "") as (c & r & Hcr & Hc & _).
      { split; [lia | apply digits_fuel; lia]. }
      exists c, r. split; [exact Hcr|]. now rewrite Hc.
Qed.

Lemma number_value_head (c : ascii) (r : string) :
  (is_digit c || Ascii.eqb c "-") = true -> value_head (String c r) = true.
Proof.
  destruct c as [[] [] [] [] [] [] [] []]; simpl; intros Hd;
    try discriminate Hd; reflexivity.
Qed.

Lemma dumps_head (v : value) (r : string) :
  json_safe v -> value_head (json_dumps v +:+ r) = true.
Proof.
  destruct v as [| [] | z | f | s | l | d]; simpl; try reflexivity; intros Hs.
  - destruct (str_of_int_head z) as (c & t & -> & Hc).
    exact (number_value_head c (t +:+ r) Hc).
  - destruct Hs.
Qed.

Lemma skip_ws_head (s : string) : value_head s = true -> skip_ws s = s.
Proof.
  destruct s as [|c r]; [reflexivity|]. simpl.
  destruct (is_ws c); [discriminate | reflexivity].
Qed.

Lemma dumps_nonempty (v : value) :
  json_safe v -> (1 <= String.length (json_dumps v))%nat.
Proof.
  intros Hs. pose proof (dumps_head v "" Hs) as Hh.
  rewrite append_empty_r in Hh.
  destruct (json_dumps v); [discriminate | simpl; lia].
Qed.

Lemma join_head {A} (f : A -> string) (x : A) (l : list A) (r : string) :
  (forall t, value_head (f x +:+ t) = true) ->
  value_head (join_items f (x :: l) +:+ r) = true.
Proof.
  intros Hx. simpl. destruct l; [apply Hx|].
  rewrite append_assoc. apply Hx.
Qed.

Lemma join_length {A} (f : A -> string) (l : list A) :
  Forall (fun x => (1 <= String.length (f x))%nat) l ->
  (length l <= String.length (join_items f l))%nat.
Proof.
  induction 1 as [|x l Hx Hl IH]; [simpl; lia|].
  simpl. destruct l as [|y l]; [simpl; lia|].
  rewrite !length_append. simpl in IH |- *. lia.
Qed.

Lemma parse_number_dispatch (fuel : nat) (c : ascii) (r : string) (x : value * string) :
  (is_digit c || Ascii.eqb c "-") = true ->
  scan_number (String c r) = Some x ->
  parse_value (S fuel) (String c r) = Some x.
Proof.
  intros Hc Hs.
  destruct c as [[] [] [] [] [] [] [] []]; simpl in Hc; try discriminate Hc;
    cbn -[scan_number]; rewrite Hs; reflexivity.
Qed.

Lemma dict_set_fresh (k : string) (v : value) (d : list (string * value)) :
  k ∉ map fst d -> dict_set k v d = (d ++ [(k, v)])%list.
Proof.
  induction d as [|[k' v'] d IH]; intros Hk; [reflexivity|].
  simpl in *. apply not_elem_of_cons in Hk as [Hne Hk].
  destruct (String.eqb_spec k' k) as [->|_]; [congruence|].
  now rewrite IH.
Qed.

Lemma dict_of_pairs_fold (ps acc : list (string * value)) :
  NoDup (map fst (acc ++ ps)) ->
  fold_left (fun d kv => dict_set (fst kv) (snd kv) d) ps acc = (acc ++ ps)%list.
Proof.
  revert acc. induction ps as [|[k v] ps IH]; intros acc Hnd; simpl.
  - now rewrite app_nil_r.
  - rewrite dict_set_fresh.
    + rewrite IH; rewrite <- app_assoc; [reflexivity | exact Hnd].
    + rewrite map_app in Hnd. apply NoDup_app in Hnd as (_ & Hd & _).
      intros Hin. apply (Hd k Hin). simpl. left.
Qed.

Lemma dict_of_pairs_nodup (d : list (string * value)) :
  NoDup (map fst d) -> dict_of_pairs d = d.
Proof. intros Hnd. apply (dict_of_pairs_fold d []). exact Hnd. Qed.

(** An element parser that reads back every element of a list reads back
    the list. *)
Lemma parse_elems_join (pv : string -> option (value * string)) (l : list value) :
  forall (n : nat) (rest : string),
  l <> [] -> (length l <= n)%nat ->
  Forall (fun x => json_safe x /\
            forall r, delimited r = true -> pv (json_dumps x +:+ r) = Some (x, r)) l ->
  parse_elems pv n (join_items json_dumps l +:+ String "]" rest) = Some (l, rest).
Proof.
  induction l as [|x l IH]; intros n rest Hne Hn Hall; [congruence|].
  apply Forall_cons in Hall as [[Hsx Hx] Hl].
  destruct n as [|n]; [simpl in Hn; lia|].
  destruct l as [|y l].
  - simpl. rewrite Hx by reflexivity. reflexivity.
  - change (join_items json_dumps (x :: y :: l))
      with (json_dumps x +:+ ", " +:+ join_items json_dumps (y :: l)).
    rewrite !append_assoc.
    cbn [parse_elems]. rewrite Hx by reflexivity.
    assert (Hh : value_head (join_items json_dumps (y :: l) +:+ String "]" rest) = true).
    { apply join_head. intros t. apply dumps_head.
      now apply Forall_cons in Hl as [[Hy _] _]. }
    set (T := join_items json_dumps (y :: l) +:+ String "]" rest) in *.
    simpl. rewrite (skip_ws_head _ Hh). subst T.
    rewrite IH; [reflexivity | congruence | simpl in *; lia | exact Hl].
Qed.

End JsonValues.

Section JsonObjects.
Context `{PyText}.

Lemma json_dumps_list (l : list value) :
  json_dumps (VList l) = "[" +:+ join_items json_dumps l +:+ "]".
Proof. reflexivity. Qed.

Lemma json_dumps_dict (d : list (string * value)) :
  json_dumps (VDict d) = "{" +:+ join_items json_member d +:+ "}".
Proof. reflexivity. Qed.

Lemma json_member_shape (kv : string * value) (tail : string) :
  json_member kv +:+ tail =
    String c_quote (escape (fst kv) +:+
      String c_quote (String ":" (String " " (json_dumps (snd kv) +:+ tail)))).
Proof.
  unfold json_member, json_quote. simpl.
  rewrite !append_assoc. reflexivity.
Qed.

Lemma json_member_head (kv : string * value) (t : string) :
  value_head (json_member kv +:+ t) = true.
Proof. rewrite json_member_shape. reflexivity. Qed.

Lemma json_member_nonempty (kv : string * value) :
  (1 <= String.length (json_member kv))%nat.
Proof.
  pose proof (json_member_shape kv "") as Hm. rewrite append_empty_r in Hm.
  rewrite Hm. simpl. lia.
Qed.

(** A value parser that reads back the value of every pair of an object
    reads back its pairs. *)
Lemma parse_members_join (pv : string -> option (value * string))
    (d : list (string * value)) :
  forall (n : nat) (rest : string),
  d <> [] -> (length d <= n)%nat ->
  Forall (fun kv => json_safe (snd kv) /\
            forall r, delimited r = true ->
                      pv (json_dumps (snd kv) +:+ r) = Some (snd kv, r)) d ->
  parse_members pv n (join_items json_member d +:+ String "}" rest) = Some (d, rest).
Proof.
  induction d as [|[k v] d IH]; intros n rest Hne Hn Hall; [congruence|].
  apply Forall_cons in Hall as [[Hsv Hv] Hd]. simpl in Hsv, Hv.
  destruct n as [|n]; [simpl in Hn; lia|].
  destruct d as [|kv d].
  - change (join_items json_member [(k, v)]) with (json_member (k, v)).
    rewrite json_member_shape. cbn [parse_members fst snd].
    change (Ascii.eqb c_quote c_quote) with true. cbn iota.
    rewrite scan_escape.
    pose proof (dumps_head v (String "}" rest) Hsv) as Hh.
    set (T := json_dumps v +:+ String "}" rest) in *.
    simpl. rewrite (skip_ws_head _ Hh). subst T.
    rewrite Hv by reflexivity. reflexivity.
  - change (join_items json_member ((k, v) :: kv :: d))
      with (json_member (k, v) +:+ ", " +:+ join_items json_member (kv :: d)).
    rewrite append_assoc, json_member_shape. cbn [parse_members fst snd].
    change (Ascii.eqb c_quote c_quote) with true. cbn iota.
    rewrite scan_escape, !append_assoc.
    assert (Hh1 : value_head (join_items json_member (kv :: d) +:+ String "}" rest) = true)
      by (apply join_head; intros t; apply json_member_head).
    set (T1 := join_items json_member (kv :: d) +:+ String "}" rest) in *.
    pose proof (dumps_head v (", " +:+ T1) Hsv) as Hh.
    set (T := json_dumps v +:+ ", " +:+ T1) in *.
    simpl. rewrite (skip_ws_head _ Hh). subst T.
    rewrite Hv by reflexivity.
    simpl. rewrite (skip_ws_head _ Hh1). subst T1.
    rewrite IH; [reflexivity | congruence | simpl in *; lia | exact Hd].
Qed.

Lemma json_safe_list (l : list value) :
  json_safe (VList l) <-> Forall json_safe l.
Proof.
  simpl. induction l as [|x l IH]; simpl.
  - split; [constructor | trivial].
  - rewrite Forall_cons, IH. reflexivity.
Qed.

Lemma json_safe_dict (d : list (string * value)) :
  json_safe (VDict d) <-> NoDup (map fst d) /\ Forall (fun kv => json_safe (snd kv)) d.
Proof.
  simpl. apply and_iff_compat_l.
  induction d as [|x d IH]; simpl.
  - split; [constructor | trivial].
  - rewrite Forall_cons, IH. reflexivity.
Qed.

Lemma depth_elem (x : value) (l : list value) :
  x ∈ l -> (depth x <= list_max (map depth l))%nat.
Proof.
  intros Hin. induction l as [|y l IH]; [inversion Hin|].
  simpl. apply elem_of_cons in Hin as [->|Hin]; [lia|].
  specialize (IH Hin). lia.
Qed.

Lemma depth_member (kv : string * value) (d : list (string * value)) :
  kv ∈ d -> (depth (snd kv) <= list_max (map (fun kv => depth (snd kv)) d))%nat.
Proof.
  intros Hin. induction d as [|y d IH]; [inversion Hin|].
  simpl. apply elem_of_cons in Hin as [->|Hin]; [lia|].
  specialize (IH Hin). lia.
Qed.

(** The scanner reads back what [json_dumps] wrote, whatever closes its
    place, with fuel for the nesting. *)
Lemma parse_value_dumps (fuel : nat) :
  forall (v : value) (rest : string),
  (depth v < fuel)%nat -> json_safe v -> delimited rest = true ->
  parse_value fuel (json_dumps v +:+ rest) = Some (v, rest).
Proof.
  induction fuel as [|fuel IH]; intros v rest Hdepth Hsafe Hrest; [lia|].
  destruct v as [| [] | z | f | s | l | d].
  - reflexivity.
  - reflexivity.
  - reflexivity.
  - destruct (str_of_int_head z) as (c & t & Hz & Hc).
    pose proof (scan_number_int z rest Hrest) as Hscan.
    simpl json_dumps. rewrite Hz in *.
    apply parse_number_dispatch; assumption.
  - destruct Hsafe.
  - simpl json_dumps. unfold json_quote. simpl. rewrite append_assoc.
    change (Ascii.eqb c_quote c_quote) with true. cbn iota.
    change (String c_quote "" +:+ rest) with (String c_quote rest).
    now rewrite scan_escape.
  - rewrite json_dumps_list, !append_assoc.
    change ("[" +:+ join_items json_dumps l +:+ "]" +:+ rest)
      with (String "[" (join_items json_dumps l +:+ String "]" rest)).
    apply json_safe_list in Hsafe.
    destruct l as [|x l]; [reflexivity|].
    assert (Hh : value_head (join_items json_dumps (x :: l) +:+ String "]" rest) = true).
    { apply join_head. intros t. apply dumps_head. now apply Forall_cons in Hsafe as [? _]. }
    assert (Hlen : (length (x :: l) <=
                    String.length (String "[" (join_items json_dumps (x :: l)
                                                 +:+ String "]" rest)))%nat).
    { pose proof (join_length json_dumps (x :: l)) as Hj.
      assert (Hne : Forall (fun x => (1 <= String.length (json_dumps x))%nat) (x :: l))
        by (eapply Forall_impl; [exact Hsafe | intros; now apply dumps_nonempty]).
      specialize (Hj Hne).
      set (J := join_items json_dumps (x :: l)) in *.
      cbn [String.length]. rewrite length_append. lia. }
    assert (Hp : parse_elems (parse_value fuel)
                   (String.length (String "[" (join_items json_dumps (x :: l)
                                                 +:+ String "]" rest)))
                   (join_items json_dumps (x :: l) +:+ String "]" rest)
                 = Some (x :: l, rest)).
    { apply parse_elems_join; [congruence | exact Hlen |].
      apply Forall_forall. intros y Hy.
      split; [eapply (proj1 (Forall_forall _ _) Hsafe); exact Hy|].
      intros r Hr. apply IH; [| eapply (proj1 (Forall_forall _ _) Hsafe); exact Hy | exact Hr].
      pose proof (depth_elem y (x :: l) Hy).
      change (depth (VList (x :: l))) with (S (list_max (map depth (x :: l)))) in Hdepth.
      lia. }
    set (n := String.length _) in *.
    set (T := join_items json_dumps (x :: l) +:+ String "]" rest) in *.
    cbn [parse_value]. change (Ascii.eqb "[" c_quote) with false.
    change (Ascii.eqb "[" "{") with false. change (Ascii.eqb "[" "[") with true.
    cbn iota. rewrite (skip_ws_head _ Hh).
    destruct T as [|c1 r1] eqn:HT; [discriminate Hh|].
    simpl in Hh. apply andb_true_iff in Hh as [Hh _].
    apply andb_true_iff in Hh as [_ Hb]. apply negb_true_iff in Hb.
    subst n. rewrite Hb, Hp. reflexivity.
  - rewrite json_dumps_dict, !append_assoc.
    change ("{" +:+ join_items json_member d +:+ "}" +:+ rest)
      with (String "{" (join_items json_member d +:+ String "}" rest)).
    apply json_safe_dict in Hsafe as [Hnd Hsafe].
    destruct d as [|kv d]; [reflexivity|].
    assert (Hh : value_head (join_items json_member (kv :: d) +:+ String "}" rest) = true)
      by (apply join_head; intros t; apply json_member_head).
    assert (Hlen : (length (kv :: d) <=
                    String.length (String "{" (join_items json_member (kv :: d)
                                                 +:+ String "}" rest)))%nat).
    { pose proof (join_length json_member (kv :: d)) as Hj.
      assert (Hne : Forall (fun x => (1 <= String.length (json_member x))%nat) (kv :: d))
        by (apply Forall_forall; intros; apply json_member_nonempty).
      specialize (Hj Hne).
      set (J := join_items json_member (kv :: d)) in *.
      cbn [String.length]. rewrite length_append. lia. }
    assert (Hp : parse_members (parse_value fuel)
                   (String.length (String "{" (join_items json_member (kv :: d)
                                                 +:+ String "}" rest)))
                   (join_items json_member (kv :: d) +:+ String "}" rest)
                 = Some (kv :: d, rest)).
    { apply parse_members_join; [congruence | exact Hlen |].
      apply Forall_forall. intros y Hy.
      split; [eapply (proj1 (Forall_forall _ _) Hsafe); exact Hy|].
      intros r Hr. apply IH; [| eapply (proj1 (Forall_forall _ _) Hsafe); exact Hy | exact Hr].
      pose proof (depth_member y (kv :: d) Hy).
      change (depth (VDict (kv :: d)))
        with (S (list_max (map (fun kv => depth (snd kv)) (kv :: d)))) in Hdepth.
      lia. }
    set (n := String.length _) in *.
    set (T := join_items json_member (kv :: d) +:+ String "}" rest) in *.
    cbn [parse_value]. change (Ascii.eqb "{" c_quote) with false.
    change (Ascii.eqb "{" "{") with true.
    cbn iota. rewrite (skip_ws_head _ Hh).
    destruct T as [|c1 r1] eqn:HT; [discriminate Hh|].
    simpl in Hh. apply andb_true_iff in Hh as [_ Hb]. apply negb_true_iff in Hb.
    subst n. rewrite Hb, Hp, dict_of_pairs_nodup by exact Hnd. reflexivity.
Qed.

End JsonObjects.

Section JsonLoads.
Context `{PyText}.

Lemma join_elem_length {A} (f : A -> string) (x : A) (l : list A) :
  x ∈ l -> (String.length (f x) <= String.length (join_items f l))%nat.
Proof.
  intros Hin. induction l as [|y l IH]; [inversion Hin|].
  destruct l as [|z l].
  - apply list_elem_of_singleton in Hin as ->. simpl. lia.
  - change (join_items f (y :: z :: l)) with (f y +:+ ", " +:+ join_items f (z :: l)).
    rewrite !length_append.
    apply elem_of_cons in Hin as [->|Hin]; [lia|].
    specialize (IH Hin). lia.
Qed.

Lemma depth_le_length (n : nat) :
  forall v : value, (depth v <= n)%nat -> (depth v <= String.length (json_dumps v))%nat.
Proof.
  induction n as [|n IH]; intros v Hv.
  - lia.
  - destruct v as [| b | z | f | s | l | d]; try (simpl; lia).
    + rewrite json_dumps_list, !length_append.
      change (depth (VList l)) with (S (list_max (map depth l))) in *.
      assert (Hm : (list_max (map depth l) <= String.length (join_items json_dumps l))%nat).
      { apply list_max_le, Forall_map, List.Forall_forall. intros x Hx.
        apply list_elem_of_In in Hx.
        pose proof (depth_elem x l Hx). pose proof (join_elem_length json_dumps x l Hx).
        specialize (IH x ltac:(lia)). simpl. lia. }
      simpl String.length. lia.
    + rewrite json_dumps_dict, !length_append.
      change (depth (VDict d)) with (S (list_max (map (fun kv => depth (snd kv)) d))) in *.
      assert (Hm : (list_max (map (fun kv => depth (snd kv)) d)
                    <= String.length (join_items json_member d))%nat).
      { apply list_max_le, Forall_map, List.Forall_forall. intros x Hx.
        apply list_elem_of_In in Hx.
        pose proof (depth_member x d Hx). pose proof (join_elem_length json_member x d Hx).
        specialize (IH (snd x) ltac:(lia)).
        assert (String.length (json_dumps (snd x)) <= String.length (json_member x))%nat
          by (unfold json_member; rewrite !length_append; lia).
        simpl. lia. }
      simpl String.length. lia.
Qed.

(** [json.loads(json.dumps(v)) == v] for every value without a float. *)
Lemma json_loads_dumps (v : value) :
  json_safe v -> json_loads (json_dumps v) = Some v.
Proof.
  intros Hs. unfold json_loads.
  pose proof (dumps_head v "" Hs) as Hh. rewrite append_empty_r in Hh.
  rewrite (skip_ws_head _ Hh).
  pose proof (parse_value_dumps (S (String.length (json_dumps v))) v "") as Hp.
  rewrite append_empty_r in Hp. rewrite Hp; [reflexivity | | exact Hs | reflexivity].
  pose proof (depth_le_length (depth v) v ltac:(lia)). lia.
Qed.

Lemma variants_json_safe (vs : list ProductVariant.t) :
  json_safe (VList (map ProductVariant.dict vs)).
Proof.
  apply json_safe_list, Forall_map, Forall_forall. intros v _.
  unfold ProductVariant.dict. apply json_safe_dict. split.
  - simpl. apply (bool_decide_unpack _). vm_compute. exact I.
  - repeat constructor.
Qed.

End JsonLoads.

(** ** The record store *)

Lemma filter_all {A} (p : A -> bool) (l : list A) :
  Forall (fun x => p x = true) l -> List.filter p l = l.
Proof.
  induction 1 as [|x l Hx _ IH]; simpl; [reflexivity|].
  now rewrite Hx, IH.
Qed.

Lemma filter_length_lt {A} (p : A -> bool) (l : list A) :
  Exists (fun x => p x = false) l -> (length (List.filter p l) < length l)%nat.
Proof.
  induction 1 as [x l Hx | x l _ IH]; simpl.
  - rewrite Hx. pose proof (List.filter_length_le p l). lia.
  - destruct (p x); simpl; lia.
Qed.

Lemma filter_none {A} (p : A -> bool) (l : list A) :
  Forall (fun x => p x = false) l -> List.filter p l = [].
Proof.
  induction 1 as [|x l Hx _ IH]; simpl; [reflexivity|].
  now rewrite Hx, IH.
Qed.

Lemma existsb_Exists {A} (p : A -> bool) (l : list A) :
  existsb p l = true <-> Exists (fun x => p x = true) l.
Proof.
  rewrite existsb_exists, Exists_exists. split.
  - intros (x & Hin & Hx). exists x. split; [now apply list_elem_of_In | exact Hx].
  - intros (x & Hin & Hx). exists x. split; [now apply list_elem_of_In | exact Hx].
Qed.

Lemma existsb_Forall {A} (p : A -> bool) (l : list A) :
  existsb p l = false <-> Forall (fun x => p x = false) l.
Proof.
  induction l as [|x l IH]; simpl.
  - split; [constructor | reflexivity].
  - rewrite orb_false_iff, Forall_cons, IH. reflexivity.
Qed.

Lemma Forall_not_Exists {A} (p : A -> bool) (l : list A) :
  Forall (fun x => p x = false) l -> Exists (fun x => p x = true) l -> False.
Proof.
  intros Hall Hex. apply Exists_exists in Hex as (x & Hin & Hx).
  rewrite Forall_forall in Hall. specialize (Hall x Hin). congruence.
Qed.

Lemma set_fields_id (data r : gmap string value) :
  CSVHandler.set_fields data r !! "id" = r !! "id".
Proof.
  unfold CSVHandler.set_fields.
  destruct (r !! "id") as [v|] eqn:Hr.
  - apply lookup_union_Some_raw. right. split; [apply lookup_delete_eq | exact Hr].
  - apply lookup_union_None. split; [apply lookup_delete_eq | exact Hr].
Qed.

Lemma set_fields_listed (data r : gmap string value) (k : string) (v : value) :
  k <> "id" -> data !! k = Some v -> CSVHandler.set_fields data r !! k = Some v.
Proof.
  intros Hk Hd. unfold CSVHandler.set_fields.
  apply lookup_union_Some_raw. left. now rewrite lookup_delete_ne.
Qed.

Lemma set_fields_unlisted (data r : gmap string value) (k : string) :
  data !! k = None -> CSVHandler.set_fields data r !! k = r !! k.
Proof.
  intros Hd. unfold CSVHandler.set_fields.
  apply lookup_union_r.
  destruct (decide (k = "id")) as [->|Hk];
    [apply lookup_delete_eq | now rewrite lookup_delete_ne].
Qed.

Lemma has_id_set_fields (record_id : string) (data r : gmap string value) :
  CSVHandler.has_id record_id (CSVHandler.set_fields data r) = CSVHandler.has_id record_id r.
Proof. unfold CSVHandler.has_id. now rewrite set_fields_id. Qed.

Lemma update_found (record_id : string) (data : gmap string value)
    (df : list (gmap string value)) :
  Exists (fun r => CSVHandler.has_id record_id r = true) df ->
  CSVHandler.update record_id data df =
    (updated_table record_id data df,
     head (List.filter (CSVHandler.has_id record_id) (updated_table record_id data df))).
Proof.
  intros Hex. unfold CSVHandler.update.
  destruct df as [|r0 df]; [inversion Hex|]. cbn [CSVHandler.empty].
  apply existsb_Exists in Hex. rewrite Hex. reflexivity.
Qed.

Lemma update_not_found (record_id : string) (data : gmap string value)
    (df : list (gmap string value)) :
  Forall (fun r => CSVHandler.has_id record_id r = false) df ->
  CSVHandler.update record_id data df = (df, None).
Proof.
  intros Hall. unfold CSVHandler.update.
  destruct df as [|r0 df]; [reflexivity|]. cbn [CSVHandler.empty].
  apply existsb_Forall in Hall. now rewrite Hall.
Qed.

Lemma updated_table_filter (record_id : string) (data : gmap string value)
    (df : list (gmap string value)) :
  List.filter (CSVHandler.has_id record_id) (updated_table record_id data df) =
    map (CSVHandler.set_fields data) (List.filter (CSVHandler.has_id record_id) df).
Proof.
  induction df as [|r df IH]; [reflexivity|]. simpl.
  destruct (CSVHandler.has_id record_id r) eqn:Hr.
  - rewrite has_id_set_fields, Hr. simpl. now rewrite IH.
  - rewrite Hr. exact IH.
Qed.

Lemma updated_table_lookup (record_id : string) (data : gmap string value)
    (df : list (gmap string value)) (i : nat) :
  updated_table record_id data df !! i =
    (fun r => if CSVHandler.has_id record_id r then CSVHandler.set_fields data r else r)
      <$> df !! i.
Proof. unfold updated_table. apply list_lookup_fmap. Qed.

(** C5. [update] overwrites exactly the listed fields: in every row with the
    key a field named in the payload takes the payload's value and every other
    field keeps its value, the id field is never altered, even when the payload
    names it, and the rows with another key are unchanged; the updated row is
    returned. With no row of that key, [update] returns [None] and leaves the
    table as it was. *)
Theorem update_overwrites_listed_fields_only
    (record_id : string) (data : gmap string value) (df : list (gmap string value)) :
  let df' := fst (CSVHandler.update record_id data df) in
  let updated := snd (CSVHandler.update record_id data df) in
  (Forall (fun r => CSVHandler.has_id record_id r = false) df ->
     df' = df /\ updated = None)
  /\
  (Exists (fun r => CSVHandler.has_id record_id r = true) df ->
     length df' = length df
     /\ (forall i r, df !! i = Some r -> CSVHandler.has_id record_id r = false ->
           df' !! i = Some r)
     /\ (forall i r, df !! i = Some r -> CSVHandler.has_id record_id r = true ->
           exists r', df' !! i = Some r'
             /\ r' !! "id" = r !! "id"
             /\ (forall k v, k <> "id" -> data !! k = Some v -> r' !! k = Some v)
             /\ (forall k, data !! k = None -> r' !! k = r !! k))
     /\ (exists r r', head (List.filter (CSVHandler.has_id record_id) df) = Some r
           /\ updated = Some r'
           /\ r' = CSVHandler.set_fields data r)).
Proof.
  cbv zeta. split.
  - intros Hall. now rewrite update_not_found.
  - intros Hex. rewrite update_found by exact Hex. cbn [fst snd].
    repeat split.
    + unfold updated_table. apply length_map.
    + intros i r Hi Hr. rewrite updated_table_lookup, Hi. simpl. now rewrite Hr.
    + intros i r Hi Hr. exists (CSVHandler.set_fields data r).
      rewrite updated_table_lookup, Hi. simpl. rewrite Hr.
      split; [reflexivity|]. split; [apply set_fields_id|].
      split; [intros k v; apply set_fields_listed | intros k; apply set_fields_unlisted].
    + rewrite updated_table_filter.
      apply Exists_exists in Hex as (r0 & Hin & Hr0).
      destruct (List.filter (CSVHandler.has_id record_id) df) as [|r l] eqn:Hf.
      * assert (Hin' : In r0 (List.filter (CSVHandler.has_id record_id) df))
          by (apply filter_In; split; [now apply list_elem_of_In | exact Hr0]).
        rewrite Hf in Hin'. destruct Hin'.
      * exists r, (CSVHandler.set_fields data r). repeat split.
Qed.

Lemma delete_not_found (record_id : string) (df : list (gmap string value)) :
  Forall (fun r => CSVHandler.has_id record_id r = false) df ->
  CSVHandler.delete record_id df = (df, false).
Proof.
  intros Hall. unfold CSVHandler.delete.
  destruct (CSVHandler.empty df); [reflexivity|].
  rewrite filter_all.
  - now rewrite Nat.eqb_refl.
  - eapply Forall_impl; [exact Hall|]. intros r Hr. simpl in Hr. now rewrite Hr.
Qed.

Lemma delete_found (record_id : string) (df : list (gmap string value)) :
  Exists (fun r => CSVHandler.has_id record_id r = true) df ->
  CSVHandler.delete record_id df =
    (List.filter (fun r => negb (CSVHandler.has_id record_id r)) df, true).
Proof.
  intros Hex. unfold CSVHandler.delete.
  destruct df as [|r0 df]; [inversion Hex|]. cbn [CSVHandler.empty].
  pose proof (filter_length_lt (fun r => negb (CSVHandler.has_id record_id r)) (r0 :: df)) as Hlt.
  destruct (Nat.eqb_spec
              (length (List.filter (fun r => negb (CSVHandler.has_id record_id r)) (r0 :: df)))
              (length (r0 :: df))) as [Heq|_]; [|reflexivity].
  exfalso. assert (Hex' : Exists (fun x => negb (CSVHandler.has_id record_id x) = false) (r0 :: df)).
  { eapply Exists_impl; [exact Hex|]. intros r Hr. simpl in Hr. now rewrite Hr. }
  specialize (Hlt Hex'). lia.
Qed.

(** C8. [delete] of a key that no row has returns [False], raises nothing
    and leaves the table unchanged, and so does every later call; when some
    row has the key, [delete] removes every row with it, keeps every other row
    in its place, and returns [True], after which the key is missing. *)
Theorem delete_missing_key_is_idempotent
    (record_id : string) (df : list (gmap string value)) :
  (Forall (fun r => CSVHandler.has_id record_id r = false) df ->
     CSVHandler.delete record_id df = (df, false)
     /\ CSVHandler.delete record_id (fst (CSVHandler.delete record_id df)) = (df, false))
  /\
  (Exists (fun r => CSVHandler.has_id record_id r = true) df ->
     let df' := fst (CSVHandler.delete record_id df) in
     snd (CSVHandler.delete record_id df) = true
     /\ df' = List.filter (fun r => negb (CSVHandler.has_id record_id r)) df
     /\ Forall (fun r => CSVHandler.has_id record_id r = false) df'
     /\ (forall r, r ∈ df -> CSVHandler.has_id record_id r = false -> r ∈ df')
     /\ CSVHandler.delete record_id df' = (df', false)).
Proof.
  split.
  - intros Hall. rewrite delete_not_found by exact Hall. split; [reflexivity|].
    cbn [fst]. now apply delete_not_found.
  - intros Hex. cbv zeta. rewrite delete_found by exact Hex. cbn [fst snd].
    assert (Hall : Forall (fun r => CSVHandler.has_id record_id r = false)
                     (List.filter (fun r => negb (CSVHandler.has_id record_id r)) df)).
    { apply Forall_forall. intros r Hr. apply list_elem_of_In, filter_In in Hr as [_ Hr].
      now apply negb_true_iff in Hr. }
    repeat split; try assumption.
    + intros r Hr Hid. apply list_elem_of_In, filter_In. split.
      * now apply list_elem_of_In.
      * now rewrite Hid.
    + now apply delete_not_found.
Qed.

(** ** The stages of a schema codec *)

Section Stages.
Context `{PyText}.

Lemma fill_missing_inv (missing : value -> bool) (dflt : string -> value)
    (r r' : gmap string value) :
  fill_missing missing dflt r = Ok r' ->
  map_Forall (fun _ v => isna_ambiguous v = false) r
  /\ r' = map_imap (fun k v => Some (if missing v then dflt k else v)) r.
Proof.
  unfold fill_missing. case_bool_decide as Hall; [|discriminate].
  intros [= <-]. split; [exact Hall | reflexivity].
Qed.

Lemma fill_missing_ok (missing : value -> bool) (dflt : string -> value)
    (r : gmap string value) :
  map_Forall (fun _ v => isna_ambiguous v = false) r ->
  fill_missing missing dflt r
    = Ok (map_imap (fun k v => Some (if missing v then dflt k else v)) r).
Proof.
  intros Hall. unfold fill_missing. now rewrite bool_decide_eq_true_2.
Qed.

Lemma fill_missing_lookup (missing : value -> bool) (dflt : string -> value)
    (r r' : gmap string value) (k : string) :
  fill_missing missing dflt r = Ok r' ->
  r' !! k = (fun v => if missing v then dflt k else v) <$> r !! k.
Proof.
  intros Hf. apply fill_missing_inv in Hf as [_ ->].
  rewrite map_lookup_imap. now destruct (r !! k).
Qed.

Lemma fill_missing_insert (missing : value -> bool) (dflt : string -> value)
    (r r' : gmap string value) (k : string) (v : value) :
  isna_ambiguous v = false ->
  fill_missing missing dflt r = Ok r' ->
  fill_missing missing dflt (<[k := v]> r)
    = Ok (<[k := if missing v then dflt k else v]> r').
Proof.
  intros Hv Hf. apply fill_missing_inv in Hf as [Hall ->].
  rewrite fill_missing_ok by (apply map_Forall_insert_2; assumption).
  f_equal. apply map_eq. intros j. rewrite map_lookup_imap.
  destruct (decide (k = j)) as [->|Hne].
  - now rewrite !lookup_insert_eq.
  - rewrite !lookup_insert_ne by exact Hne. now rewrite map_lookup_imap.
Qed.

Lemma str_field_lookup_ne (f k : string) (r : gmap string value) :
  k <> f -> str_field f r !! k = r !! k.
Proof.
  intros Hne. unfold str_field. destruct (r !! f); [|reflexivity].
  now rewrite lookup_insert_ne.
Qed.

Lemma str_field_insert_ne (f k : string) (v : value) (r : gmap string value) :
  k <> f -> str_field f (<[k := v]> r) = <[k := v]> (str_field f r).
Proof.
  intros Hne. unfold str_field. rewrite lookup_insert_ne by exact Hne.
  destruct (r !! f); [|reflexivity]. now apply insert_insert_ne.
Qed.

Lemma str_field_nonempty (f : string) (r : gmap string value) :
  r <> ∅ -> str_field f r <> ∅.
Proof.
  intros Hr. unfold str_field. destruct (r !! f); [|exact Hr].
  apply insert_non_empty.
Qed.

Lemma float_field_converts (f : string) : converts f (float_field f).
Proof.
  intros r r' Hs. unfold float_field in *.
  repeat split.
  - intros k Hk. destruct (r !! f) as [[]|]; try (injection Hs as <-; reflexivity);
      destruct (except_value_type _ _); try discriminate;
      injection Hs as <-; now rewrite lookup_insert_ne.
  - intros k v Hk. rewrite lookup_insert_ne by exact Hk.
    destruct (r !! f) as [[]|]; try (injection Hs as <-; reflexivity);
      destruct (except_value_type _ _); try discriminate;
      injection Hs as <-; simpl; f_equal; now apply insert_insert_ne.
  - intros Hr. destruct (r !! f) as [[]|]; try (injection Hs as <-; exact Hr);
      destruct (except_value_type _ _); try discriminate;
      injection Hs as <-; apply insert_non_empty.
Qed.

Lemma int_field_converts (f : string) : converts f (int_field f).
Proof.
  intros r r' Hs. unfold int_field in *.
  repeat split.
  - intros k Hk. destruct (r !! f) as [[]|]; try (injection Hs as <-; reflexivity);
      destruct (except_value_type _ _); try discriminate;
      injection Hs as <-; now rewrite lookup_insert_ne.
  - intros k v Hk. rewrite lookup_insert_ne by exact Hk.
    destruct (r !! f) as [[]|]; try (injection Hs as <-; reflexivity);
      destruct (except_value_type _ _); try discriminate;
      injection Hs as <-; simpl; f_equal; now apply insert_insert_ne.
  - intros Hr. destruct (r !! f) as [[]|]; try (injection Hs as <-; exact Hr);
      destruct (except_value_type _ _); try discriminate;
      injection Hs as <-; apply insert_non_empty.
Qed.

Lemma int_field_or_zero_converts (f : string) : converts f (int_field_or_zero f).
Proof.
  intros r r' Hs. unfold int_field_or_zero in *.
  repeat split.
  - intros k Hk. destruct (r !! f) as [[]|]; try (injection Hs as <-; reflexivity);
      try (injection Hs as <-; now rewrite lookup_insert_ne);
      destruct (except_value_type _ _); try discriminate;
      injection Hs as <-; now rewrite lookup_insert_ne.
  - intros k v Hk. rewrite lookup_insert_ne by exact Hk.
    destruct (r !! f) as [[]|]; try (injection Hs as <-; reflexivity);
      try (injection Hs as <-; f_equal; now apply insert_insert_ne);
      destruct (except_value_type _ _); try discriminate;
      injection Hs as <-; simpl; f_equal; now apply insert_insert_ne.
  - intros Hr. destruct (r !! f) as [[]|]; try (injection Hs as <-; exact Hr);
      try (injection Hs as <-; apply insert_non_empty);
      destruct (except_value_type _ _); try discriminate;
      injection Hs as <-; apply insert_non_empty.
Qed.

Lemma float_field_or_zero_converts (f : string) : converts f (float_field_or_zero f).
Proof.
  intros r r' Hs. unfold float_field_or_zero in *.
  repeat split.
  - intros k Hk. destruct (r !! f) as [[]|]; try (injection Hs as <-; reflexivity);
      try (injection Hs as <-; now rewrite lookup_insert_ne);
      destruct (except_value_type _ _); try discriminate;
      injection Hs as <-; now rewrite lookup_insert_ne.
  - intros k v Hk. rewrite lookup_insert_ne by exact Hk.
    destruct (r !! f) as [[]|]; try (injection Hs as <-; reflexivity);
      try (injection Hs as <-; f_equal; now apply insert_insert_ne);
      destruct (except_value_type _ _); try discriminate;
      injection Hs as <-; simpl; f_equal; now apply insert_insert_ne.
  - intros Hr. destruct (r !! f) as [[]|]; try (injection Hs as <-; exact Hr);
      try (injection Hs as <-; apply insert_non_empty);
      destruct (except_value_type _ _); try discriminate;
      injection Hs as <-; apply insert_non_empty.
Qed.

Lemma decode_field_lookup_ne (f k : string) (e : value) (r : gmap string value) :
  k <> f -> decode_field f e r !! k = r !! k.
Proof.
  intros Hne. unfold decode_field.
  destruct (r !! f) as [[]|]; try reflexivity; now rewrite lookup_insert_ne.
Qed.

Lemma decode_field_insert_ne (f k : string) (e v : value) (r : gmap string value) :
  k <> f -> decode_field f e (<[k := v]> r) = <[k := v]> (decode_field f e r).
Proof.
  intros Hne. unfold decode_field. rewrite lookup_insert_ne by exact Hne.
  destruct (r !! f) as [[]|]; try reflexivity; now apply insert_insert_ne.
Qed.

Lemma decode_field_present (f : string) (e : value) (r : gmap string value) :
  is_Some (decode_field f e r !! f).
Proof.
  unfold decode_field.
  destruct (r !! f) as [[]|] eqn:Hr; rewrite ?lookup_insert_eq, ?Hr; eauto.
Qed.

Lemma decode_field_nonempty (f : string) (e : value) (r : gmap string value) :
  decode_field f e r <> ∅.
Proof.
  intros He. pose proof (decode_field_present f e r) as [v Hv].
  rewrite He, lookup_empty in Hv. discriminate.
Qed.

End Stages.

Lemma bind_Ok_inv {A B} (m : result A) (k : A -> result B) (b : B) :
  m ≫= k = Ok b -> exists a, m = Ok a /\ k a = Ok b.
Proof. destruct m as [a|e]; [eauto | discriminate]. Qed.

Lemma fmap_Ok_inv {A B} (f : A -> B) (m : result A) (b : B) :
  f <$> m = Ok b -> exists a, m = Ok a /\ b = f a.
Proof. destruct m as [a|e]; [intros [= <-]; eauto | discriminate]. Qed.

Ltac inv_bind H :=
  repeat match type of H with
  | _ ≫= _ = Ok _ =>
      let a := fresh "r" in let E := fresh "E" in
      apply bind_Ok_inv in H as (a & E & H)
  end.

Section StageCells.
Context `{PyText}.

Lemma int_field_own (f : string) (n : Z) (r r' : gmap string value) :
  int_field f r = Ok r' ->
  int_field f (<[f := VInt n]> r) = Ok (<[f := VInt n]> r').
Proof.
  intros Hs. unfold int_field in *. rewrite lookup_insert_eq. simpl.
  f_equal. rewrite insert_insert_eq.
  destruct (r !! f) as [[]|]; try (injection Hs as <-; reflexivity);
    destruct (except_value_type _ _); try discriminate;
    injection Hs as <-; now rewrite insert_insert_eq.
Qed.

Lemma int_field_or_zero_own (f : string) (n : Z) (r r' : gmap string value) :
  int_field_or_zero f r = Ok r' ->
  int_field_or_zero f (<[f := VInt n]> r) = Ok (<[f := VInt n]> r').
Proof.
  intros Hs. unfold int_field_or_zero in *. rewrite lookup_insert_eq. simpl.
  f_equal. rewrite insert_insert_eq.
  destruct (r !! f) as [[]|]; try (injection Hs as <-; reflexivity);
    try (injection Hs as <-; now rewrite insert_insert_eq);
    destruct (except_value_type _ _); try discriminate;
    injection Hs as <-; now rewrite insert_insert_eq.
Qed.

Lemma float_field_or_zero_own (f : string) (x : float) (r r' : gmap string value) :
  float_field_or_zero f r = Ok r' ->
  float_field_or_zero f (<[f := VFloat x]> r) = Ok (<[f := VFloat x]> r').
Proof.
  intros Hs. unfold float_field_or_zero in *. rewrite lookup_insert_eq. simpl.
  f_equal. rewrite insert_insert_eq.
  destruct (r !! f) as [[]|]; try (injection Hs as <-; reflexivity);
    try (injection Hs as <-; now rewrite insert_insert_eq);
    destruct (except_value_type _ _); try discriminate;
    injection Hs as <-; now rewrite insert_insert_eq.
Qed.

(** What a numeric stage leaves in its own field. *)
Lemma int_field_typed (f : string) (r r' : gmap string value) :
  int_field f r = Ok r' -> r !! f <> Some VNone ->
  r' !! f = None \/ exists z, r' !! f = Some (VInt z).
Proof.
  intros Hs Hn. unfold int_field in *.
  destruct (r !! f) as [v|] eqn:Hr.
  - right. destruct v; try congruence;
      destruct (except_value_type _ _) as [y|]; try discriminate;
      injection Hs as <-; exists y; apply lookup_insert_eq.
  - left. now injection Hs as <-.
Qed.

Lemma int_field_or_zero_typed (f : string) (r r' : gmap string value) :
  int_field_or_zero f r = Ok r' ->
  r' !! f = None \/ exists z, r' !! f = Some (VInt z).
Proof.
  intros Hs. unfold int_field_or_zero in *.
  destruct (r !! f) as [v|] eqn:Hr.
  - right. destruct v; try (injection Hs as <-; eexists; apply lookup_insert_eq);
      destruct (except_value_type _ _) as [y|]; try discriminate;
      injection Hs as <-; exists y; apply lookup_insert_eq.
  - left. now injection Hs as <-.
Qed.

Lemma float_field_or_zero_typed (f : string) (r r' : gmap string value) :
  float_field_or_zero f r = Ok r' ->
  r' !! f = None \/ exists x, r' !! f = Some (VFloat x).
Proof.
  intros Hs. unfold float_field_or_zero in *.
  destruct (r !! f) as [v|] eqn:Hr.
  - right. destruct v; try (injection Hs as <-; eexists; apply lookup_insert_eq);
      destruct (except_value_type _ _) as [y|]; try discriminate;
      injection Hs as <-; exists y; apply lookup_insert_eq.
  - left. now injection Hs as <-.
Qed.

End StageCells.

(** ** The product codec *)

Section ProductCodec.
Context `{PyText}.

Lemma product_record_nonempty (r p : gmap string value) :
  ProductCSVHandler._process_product_record r = Ok p -> p <> ∅.
Proof.
  unfold ProductCSVHandler._process_product_record. intros Hp. inv_bind Hp.
  injection Hp as <-. apply decode_field_nonempty.
Qed.

Lemma product_record_truthy (r p : gmap string value) :
  ProductCSVHandler._process_product_record r = Ok p -> truthy (Some p) = true.
Proof.
  intros Hp. apply product_record_nonempty in Hp. simpl.
  now rewrite bool_decide_eq_false_2.
Qed.

(** The stock of a processed product is an integer. *)
Lemma product_record_stock (r p : gmap string value) :
  ProductCSVHandler._process_product_record r = Ok p ->
  exists z, get "stock" (VInt 0) p = VInt z.
Proof.
  unfold ProductCSVHandler._process_product_record. intros Hp. inv_bind Hp.
  injection Hp as <-. unfold get.
  rewrite decode_field_lookup_ne by discriminate.
  destruct (int_field_typed "stock" _ _ E2) as [->|[z ->]]; simpl; eauto.
  destruct (float_field_converts "cost" _ _ E1) as (-> & _); [|discriminate].
  destruct (float_field_converts "price" _ _ E0) as (-> & _); [|discriminate].
  rewrite str_field_lookup_ne by discriminate.
  rewrite (fill_missing_lookup _ _ _ _ _ E).
  destruct (r !! "stock") as [v|]; [|discriminate]. simpl.
  destruct (is_missing v) eqn:Hm; [discriminate|].
  intros [= ->]. discriminate.
Qed.

(** Writing an integer into the stock cell of a row that the codec accepts
    gives a row that the codec accepts, with that stock. *)
Lemma product_record_set_stock (r p : gmap string value) (n : Z) :
  ProductCSVHandler._process_product_record r = Ok p ->
  ProductCSVHandler._process_product_record (<["stock" := VInt n]> r)
    = Ok (<["stock" := VInt n]> p).
Proof.
  unfold ProductCSVHandler._process_product_record. intros Hp. inv_bind Hp.
  injection Hp as <-.
  rewrite (fill_missing_insert _ _ _ _ _ (VInt n) eq_refl E). simpl.
  rewrite str_field_insert_ne by discriminate.
  destruct (float_field_converts "price" _ _ E0) as (_ & -> & _); [|discriminate]. simpl.
  destruct (float_field_converts "cost" _ _ E1) as (_ & -> & _); [|discriminate]. simpl.
  rewrite (int_field_own _ _ _ _ E2). simpl.
  now rewrite decode_field_insert_ne by discriminate.
Qed.

End ProductCodec.

Lemma find_by_id_head (record_id : string) (df : list (gmap string value)) :
  CSVHandler.find_by_id record_id df = head (List.filter (CSVHandler.has_id record_id) df).
Proof.
  unfold CSVHandler.find_by_id. destruct df as [|r df]; [reflexivity|].
  cbn [CSVHandler.empty].
  now destruct (List.filter (CSVHandler.has_id record_id) (r :: df)).
Qed.

Lemma head_filter_Exists {A} (p : A -> bool) (l : list A) (x : A) :
  head (List.filter p l) = Some x -> Exists (fun y => p y = true) l /\ p x = true.
Proof.
  intros Hh.
  assert (Hin : In x (List.filter p l))
    by (destruct (List.filter p l); [discriminate | injection Hh as ->; now left]).
  apply filter_In in Hin as [Hin Hx]. split; [|exact Hx].
  apply Exists_exists. exists x. split; [now apply list_elem_of_In | exact Hx].
Qed.

Lemma head_filter_None {A} (p : A -> bool) (l : list A) :
  head (List.filter p l) = None -> Forall (fun y => p y = false) l.
Proof.
  induction l as [|y l IH]; simpl; [constructor|].
  destruct (p y) eqn:Hy; [discriminate|]. intros Hh. constructor; auto.
Qed.

Lemma set_fields_singleton (k : string) (v : value) (r : gmap string value) :
  k <> "id" -> CSVHandler.set_fields {[k := v]} r = <[k := v]> r.
Proof.
  intros Hk. unfold CSVHandler.set_fields.
  rewrite delete_singleton_ne by congruence.
  now rewrite <- insert_union_singleton_l.
Qed.

Section ProductStore.
Context `{PyText}.

Lemma product_find_inv (product_id : string) (df : list (gmap string value))
    (p : gmap string value) :
  ProductCSVHandler.find_by_id product_id df = Ok (Some p) ->
  exists r, head (List.filter (CSVHandler.has_id product_id) df) = Some r
            /\ ProductCSVHandler._process_product_record r = Ok p.
Proof.
  unfold ProductCSVHandler.find_by_id. rewrite find_by_id_head.
  destruct (head _) as [r|]; [|discriminate].
  intros Hp. apply fmap_Ok_inv in Hp as (p' & Hp & [= ->]). eauto.
Qed.

Lemma product_find_absent (product_id : string) (df : list (gmap string value)) :
  ProductCSVHandler.find_by_id product_id df = Ok None ->
  Forall (fun r => CSVHandler.has_id product_id r = false) df.
Proof.
  unfold ProductCSVHandler.find_by_id. rewrite find_by_id_head.
  destruct (head _) as [r|] eqn:Hh.
  - intros Hp. apply fmap_Ok_inv in Hp as (p' & _ & [=]).
  - intros _. now apply head_filter_None.
Qed.

(** Taking stock: the store call of [create_sale], and what a later lookup
    of the product finds. *)
Lemma product_update_stock (product_id : string) (df : list (gmap string value))
    (p : gmap string value) (n : Z) :
  ProductCSVHandler.find_by_id product_id df = Ok (Some p) ->
  ProductCSVHandler.update product_id {["stock" := VInt n]} df
    = (updated_table product_id {["stock" := VInt n]} df,
       Ok (Some (<["stock" := VInt n]> p)))
  /\ ProductCSVHandler.find_by_id product_id
       (updated_table product_id {["stock" := VInt n]} df)
     = Ok (Some (<["stock" := VInt n]> p)).
Proof.
  intros Hf. apply product_find_inv in Hf as (r & Hh & Hp).
  pose proof (head_filter_Exists _ _ _ Hh) as [Hex _].
  assert (Hup : head (List.filter (CSVHandler.has_id product_id)
                        (updated_table product_id {["stock" := VInt n]} df))
                = Some (<["stock" := VInt n]> r)).
  { rewrite updated_table_filter.
    destruct (List.filter (CSVHandler.has_id product_id) df) as [|r0 l]; [discriminate|].
    injection Hh as ->. simpl. now rewrite set_fields_singleton by discriminate. }
  split.
  - unfold ProductCSVHandler.update.
    assert (He : encode_list_field "variants" {["stock" := VInt n]}
                 = ({["stock" := VInt n]} : gmap string value)).
    { unfold encode_list_field. now rewrite lookup_singleton_ne by discriminate. }
    rewrite He, update_found, Hup by exact Hex.
    now rewrite (product_record_set_stock _ _ _ Hp).
  - unfold ProductCSVHandler.find_by_id. rewrite find_by_id_head, Hup.
    now rewrite (product_record_set_stock _ _ _ Hp).
Qed.

Lemma stock_of_insert (p : gmap string value) (n : Z) :
  stock_of (<["stock" := VInt n]> p) = n.
Proof. unfold stock_of, get. now rewrite lookup_insert_eq. Qed.

Lemma stock_of_get (r p : gmap string value) :
  ProductCSVHandler._process_product_record r = Ok p ->
  get "stock" (VInt 0) p = VInt (stock_of p).
Proof.
  intros Hp. destruct (product_record_stock _ _ Hp) as [z Hz].
  unfold stock_of. now rewrite Hz.
Qed.

End ProductStore.

(** ** The stock loop of [create_sale] *)

Lemma io_for_app {A} (body : A -> IO unit) (pre post : list A) (w : World) :
  io_for (pre ++ post) body w =
    match io_for pre body w with
    | (w1, Ok _) => io_for post body w1
    | (w1, Raise e) => (w1, Raise e)
    end.
Proof.
  revert w. induction pre as [|x pre IH]; intros w; [reflexivity|].
  simpl. unfold io_bind. destruct (body x w) as [w0 [[]|e]]; [apply IH | reflexivity].
Qed.

Section StockLoop.
Context `{PyText}.

Lemma check_absent (item : SaleItem.t) (w : World) (ps : list (gmap string value)) :
  ProductCSVHandler.find_by_id (SaleItem.product_id item) (products_db w) = Ok None ->
  ProductCSVHandler.get_all (products_db w) = Ok ps ->
  check_and_take_stock item w = (w, Raise (HTTPException 400 NotFound)).
Proof.
  intros Hf Hall. unfold check_and_take_stock, io_bind, read_products.
  rewrite Hf. simpl. now rewrite Hall.
Qed.

Lemma check_insufficient (item : SaleItem.t) (w : World) (p : gmap string value) :
  ProductCSVHandler.find_by_id (SaleItem.product_id item) (products_db w) = Ok (Some p) ->
  stock_of p < SaleItem.quantity item ->
  check_and_take_stock item w = (w, Raise (HTTPException 400 InsufficientStock)).
Proof.
  intros Hf Hlt. unfold check_and_take_stock, io_bind, read_products.
  rewrite Hf. destruct (product_find_inv _ _ _ Hf) as (r & _ & Hp).
  rewrite (product_record_truthy _ _ Hp). cbn [negb default]. unfold id.
  rewrite (stock_of_get _ _ Hp). unfold io_lift. simpl.
  apply Z.ltb_lt in Hlt. now rewrite Hlt.
Qed.

Lemma check_sufficient (item : SaleItem.t) (w : World) (p : gmap string value) :
  ProductCSVHandler.find_by_id (SaleItem.product_id item) (products_db w) = Ok (Some p) ->
  SaleItem.quantity item <= stock_of p ->
  check_and_take_stock item w =
    (with_products
       (take_stock (SaleItem.product_id item) p (SaleItem.quantity item) (products_db w)) w,
     Ok tt).
Proof.
  intros Hf Hle. unfold check_and_take_stock, io_bind, read_products.
  rewrite Hf. destruct (product_find_inv _ _ _ Hf) as (r & _ & Hp).
  rewrite (product_record_truthy _ _ Hp). cbn [negb default]. unfold id.
  rewrite (stock_of_get _ _ Hp). unfold io_lift. simpl.
  apply Z.ltb_ge in Hle. rewrite Hle. unfold on_products.
  destruct (product_update_stock _ _ _ (stock_of p - SaleItem.quantity item) Hf) as [-> _].
  reflexivity.
Qed.

(** The stock loop writes to the table of products only. *)
Lemma check_frame (item : SaleItem.t) (w : World) :
  customers_db (fst (check_and_take_stock item w)) = customers_db w
  /\ sales_db (fst (check_and_take_stock item w)) = sales_db w.
Proof.
  unfold check_and_take_stock, io_bind, read_products, io_lift, on_products, io_raise, io_ret.
  destruct (ProductCSVHandler.find_by_id _ _) as [product|e]; [|now split].
  destruct (negb (truthy product)).
  - destruct (ProductCSVHandler.get_all _); now split.
  - destruct (py_lt _ _) as [[]|]; try now split.
    destruct (py_sub _ _) as [new_stock|]; [|now split].
    destruct (ProductCSVHandler.update _ _ _) as [df [u|e]]; now split.
Qed.

Lemma stock_loop_frame (items : list SaleItem.t) (w : World) :
  customers_db (fst (io_for items check_and_take_stock w)) = customers_db w
  /\ sales_db (fst (io_for items check_and_take_stock w)) = sales_db w.
Proof.
  revert w. induction items as [|item items IH]; intros w; [now split|].
  simpl. unfold io_bind.
  pose proof (check_frame item w) as [Hc Hs].
  destruct (check_and_take_stock item w) as [w1 [[]|e]]; simpl in *.
  - destruct (IH w1) as [Hc1 Hs1]. split; congruence.
  - now split.
Qed.

(** A failure of the stock loop is the failure of [create_sale], in the
    world the loop has reached. *)
Lemma create_sale_loop_raises (env : Env) (sale : SaleCreate.t) (w w1 : World)
    (status : Z) (why : failure) :
  io_for (SaleCreate.items sale) check_and_take_stock w
    = (w1, Raise (HTTPException status why)) ->
  create_sale env sale w = (w1, Raise (HTTPException status why)).
Proof.
  intros Hl. unfold create_sale, try_http, io_bind. now rewrite Hl.
Qed.

Lemma stock_loop_reaches (pre post : list SaleItem.t) (item : SaleItem.t)
    (w w1 : World) :
  io_for pre check_and_take_stock w = (w1, Ok tt) ->
  io_for (pre ++ item :: post) check_and_take_stock w =
    match check_and_take_stock item w1 with
    | (w2, Ok _) => io_for post check_and_take_stock w2
    | (w2, Raise e) => (w2, Raise e)
    end.
Proof.
  intros Hpre. rewrite io_for_app, Hpre. reflexivity.
Qed.

End StockLoop.

(** ** Payment status ([SalesCSVHandler.create]) *)

Lemma SFcompare_lt_gt (a b : spec_float) :
  SFcompare a b = Some Lt -> SFcompare b a = Some Gt.
Proof.
  destruct a as [sa|sa| |sa ma ea], b as [sb|sb| |sb mb eb]; simpl;
    try destruct sa; try destruct sb; simpl; try congruence.
  - rewrite (Z.compare_antisym ea eb). destruct (ea ?= eb)%Z eqn:E; simpl; try congruence.
    change (Pos.compare_cont Eq mb ma) with (mb ?= ma)%positive.
    change (Pos.compare_cont Eq ma mb) with (ma ?= mb)%positive.
    rewrite (Pos.compare_antisym ma mb). destruct (ma ?= mb)%positive; simpl; congruence.
  - rewrite (Z.compare_antisym ea eb). destruct (ea ?= eb)%Z eqn:E; simpl; try congruence.
    change (Pos.compare_cont Eq mb ma) with (mb ?= ma)%positive.
    change (Pos.compare_cont Eq ma mb) with (ma ?= mb)%positive.
    rewrite (Pos.compare_antisym ma mb). destruct (ma ?= mb)%positive; simpl; congruence.
Qed.

(** [paid < total] excludes [paid >= total], on binary64 too. *)
Lemma ltb_not_leb (paid total : float) :
  PrimFloat.ltb paid total = true -> PrimFloat.leb total paid = false.
Proof.
  rewrite ltb_spec, leb_spec. unfold SFltb, SFleb.
  destruct (SFcompare (Prim2SF paid) (Prim2SF total)) as [[]|] eqn:E; try discriminate.
  intros _. now rewrite (SFcompare_lt_gt _ _ E).
Qed.

Section Payment.
Context `{PyText}.

Lemma dumps_if_list_lookup_ne (f k : string) (data : gmap string value) :
  k <> f -> dumps_if_list f data !! k = data !! k.
Proof.
  intros Hne. unfold dumps_if_list.
  destruct (data !! f) as [[]|]; try reflexivity. now rewrite lookup_insert_ne.
Qed.

Lemma prepared_lookup_ne (now k : string) (data : gmap string value) :
  k <> "items" -> k <> "timestamp" -> prepared now data !! k = data !! k.
Proof.
  intros Hi Ht. unfold prepared.
  destruct (dumps_if_list "items" data !! "timestamp");
    rewrite ?lookup_insert_ne by congruence; now apply dumps_if_list_lookup_ne.
Qed.

Lemma create_unfold (now uuid : string) (data : gmap string value)
    (df : list (gmap string value)) :
  SalesCSVHandler.create now uuid data df =
    match SalesCSVHandler.payment_status (prepared now data) with
    | Raise e => (df, Raise e)
    | Ok data' =>
        let '(df', created_record) := CSVHandler.create uuid data' df in
        (df', SalesCSVHandler._process_sale_record created_record)
    end.
Proof. reflexivity. Qed.

Lemma csv_create_stored (uuid : string) (data : gmap string value)
    (df : list (gmap string value)) :
  exists stored,
    CSVHandler.create uuid data df = ((df ++ [stored])%list, stored)
    /\ (forall k, k <> "id" -> stored !! k = data !! k)
    /\ is_Some (stored !! "id").
Proof.
  unfold CSVHandler.create. destruct (data !! "id") as [v|] eqn:Hid.
  - exists data. repeat split; eauto.
  - exists (<["id" := VStr uuid]> data). repeat split.
    + intros k Hk. now rewrite lookup_insert_ne.
    + rewrite lookup_insert_eq. eauto.
Qed.

(** C2. When [paid_amount] and [total] are both there, a sale paid in full
    ([paid_amount >= total]) is stored with status [completed], nothing
    remaining and the paid amount clamped to the total; a sale paid in part
    ([paid_amount < total]) is stored with status [partial_payment] and
    [total - paid_amount] remaining. Total 100 with 40 paid is stored as
    [partial_payment] with 60 remaining; with 150 paid, as [completed] with 0
    remaining and 100 paid. *)
Theorem created_sale_payment_status :
  (forall (now uuid : string) (data : gmap string value) (df : list (gmap string value))
          (vp vt : value) (paid total : float),
     data !! "paid_amount" = Some vp -> data !! "total" = Some vt ->
     py_float vp = Ok paid -> py_float vt = Ok total ->
     exists stored,
       fst (SalesCSVHandler.create now uuid data df) = (df ++ [stored])%list
       /\ (PrimFloat.leb total paid = true ->
             stored !! "status" = Some (VStr "completed")
             /\ stored !! "remaining_amount" = Some (VInt 0)
             /\ stored !! "paid_amount" = Some (VFloat total))
       /\ (PrimFloat.ltb paid total = true ->
             stored !! "status" = Some (VStr "partial_payment")
             /\ stored !! "remaining_amount" = Some (VFloat (PrimFloat.sub total paid))))
  /\
  (forall (now uuid : string) (df : list (gmap string value)),
     (exists stored,
        fst (SalesCSVHandler.create now uuid (SaleCreate.dict (scenario_B_sale 40)) df)
          = (df ++ [stored])%list
        /\ stored !! "status" = Some (VStr "partial_payment")
        /\ stored !! "remaining_amount" = Some (VFloat 60))
     /\
     (exists stored,
        fst (SalesCSVHandler.create now uuid (SaleCreate.dict (scenario_B_sale 150)) df)
          = (df ++ [stored])%list
        /\ stored !! "status" = Some (VStr "completed")
        /\ stored !! "remaining_amount" = Some (VInt 0)
        /\ stored !! "paid_amount" = Some (VFloat 100))).
Proof.
  assert (General : forall (now uuid : string) (data : gmap string value)
            (df : list (gmap string value)) (vp vt : value) (paid total : float),
     data !! "paid_amount" = Some vp -> data !! "total" = Some vt ->
     py_float vp = Ok paid -> py_float vt = Ok total ->
     exists stored,
       fst (SalesCSVHandler.create now uuid data df) = (df ++ [stored])%list
       /\ (PrimFloat.leb total paid = true ->
             stored !! "status" = Some (VStr "completed")
             /\ stored !! "remaining_amount" = Some (VInt 0)
             /\ stored !! "paid_amount" = Some (VFloat total))
       /\ (PrimFloat.ltb paid total = true ->
             stored !! "status" = Some (VStr "partial_payment")
             /\ stored !! "remaining_amount" = Some (VFloat (PrimFloat.sub total paid)))).
  { intros now uuid data df vp vt paid total Hvp Hvt Hp Ht.
    rewrite create_unfold. unfold SalesCSVHandler.payment_status.
    rewrite !prepared_lookup_ne, Hvp, Hvt, Hp, Ht by discriminate.
    cbn -[CSVHandler.create].
    destruct (PrimFloat.leb total paid) eqn:Hle.
    - match goal with |- context [CSVHandler.create uuid ?d df] =>
        destruct (csv_create_stored uuid d df) as (stored & -> & Hk & _) end.
      exists stored. split; [reflexivity|]. split.
      + intros _. rewrite !Hk by discriminate.
        rewrite lookup_insert_ne, lookup_insert_ne, lookup_insert_eq by discriminate.
        rewrite lookup_insert_ne, lookup_insert_eq, lookup_insert_eq by discriminate.
        repeat split.
      + intros Hlt. apply ltb_not_leb in Hlt. congruence.
    - match goal with |- context [CSVHandler.create uuid ?d df] =>
        destruct (csv_create_stored uuid d df) as (stored & -> & Hk & _) end.
      exists stored. split; [reflexivity|]. split.
      + discriminate.
      + intros _. rewrite !Hk by discriminate.
        rewrite lookup_insert_ne, lookup_insert_eq, lookup_insert_eq by discriminate.
        repeat split. }
  split; [exact General|].
  intros now uuid df. split.
  - destruct (General now uuid (SaleCreate.dict (scenario_B_sale 40)) df
                (VFloat 40) (VFloat 100) 40%float 100%float)
      as (stored & Hs & _ & Hpart); try reflexivity.
    exists stored. split; [exact Hs|]. apply Hpart. reflexivity.
  - destruct (General now uuid (SaleCreate.dict (scenario_B_sale 150)) df
                (VFloat 150) (VFloat 100) 150%float 100%float)
      as (stored & Hs & Hfull & _); try reflexivity.
    exists stored. split; [exact Hs|]. apply Hfull. reflexivity.
Qed.

End Payment.

(** ** The customer codec and the customer step of [create_sale] *)

Lemma set_fields_empty (r : gmap string value) : CSVHandler.set_fields ∅ r = r.
Proof.
  unfold CSVHandler.set_fields. rewrite delete_empty. apply (left_id_L ∅ (∪)).
Qed.

Lemma set_fields_insert (k : string) (v : value) (data r : gmap string value) :
  k <> "id" ->
  CSVHandler.set_fields (<[k := v]> data) r = <[k := v]> (CSVHandler.set_fields data r).
Proof.
  intros Hk. unfold CSVHandler.set_fields.
  rewrite delete_insert_ne by congruence. symmetry. apply insert_union_l.
Qed.

Section CustomerCodec.
Context `{PyText}.

Lemma customer_record_nonempty (r c : gmap string value) :
  CustomerCSVHandler._process_customer_record r = Ok c -> truthy (Some c) = true.
Proof.
  unfold CustomerCSVHandler._process_customer_record. intros Hp. inv_bind Hp.
  injection Hp as <-. simpl.
  rewrite bool_decide_eq_false_2; [reflexivity | apply decode_field_nonempty].
Qed.

(** The aggregates of a processed customer are numbers of their type. *)
Lemma customer_record_typed (r c : gmap string value) :
  CustomerCSVHandler._process_customer_record r = Ok c ->
  (get "total_spent" (VInt 0) c = VInt 0 \/ get "total_spent" (VInt 0) c = VFloat (spent_of c))
  /\ get "visits" (VInt 0) c = VInt (visits_of c)
  /\ get "loyalty_points" (VInt 0) c = VInt (points_of c).
Proof.
  unfold CustomerCSVHandler._process_customer_record. intros Hp. inv_bind Hp.
  injection Hp as <-.
  destruct (int_field_or_zero_converts "visits" _ _ E2) as (Hv & _).
  destruct (float_field_or_zero_converts "total_spent" _ _ E1) as (Hs & _).
  unfold spent_of, visits_of, points_of, get.
  rewrite !decode_field_lookup_ne by discriminate.
  repeat split.
  - rewrite Hv by discriminate.
    destruct (float_field_or_zero_typed _ _ _ E1) as [->|[x ->]]; simpl; auto.
  - destruct (int_field_or_zero_typed _ _ _ E2) as [->|[x ->]]; reflexivity.
  - rewrite Hv, Hs by discriminate.
    destruct (int_field_or_zero_typed _ _ _ E0) as [->|[x ->]]; reflexivity.
Qed.

Lemma customer_record_set_int (k : string) (n : Z) (r c : gmap string value) :
  k = "visits" \/ k = "loyalty_points" ->
  CustomerCSVHandler._process_customer_record r = Ok c ->
  CustomerCSVHandler._process_customer_record (<[k := VInt n]> r)
    = Ok (<[k := VInt n]> c).
Proof.
  unfold CustomerCSVHandler._process_customer_record. intros Hk Hp. inv_bind Hp.
  injection Hp as <-.
  rewrite (fill_missing_insert _ _ _ _ _ (VInt n) eq_refl E). simpl.
  destruct Hk as [-> | ->].
  - rewrite str_field_insert_ne by discriminate.
    destruct (int_field_or_zero_converts "loyalty_points" _ _ E0) as (_ & -> & _);
      [|discriminate]. simpl.
    destruct (float_field_or_zero_converts "total_spent" _ _ E1) as (_ & -> & _);
      [|discriminate]. simpl.
    rewrite (int_field_or_zero_own _ _ _ _ E2). simpl.
    now rewrite decode_field_insert_ne by discriminate.
  - rewrite str_field_insert_ne by discriminate.
    rewrite (int_field_or_zero_own _ _ _ _ E0). simpl.
    destruct (float_field_or_zero_converts "total_spent" _ _ E1) as (_ & -> & _);
      [|discriminate]. simpl.
    destruct (int_field_or_zero_converts "visits" _ _ E2) as (_ & -> & _);
      [|discriminate]. simpl.
    now rewrite decode_field_insert_ne by discriminate.
Qed.

Lemma customer_record_set_spent (x : float) (r c : gmap string value) :
  CustomerCSVHandler._process_customer_record r = Ok c ->
  exists y, CustomerCSVHandler._process_customer_record (<["total_spent" := VFloat x]> r)
            = Ok (<["total_spent" := VFloat y]> c)
            /\ (PrimFloat.is_nan x = false -> y = x).
Proof.
  unfold CustomerCSVHandler._process_customer_record. intros Hp. inv_bind Hp.
  injection Hp as <-.
  exists (if PrimFloat.is_nan x then 0%float else x). split.
  - rewrite (fill_missing_insert _ _ _ _ _ (VFloat x) eq_refl E). simpl.
    assert (Hcell : (if is_missing_or_empty (VFloat x)
                     then CustomerCSVHandler.nan_default "total_spent" else VFloat x)
                    = VFloat (if PrimFloat.is_nan x then 0%float else x)).
    { unfold is_missing_or_empty. simpl. rewrite orb_false_r.
      now destruct (PrimFloat.is_nan x). }
    rewrite Hcell.
    rewrite str_field_insert_ne by discriminate.
    destruct (int_field_or_zero_converts "loyalty_points" _ _ E0) as (_ & -> & _);
      [|discriminate]. simpl.
    rewrite (float_field_or_zero_own _ _ _ _ E1). simpl.
    destruct (int_field_or_zero_converts "visits" _ _ E2) as (_ & -> & _);
      [|discriminate]. simpl.
    now rewrite decode_field_insert_ne by discriminate.
  - now intros ->.
Qed.

Lemma customer_record_set_last_visit (now : string) (r c : gmap string value) :
  CustomerCSVHandler._process_customer_record r = Ok c ->
  exists v, CustomerCSVHandler._process_customer_record (<["last_visit" := VStr now]> r)
            = Ok (<["last_visit" := v]> c)
            /\ (is_missing_or_empty (VStr now) = false -> v = VStr now).
Proof.
  unfold CustomerCSVHandler._process_customer_record. intros Hp. inv_bind Hp.
  injection Hp as <-.
  eexists. split.
  - rewrite (fill_missing_insert _ _ _ _ _ (VStr now) eq_refl E). simpl.
    rewrite str_field_insert_ne by discriminate.
    destruct (int_field_or_zero_converts "loyalty_points" _ _ E0) as (_ & -> & _);
      [|discriminate]. simpl.
    destruct (float_field_or_zero_converts "total_spent" _ _ E1) as (_ & -> & _);
      [|discriminate]. simpl.
    destruct (int_field_or_zero_converts "visits" _ _ E2) as (_ & -> & _);
      [|discriminate]. simpl.
    now rewrite decode_field_insert_ne by discriminate.
  - now intros ->.
Qed.

(** The codec accepts the row that the update of [create_sale] writes. *)
Lemma customer_record_set_stats (r c c0 : gmap string value) (total : float)
    (points : Z) (now : string) :
  CustomerCSVHandler._process_customer_record r = Ok c ->
  exists c',
    CustomerCSVHandler._process_customer_record
      (CSVHandler.set_fields (customer_stats c0 total points now) r) = Ok c'.
Proof.
  intros Hp. unfold customer_stats.
  rewrite !set_fields_insert, set_fields_empty by discriminate.
  destruct (customer_record_set_last_visit now _ _ Hp) as (v & H1 & _).
  pose proof (customer_record_set_int "loyalty_points" (points_of c0 + points) _ _
                (or_intror eq_refl) H1) as H2.
  pose proof (customer_record_set_int "visits" (visits_of c0 + 1) _ _
                (or_introl eq_refl) H2) as H3.
  destruct (customer_record_set_spent (PrimFloat.add (spent_of c0) total) _ _ H3)
    as (y & H4 & _).
  eauto.
Qed.

Lemma customer_find_inv (customer_id : string) (df : list (gmap string value))
    (c : gmap string value) :
  CustomerCSVHandler.find_by_id customer_id df = Ok (Some c) ->
  exists r, head (List.filter (CSVHandler.has_id customer_id) df) = Some r
            /\ CustomerCSVHandler._process_customer_record r = Ok c.
Proof.
  unfold CustomerCSVHandler.find_by_id. rewrite find_by_id_head.
  destruct (head _) as [r|]; [|discriminate].
  intros Hp. apply fmap_Ok_inv in Hp as (p' & Hp & [= ->]). eauto.
Qed.

Lemma customer_update_stats (customer_id : string) (df : list (gmap string value))
    (c : gmap string value) (total : float) (points : Z) (now : string) :
  CustomerCSVHandler.find_by_id customer_id df = Ok (Some c) ->
  exists c',
    CustomerCSVHandler.update customer_id (customer_stats c total points now) df
      = (updated_table customer_id (customer_stats c total points now) df, Ok (Some c')).
Proof.
  intros Hf. apply customer_find_inv in Hf as (r & Hh & Hp).
  pose proof (head_filter_Exists _ _ _ Hh) as [Hex _].
  destruct (customer_record_set_stats r c c total points now Hp) as (c' & Hc').
  exists c'. unfold CustomerCSVHandler.update.
  assert (He : dumps_if_dict "preferences" (customer_stats c total points now)
               = customer_stats c total points now).
  { unfold dumps_if_dict, customer_stats.
    now rewrite !lookup_insert_ne, lookup_empty by discriminate. }
  rewrite He, update_found by exact Hex.
  rewrite updated_table_filter.
  destruct (List.filter (CSVHandler.has_id customer_id) df) as [|r0 l]; [discriminate|].
  injection Hh as ->. simpl. now rewrite Hc'.
Qed.

End CustomerCodec.

(** ** The sale codec *)

Section SaleCodec.
Context `{PyText}.

Lemma float_field_ready (f : string) (r : gmap string value) :
  map_Forall (fun _ v => float_ready v) r ->
  exists r', float_field f r = Ok r' /\ map_Forall (fun _ v => float_ready v) r'.
Proof.
  intros Hall. unfold float_field.
  destruct (r !! f) as [v|] eqn:Hr; [|eauto].
  assert (Hins : forall x, map_Forall (fun _ v => float_ready v) (<[f := VFloat x]> r)).
  { intros x. apply map_Forall_insert_2; [|exact Hall]. split; [reflexivity | discriminate]. }
  destruct (Hall f v Hr) as [_ Hz].
  destruct v as [| b | z | x | s | l | d]; simpl; eauto.
  - rewrite (Hz z eq_refl). simpl. eauto.
  - destruct (float_of_str s); simpl; eauto.
Qed.

Lemma str_field_ready (f : string) (r : gmap string value) :
  map_Forall (fun _ v => float_ready v) r ->
  map_Forall (fun _ v => float_ready v) (str_field f r).
Proof.
  intros Hall. unfold str_field. destruct (r !! f); [|exact Hall].
  apply map_Forall_insert_2; [|exact Hall]. split; [reflexivity | discriminate].
Qed.

Lemma fill_missing_ready (missing : value -> bool) (dflt : string -> value)
    (r : gmap string value) :
  (forall k, float_ready (dflt k)) ->
  map_Forall (fun _ v => float_ready v) r ->
  exists r', fill_missing missing dflt r = Ok r'
             /\ map_Forall (fun _ v => float_ready v) r'.
Proof.
  intros Hd Hall. eexists. split.
  - apply fill_missing_ok. intros k v Hk. now destruct (Hall k v Hk).
  - intros k v. rewrite map_lookup_imap.
    destruct (r !! k) as [v0|] eqn:Hr; [|discriminate]. simpl.
    intros [= <-]. destruct (missing v0); [apply Hd | exact (Hall k v0 Hr)].
Qed.

Lemma sale_nan_default_ready (k : string) : float_ready (SalesCSVHandler.nan_default k).
Proof.
  unfold SalesCSVHandler.nan_default.
  repeat case_bool_decide; split; try reflexivity; discriminate.
Qed.

(** The sale codec accepts every record whose cells are ready. *)
Lemma sale_record_ok (r : gmap string value) :
  map_Forall (fun _ v => float_ready v) r ->
  exists p, SalesCSVHandler._process_sale_record r = Ok p.
Proof.
  intros Hall. unfold SalesCSVHandler._process_sale_record.
  destruct (fill_missing_ready is_missing SalesCSVHandler.nan_default r
              sale_nan_default_ready Hall) as (r1 & -> & H1). simpl.
  pose proof (str_field_ready "cashier_id" _ (str_field_ready "id" _ H1)) as H2.
  destruct (float_field_ready "subtotal" _ H2) as (r3 & -> & H3). simpl.
  destruct (float_field_ready "total" _ H3) as (r4 & -> & H4). simpl.
  destruct (float_field_ready "paid_amount" _ H4) as (r5 & -> & H5). simpl.
  destruct (float_field_ready "remaining_amount" _ H5) as (r6 & -> & H6). simpl.
  eauto.
Qed.

Lemma opt_str_ready (o : option string) : float_ready (opt_str o).
Proof. destruct o; split; try reflexivity; discriminate. Qed.

Lemma opt_float_ready (o : option float) : float_ready (opt_float o).
Proof. destruct o; split; try reflexivity; discriminate. Qed.

Lemma VStr_ready (s : string) : float_ready (VStr s).
Proof. split; [reflexivity | discriminate]. Qed.

Lemma VFloat_ready (x : float) : float_ready (VFloat x).
Proof. split; [reflexivity | discriminate]. Qed.

Lemma VInt_zero_ready : float_ready (VInt 0).
Proof. split; [reflexivity | intros z [= <-]; reflexivity]. Qed.

(** The dict of a sale request, as [SalesCSVHandler.create] prepares it. *)
Lemma prepared_sale_dict (now : string) (sale : SaleCreate.t) :
  prepared now (SaleCreate.dict sale) =
    <["customer_id" := opt_str (SaleCreate.customer_id sale)]>
    (<["items" := VStr (json_dumps (VList (map SaleItem.dict (SaleCreate.items sale))))]>
    (<["subtotal" := VFloat (SaleCreate.subtotal sale)]>
    (<["total" := VFloat (SaleCreate.total sale)]>
    (<["payment_method" := VStr (payment_method_value (SaleCreate.payment_method sale))]>
    (<["cashier_id" := VStr (SaleCreate.cashier_id sale)]>
    (<["timestamp" := opt_str (SaleCreate.timestamp sale)]>
    (<["status" := VStr (sale_status_value (SaleCreate.status sale))]>
    (<["paid_amount" := opt_float (SaleCreate.paid_amount sale)]>
    (<["remaining_amount" := opt_float (SaleCreate.remaining_amount sale)]> ∅))))))))).
Proof.
  unfold prepared, dumps_if_list, SaleCreate.dict.
  rewrite lookup_insert_ne, lookup_insert_eq by discriminate.
  rewrite lookup_insert_ne by discriminate.
  do 6 rewrite lookup_insert_ne by discriminate.
  rewrite lookup_insert_eq.
  rewrite insert_insert_ne by discriminate. now rewrite insert_insert_eq.
Qed.

Lemma prepared_sale_ready (now : string) (sale : SaleCreate.t) :
  map_Forall (fun _ v => float_ready v) (prepared now (SaleCreate.dict sale)).
Proof.
  rewrite prepared_sale_dict.
  repeat (apply map_Forall_insert_2;
          [first [apply opt_str_ready | apply opt_float_ready | apply VStr_ready
                 | apply VFloat_ready] |]).
  apply map_Forall_empty.
Qed.

Lemma sale_dict_no_id (now : string) (sale : SaleCreate.t) :
  prepared now (SaleCreate.dict sale) !! "id" = None.
Proof.
  rewrite prepared_sale_dict.
  do 10 rewrite lookup_insert_ne by discriminate. apply lookup_empty.
Qed.

Lemma sale_dict_paid (sale : SaleCreate.t) :
  SaleCreate.dict sale !! "paid_amount" = Some (opt_float (SaleCreate.paid_amount sale)).
Proof.
  unfold SaleCreate.dict.
  do 8 rewrite lookup_insert_ne by discriminate. apply lookup_insert_eq.
Qed.

Lemma sale_dict_total (sale : SaleCreate.t) :
  SaleCreate.dict sale !! "total" = Some (VFloat (SaleCreate.total sale)).
Proof.
  unfold SaleCreate.dict.
  do 3 rewrite lookup_insert_ne by discriminate. apply lookup_insert_eq.
Qed.

(** A request that states the paid amount: the sale is appended and
    returned. *)
Lemma sale_create_ok (now uuid : string) (sale : SaleCreate.t)
    (df : list (gmap string value)) (paid : float) :
  SaleCreate.paid_amount sale = Some paid ->
  exists stored rec,
    SalesCSVHandler.create now uuid (SaleCreate.dict sale) df
      = ((df ++ [stored])%list, Ok rec)
    /\ stored !! "id" = Some (VStr uuid).
Proof.
  intros Hpaid.
  assert (Hp : exists data',
             SalesCSVHandler.payment_status (prepared now (SaleCreate.dict sale)) = Ok data'
             /\ data' !! "id" = None
             /\ map_Forall (fun _ v => float_ready v) data').
  { unfold SalesCSVHandler.payment_status.
    rewrite !prepared_lookup_ne, sale_dict_paid, sale_dict_total, Hpaid by discriminate.
    cbn [opt_float py_float mbind result_bind].
    pose proof (prepared_sale_ready now sale) as Hr.
    pose proof (sale_dict_no_id now sale) as Hid.
    generalize dependent (prepared now (SaleCreate.dict sale)). intros P Hr Hid.
    destruct (PrimFloat.leb _ _); eexists; (split; [reflexivity|]); split.
    - now rewrite !lookup_insert_ne by discriminate.
    - repeat (apply map_Forall_insert_2;
              [first [apply VStr_ready | apply VFloat_ready | apply VInt_zero_ready] |]).
      exact Hr.
    - now rewrite !lookup_insert_ne by discriminate.
    - repeat (apply map_Forall_insert_2;
              [first [apply VStr_ready | apply VFloat_ready | apply VInt_zero_ready] |]).
      exact Hr. }
  destruct Hp as (data' & Hps & Hid & Hr).
  rewrite create_unfold, Hps. unfold CSVHandler.create. rewrite Hid.
  destruct (sale_record_ok (<["id" := VStr uuid]> data')) as (rec & Hrec).
  { apply map_Forall_insert_2; [apply VStr_ready | exact Hr]. }
  exists (<["id" := VStr uuid]> data'), rec. rewrite Hrec.
  split; [reflexivity | apply lookup_insert_eq].
Qed.

(** A request without the paid amount: [float(None)] raises, before the
    table is touched. *)
Lemma sale_create_raises (now uuid : string) (sale : SaleCreate.t)
    (df : list (gmap string value)) :
  SaleCreate.paid_amount sale = None ->
  SalesCSVHandler.create now uuid (SaleCreate.dict sale) df = (df, Raise TypeError).
Proof.
  intros Hpaid. rewrite create_unfold. unfold SalesCSVHandler.payment_status.
  rewrite !prepared_lookup_ne, sale_dict_paid, sale_dict_total, Hpaid by discriminate.
  reflexivity.
Qed.

End SaleCodec.

(** ** The sale processor ([create_sale]) *)

Section SaleProcessor.
Context `{PyText}.

Lemma stats_skipped (env : Env) (sale : SaleCreate.t) (w : World) :
  SaleCreate.customer_id sale = None \/ SaleCreate.customer_id sale = Some "" ->
  update_customer_stats env sale w = (w, Ok tt).
Proof. unfold update_customer_stats. now intros [-> | ->]. Qed.

Lemma stats_missing (env : Env) (sale : SaleCreate.t) (w : World) (customer_id : string) :
  SaleCreate.customer_id sale = Some customer_id ->
  CustomerCSVHandler.find_by_id customer_id (customers_db w) = Ok None ->
  update_customer_stats env sale w = (w, Ok tt).
Proof.
  intros Hc Hf. unfold update_customer_stats. rewrite Hc.
  destruct customer_id as [|a s]; [reflexivity|].
  unfold io_bind, read_customers. now rewrite Hf.
Qed.

Lemma float_of_int_zero : float_of_int 0 = 0%float.
Proof. reflexivity. Qed.

Lemma stats_existing (env : Env) (sale : SaleCreate.t) (w : World)
    (customer_id : string) (c : gmap string value) (points : Z) :
  SaleCreate.customer_id sale = Some customer_id -> customer_id <> "" ->
  CustomerCSVHandler.find_by_id customer_id (customers_db w) = Ok (Some c) ->
  int_of_float (SaleCreate.total sale) = Some points ->
  update_customer_stats env sale w =
    (with_customers
       (updated_table customer_id
          (customer_stats c (SaleCreate.total sale) points (utcnow_visit env))
          (customers_db w)) w,
     Ok tt).
Proof.
  intros Hc Hne Hf Hpts. unfold update_customer_stats. rewrite Hc.
  destruct customer_id as [|a s]; [congruence|].
  unfold io_bind, read_customers. rewrite Hf.
  destruct (customer_find_inv _ _ _ Hf) as (r & _ & Hp).
  rewrite (customer_record_nonempty _ _ Hp). cbn [default from_option]. unfold id.
  destruct (customer_record_typed _ _ Hp) as (Hs & Hv & Hl).
  assert (Hadd : py_add (get "total_spent" (VInt 0) c) (VFloat (SaleCreate.total sale))
                 = Ok (VFloat (PrimFloat.add (spent_of c) (SaleCreate.total sale)))).
  { destruct Hs as [Hs | Hs]; rewrite Hs; [|reflexivity].
    unfold spent_of. rewrite Hs. reflexivity. }
  unfold io_lift. rewrite Hadd, Hv, Hl. cbn [py_add num_arith as_number].
  cbn [py_int]. rewrite Hpts. cbn [py_add num_arith as_number].
  unfold on_customers.
  destruct (customer_update_stats _ _ _ (SaleCreate.total sale) points (utcnow_visit env) Hf)
    as (c' & Hup).
  unfold customer_stats in Hup |- *. rewrite Hup. reflexivity.
Qed.

(** The customer step writes to the table of customers only. *)
Lemma stats_frame (env : Env) (sale : SaleCreate.t) (w : World) :
  products_db (fst (update_customer_stats env sale w)) = products_db w
  /\ sales_db (fst (update_customer_stats env sale w)) = sales_db w.
Proof.
  unfold update_customer_stats, io_bind, read_customers, io_lift, on_customers, io_ret.
  destruct (SaleCreate.customer_id sale) as [[|a s]|]; try now split.
  destruct (CustomerCSVHandler.find_by_id _ _) as [customer|e]; [|now split].
  destruct (truthy customer); [|now split].
  destruct (py_add _ _) as [v1|]; [|now split].
  destruct (py_add _ _) as [v2|]; [|now split].
  destruct (py_int _) as [v3|]; [|now split].
  destruct (py_add _ _) as [v4|]; [|now split].
  destruct (CustomerCSVHandler.update _ _ _) as [df [u|e]]; now split.
Qed.

(** [create_sale] once the stock loop and the customer step are through. *)
Lemma create_sale_inserts (env : Env) (sale : SaleCreate.t) (w w1 w2 : World) :
  io_for (SaleCreate.items sale) check_and_take_stock w = (w1, Ok tt) ->
  update_customer_stats env sale w1 = (w2, Ok tt) ->
  create_sale env sale w =
    try_http (on_sales (SalesCSVHandler.create (utcnow_sale env) (uuid4 env)
                          (SaleCreate.dict sale))) w2.
Proof.
  intros Hl Hc. unfold create_sale, try_http, io_bind. rewrite Hl, Hc.
  destruct (on_sales _ w2) as [w3 [rec|e]]; reflexivity.
Qed.

End SaleProcessor.

Section SaleClaims.
Context `{PyText}.

Lemma item_rejected_raises (item : SaleItem.t) (w : World) (why : failure) :
  item_rejected item w why ->
  check_and_take_stock item w = (w, Raise (HTTPException 400 why)).
Proof.
  intros [(-> & Hf & ps & Hall) | (-> & p & Hf & Hlt)].
  - eapply check_absent; eassumption.
  - eapply check_insufficient; eassumption.
Qed.

Lemma stock_in_table_taken (product_id : string) (p : gmap string value) (quantity : Z)
    (df : list (gmap string value)) :
  ProductCSVHandler.find_by_id product_id df = Ok (Some p) ->
  stock_in_table product_id (take_stock product_id p quantity df)
    = Ok (Some (stock_of p - quantity)).
Proof.
  intros Hf. unfold stock_in_table, take_stock.
  destruct (product_update_stock _ _ _ (stock_of p - quantity) Hf) as [_ ->].
  now rewrite stock_of_insert.
Qed.

(** C1. When the stock loop of [create_sale] reaches a line item: it fails
    with [NotFound] if the product is absent, and with [InsufficientStock] if
    the product's stock is strictly less than the quantity; otherwise the
    stock is decremented by exactly the quantity and persisted before the loop
    goes on. A product with 5 in stock has 0 after a sale of 5, and a further
    sale of 1 fails with [InsufficientStock]. *)
Theorem create_sale_checks_and_takes_stock :
  (forall (env : Env) (sale : SaleCreate.t) (w w1 : World)
          (pre post : list SaleItem.t) (item : SaleItem.t),
     SaleCreate.items sale = (pre ++ item :: post)%list ->
     io_for pre check_and_take_stock w = (w1, Ok tt) ->
     let product_id := SaleItem.product_id item in
     let quantity := SaleItem.quantity item in
     (forall ps,
        ProductCSVHandler.find_by_id product_id (products_db w1) = Ok None ->
        ProductCSVHandler.get_all (products_db w1) = Ok ps ->
        create_sale env sale w = (w1, Raise (HTTPException 400 NotFound)))
     /\ (forall p,
           ProductCSVHandler.find_by_id product_id (products_db w1) = Ok (Some p) ->
           stock_of p < quantity ->
           create_sale env sale w = (w1, Raise (HTTPException 400 InsufficientStock)))
     /\ (forall p,
           ProductCSVHandler.find_by_id product_id (products_db w1) = Ok (Some p) ->
           quantity <= stock_of p ->
           let w2 := with_products (take_stock product_id p quantity (products_db w1)) w1 in
           io_for (pre ++ [item]) check_and_take_stock w = (w2, Ok tt)
           /\ stock_in_table product_id (products_db w2) = Ok (Some (stock_of p - quantity))
           /\ io_for (SaleCreate.items sale) check_and_take_stock w
              = io_for post check_and_take_stock w2))
  /\
  (let first := create_sale scenario_env (scenario_A_sale 5) scenario_A_world in
   stock_in_table "p1" (products_db scenario_A_world) = Ok (Some 5)
   /\ outcome (snd first) = Ok tt
   /\ stock_in_table "p1" (products_db (fst first)) = Ok (Some 0)
   /\ snd (create_sale scenario_env (scenario_A_sale 1) (fst first))
      = Raise (HTTPException 400 InsufficientStock)).
Proof.
  split.
  - intros env sale w w1 pre post item Hitems Hpre. cbv zeta. split; [|split].
    + intros ps Hf Hall. apply create_sale_loop_raises.
      rewrite Hitems, (stock_loop_reaches _ _ _ _ _ Hpre).
      now rewrite (check_absent _ _ _ Hf Hall).
    + intros p Hf Hlt. apply create_sale_loop_raises.
      rewrite Hitems, (stock_loop_reaches _ _ _ _ _ Hpre).
      now rewrite (check_insufficient _ _ _ Hf Hlt).
    + intros p Hf Hle. split; [|split].
      * rewrite (stock_loop_reaches _ _ _ _ _ Hpre).
        now rewrite (check_sufficient _ _ _ Hf Hle).
      * now apply stock_in_table_taken.
      * rewrite Hitems, (stock_loop_reaches _ _ _ _ _ Hpre).
        now rewrite (check_sufficient _ _ _ Hf Hle).
  - cbv zeta. repeat split; vm_compute; reflexivity.
Qed.

(** C4. [create_sale] is not atomic: when the first line item passes the
    stock check and a later one is rejected, the call fails, no sale is
    inserted, and the call ends in the world that the items before the
    rejected one have left, their stock taken; with the rejected item second,
    the first product is found with its stock less the first quantity. *)
Theorem create_sale_is_not_atomic
    (env : Env) (sale : SaleCreate.t) (w w1 : World)
    (first bad : SaleItem.t) (middle post : list SaleItem.t)
    (p : gmap string value) (why : failure) :
  SaleCreate.items sale = (first :: middle ++ bad :: post)%list ->
  ProductCSVHandler.find_by_id (SaleItem.product_id first) (products_db w) = Ok (Some p) ->
  SaleItem.quantity first <= stock_of p ->
  let taken :=
    with_products
      (take_stock (SaleItem.product_id first) p (SaleItem.quantity first) (products_db w)) w in
  io_for middle check_and_take_stock taken = (w1, Ok tt) ->
  item_rejected bad w1 why ->
  create_sale env sale w = (w1, Raise (HTTPException 400 why))
  /\ sales_db w1 = sales_db w
  /\ customers_db w1 = customers_db w
  /\ stock_in_table (SaleItem.product_id first) (products_db taken)
     = Ok (Some (stock_of p - SaleItem.quantity first))
  /\ (middle = [] -> w1 = taken).
Proof.
  intros Hitems Hf Hle taken Hmid Hbad.
  assert (Hpre : io_for (first :: middle) check_and_take_stock w = (w1, Ok tt)).
  { simpl. unfold io_bind. rewrite (check_sufficient _ _ _ Hf Hle). exact Hmid. }
  repeat split.
  - apply create_sale_loop_raises.
    rewrite Hitems.
    change (first :: middle ++ bad :: post)%list with ((first :: middle) ++ bad :: post)%list.
    rewrite (stock_loop_reaches _ _ _ _ _ Hpre).
    now rewrite (item_rejected_raises _ _ _ Hbad).
  - pose proof (stock_loop_frame (first :: middle) w) as [_ Hs].
    now rewrite Hpre in Hs.
  - pose proof (stock_loop_frame (first :: middle) w) as [Hc _].
    now rewrite Hpre in Hc.
  - now apply stock_in_table_taken.
  - intros ->. simpl in Hmid. unfold io_ret in Hmid. congruence.
Qed.

Lemma try_http_on_sales_frame {A}
    (f : list (gmap string value) -> list (gmap string value) * result A) (w : World) :
  products_db (fst (try_http (on_sales f) w)) = products_db w
  /\ customers_db (fst (try_http (on_sales f) w)) = customers_db w.
Proof.
  unfold try_http, on_sales. destruct (f (sales_db w)) as [df [a|[]]]; now split.
Qed.

(** C10. A request that leaves [paid_amount] out is never inserted: the
    table of sales is unchanged and the call does not succeed; when the stock
    loop and the customer step are through, the call fails with the generic
    internal failure (the dict of the request has the key [paid_amount], with
    value [None], and [float(None)] raises), in the world those steps have
    left, with the stock taken and the customer updated. *)
Theorem create_sale_without_paid_amount_fails
    (env : Env) (sale : SaleCreate.t) (w : World) :
  SaleCreate.paid_amount sale = None ->
  SaleCreate.dict sale !! "paid_amount" = Some VNone
  /\ sales_db (fst (create_sale env sale w)) = sales_db w
  /\ (forall rec, snd (create_sale env sale w) <> Ok rec)
  /\ (forall w1 w2,
        io_for (SaleCreate.items sale) check_and_take_stock w = (w1, Ok tt) ->
        update_customer_stats env sale w1 = (w2, Ok tt) ->
        create_sale env sale w = (w2, Raise (HTTPException 500 InternalFailure))).
Proof.
  intros Hpaid.
  assert (Hlast : forall w1 w2,
            io_for (SaleCreate.items sale) check_and_take_stock w = (w1, Ok tt) ->
            update_customer_stats env sale w1 = (w2, Ok tt) ->
            create_sale env sale w = (w2, Raise (HTTPException 500 InternalFailure))).
  { intros w1 w2 Hl Hc. rewrite (create_sale_inserts _ _ _ _ _ Hl Hc).
    unfold try_http, on_sales. rewrite sale_create_raises by exact Hpaid.
    now destruct w2. }
  split; [now rewrite sale_dict_paid, Hpaid|].
  assert (Hall : sales_db (fst (create_sale env sale w)) = sales_db w
                 /\ forall rec, snd (create_sale env sale w) <> Ok rec).
  { pose proof (stock_loop_frame (SaleCreate.items sale) w) as [_ Hs1].
    destruct (io_for (SaleCreate.items sale) check_and_take_stock w) as [w1 [[]|e]] eqn:Hl.
    - pose proof (stats_frame env sale w1) as [_ Hs2].
      destruct (update_customer_stats env sale w1) as [w2 [[]|e]] eqn:Hc.
      + rewrite (Hlast w1 w2 eq_refl Hc). simpl in *.
        split; [now rewrite Hs2 | intros rec; discriminate].
      + unfold create_sale, try_http, io_bind. rewrite Hl, Hc.
        destruct e; simpl in *; (split; [now rewrite Hs2 | intros rec; discriminate]).
    - unfold create_sale, try_http, io_bind. rewrite Hl.
      destruct e; simpl in *; (split; [assumption | intros rec; discriminate]). }
  destruct Hall as [Hs Hn]. repeat split; assumption.
Qed.

End SaleClaims.

Section CustomerClaims.
Context `{PyText}.

Lemma customer_stats_cells (c : gmap string value) (total : float) (points : Z)
    (now : string) (r : gmap string value) :
  let r' := CSVHandler.set_fields (customer_stats c total points now) r in
  r' !! "total_spent" = Some (VFloat (PrimFloat.add (spent_of c) total))
  /\ r' !! "visits" = Some (VInt (visits_of c + 1))
  /\ r' !! "loyalty_points" = Some (VInt (points_of c + points))
  /\ r' !! "last_visit" = Some (VStr now)
  /\ (forall k, k ∉ ["total_spent"; "visits"; "loyalty_points"; "last_visit"] ->
        r' !! k = r !! k).
Proof.
  cbv zeta. unfold customer_stats.
  rewrite !set_fields_insert, set_fields_empty by discriminate.
  repeat split.
  - apply lookup_insert_eq.
  - rewrite lookup_insert_ne by discriminate. apply lookup_insert_eq.
  - do 2 rewrite lookup_insert_ne by discriminate. apply lookup_insert_eq.
  - do 3 rewrite lookup_insert_ne by discriminate. apply lookup_insert_eq.
  - intros k Hk. rewrite !lookup_insert_ne; [reflexivity | | | |];
      intros <-; apply Hk; repeat constructor.
Qed.

(** C3. When the stock loop is through and the sale names a customer that
    exists, one [update] call rewrites the customer's row: [total_spent] grows
    by the total of the sale, [visits] by 1, [loyalty_points] by the total
    truncated to an integer, [last_visit] becomes the time of the call, and
    nothing else in the table changes. When the customer does not exist, no
    customer row changes and no error is raised for it: a request that states
    its paid amount is created. A new customer has 37.5 spent, 1 visit and 37
    points after a sale of total 37.5. *)
Theorem create_sale_updates_customer_stats :
  (forall (env : Env) (sale : SaleCreate.t) (w w1 : World) (customer_id : string),
     io_for (SaleCreate.items sale) check_and_take_stock w = (w1, Ok tt) ->
     SaleCreate.customer_id sale = Some customer_id ->
     (forall (c : gmap string value) (points : Z),
        customer_id <> "" ->
        CustomerCSVHandler.find_by_id customer_id (customers_db w) = Ok (Some c) ->
        int_of_float (SaleCreate.total sale) = Some points ->
        let stats :=
          customer_stats c (SaleCreate.total sale) points (utcnow_visit env) in
        let after := customers_db (fst (create_sale env sale w)) in
        after = fst (CSVHandler.update customer_id stats (customers_db w))
        /\ length after = length (customers_db w)
        /\ (forall i r, customers_db w !! i = Some r ->
              CSVHandler.has_id customer_id r = false -> after !! i = Some r)
        /\ (forall i r, customers_db w !! i = Some r ->
              CSVHandler.has_id customer_id r = true ->
              exists r', after !! i = Some r'
                /\ r' !! "total_spent"
                   = Some (VFloat (PrimFloat.add (spent_of c) (SaleCreate.total sale)))
                /\ r' !! "visits" = Some (VInt (visits_of c + 1))
                /\ r' !! "loyalty_points" = Some (VInt (points_of c + points))
                /\ r' !! "last_visit" = Some (VStr (utcnow_visit env))
                /\ (forall k,
                      k ∉ ["total_spent"; "visits"; "loyalty_points"; "last_visit"] ->
                      r' !! k = r !! k)))
     /\
     (CustomerCSVHandler.find_by_id customer_id (customers_db w) = Ok None ->
        customers_db (fst (create_sale env sale w)) = customers_db w
        /\ (forall paid, SaleCreate.paid_amount sale = Some paid ->
              outcome (snd (create_sale env sale w)) = Ok tt)))
  /\
  (let created := create_sale scenario_env scenario_C_sale scenario_C_world in
   stats_in_table "c1" (customers_db scenario_C_world) = Ok (Some (0%float, 0, 0))
   /\ outcome (snd created) = Ok tt
   /\ stats_in_table "c1" (customers_db (fst created)) = Ok (Some (37.5%float, 1, 37))).
Proof.
  split.
  - intros env sale w w1 customer_id Hl Hc.
    pose proof (stock_loop_frame (SaleCreate.items sale) w) as [Hcw _].
    rewrite Hl in Hcw. simpl in Hcw. split.
    + intros c points Hne Hf Hpts. cbv zeta.
      rewrite <- Hcw in Hf.
      pose proof (stats_existing env sale w1 customer_id c points Hc Hne Hf Hpts) as Hst.
      rewrite (create_sale_inserts _ _ _ _ _ Hl Hst).
      destruct (try_http_on_sales_frame
                  (SalesCSVHandler.create (utcnow_sale env) (uuid4 env) (SaleCreate.dict sale))
                  (with_customers
                     (updated_table customer_id
                        (customer_stats c (SaleCreate.total sale) points (utcnow_visit env))
                        (customers_db w1)) w1)) as [_ ->].
      cbn [with_customers customers_db]. rewrite Hcw in *.
      destruct (customer_find_inv _ _ _ Hf) as (r0 & Hh & _).
      pose proof (head_filter_Exists _ _ _ Hh) as [Hex _].
      rewrite update_found by exact Hex. cbn [fst].
      repeat split.
      * unfold updated_table. apply length_map.
      * intros i r Hi Hr. rewrite updated_table_lookup, Hi. simpl. now rewrite Hr.
      * intros i r Hi Hr.
        exists (CSVHandler.set_fields
                  (customer_stats c (SaleCreate.total sale) points (utcnow_visit env)) r).
        rewrite updated_table_lookup, Hi. simpl. rewrite Hr.
        split; [reflexivity|]. apply customer_stats_cells.
    + intros Hf. rewrite <- Hcw in Hf.
      pose proof (stats_missing env sale w1 customer_id Hc Hf) as Hst.
      rewrite (create_sale_inserts _ _ _ _ _ Hl Hst).
      destruct (try_http_on_sales_frame
                  (SalesCSVHandler.create (utcnow_sale env) (uuid4 env) (SaleCreate.dict sale))
                  w1) as [_ ->].
      split; [exact Hcw|].
      intros paid Hpaid. unfold try_http, on_sales.
      destruct (sale_create_ok (utcnow_sale env) (uuid4 env) sale (sales_db w1) paid Hpaid)
        as (stored & rec & -> & _).
      reflexivity.
  - cbv zeta. repeat split; vm_compute; reflexivity.
Qed.

End CustomerClaims.

(** ** Creating a product *)

Section ProductCreation.
Context `{PyText}.

Lemma float_field_at (f : string) (x : float) (r : gmap string value) :
  r !! f = Some (VFloat x) -> float_field f r = Ok (<[f := VFloat x]> r).
Proof. intros Hr. unfold float_field. now rewrite Hr. Qed.

Lemma int_field_at (f : string) (z : Z) (r : gmap string value) :
  r !! f = Some (VInt z) -> int_field f r = Ok (<[f := VInt z]> r).
Proof. intros Hr. unfold int_field. now rewrite Hr. Qed.

Lemma product_create_stores (uuid : string) (p : ProductCreate.t)
    (df : list (gmap string value)) :
  ProductCSVHandler.create uuid (ProductCreate.dict p) df =
    ((df ++ [stored_product uuid p])%list,
     ProductCSVHandler._process_product_record (stored_product uuid p)).
Proof.
  unfold ProductCSVHandler.create, encode_list_field, CSVHandler.create.
  assert (Hv : ProductCreate.dict p !! "variants"
               = Some (VList (map ProductVariant.dict (ProductCreate.variants p)))).
  { unfold ProductCreate.dict. do 8 rewrite lookup_insert_ne by discriminate.
    apply lookup_insert_eq. }
  rewrite Hv.
  assert (Hd : <["variants" :=
                   VStr (json_dumps (VList (map ProductVariant.dict (ProductCreate.variants p))))]>
                 (ProductCreate.dict p)
               = base.delete "id" (stored_product uuid p)).
  { unfold stored_product, ProductCreate.dict.
    rewrite delete_insert_eq.
    rewrite delete_id by (do 9 rewrite lookup_insert_ne by discriminate; apply lookup_empty).
    rewrite (insert_insert_ne _ "variants" "name") by discriminate. f_equal. }
  rewrite Hd, lookup_delete_eq.
  assert (Hi : <["id" := VStr uuid]> (base.delete "id" (stored_product uuid p))
               = stored_product uuid p).
  { rewrite insert_delete_eq. unfold stored_product. apply insert_insert_eq. }
  now rewrite Hi.
Qed.

(** The record that [create] returns for a request: the codec accepts the
    stored row, and these are its numbers and its variants. *)
Lemma stored_product_record (uuid : string) (p : ProductCreate.t) :
  exists rec,
    ProductCSVHandler._process_product_record (stored_product uuid p) = Ok rec
    /\ rec !! "stock" = Some (VInt (ProductCreate.stock p))
    /\ rec !! "price" = Some (VFloat (not_nan (ProductCreate.price p)))
    /\ rec !! "cost" = Some (VFloat (not_nan (ProductCreate.cost p)))
    /\ rec !! "variants"
       = Some (VList (map ProductVariant.dict (ProductCreate.variants p))).
Proof.
  unfold ProductCSVHandler._process_product_record.
  assert (Hfill : map_Forall (fun _ v => isna_ambiguous v = false) (stored_product uuid p)).
  { unfold stored_product.
    repeat (apply map_Forall_insert_2; [first [reflexivity | now destruct (_ : option string)] |]).
    apply map_Forall_empty. }
  rewrite (fill_missing_ok _ _ _ Hfill). cbn [mbind result_bind].
  set (r1 := map_imap _ (stored_product uuid p)).
  assert (Hprice : r1 !! "price" = Some (VFloat (not_nan (ProductCreate.price p)))).
  { unfold r1, stored_product. rewrite map_lookup_imap.
    do 3 rewrite lookup_insert_ne by discriminate. rewrite lookup_insert_eq.
    simpl. unfold not_nan. now destruct (PrimFloat.is_nan _). }
  assert (Hcost : r1 !! "cost" = Some (VFloat (not_nan (ProductCreate.cost p)))).
  { unfold r1, stored_product. rewrite map_lookup_imap.
    do 4 rewrite lookup_insert_ne by discriminate. rewrite lookup_insert_eq.
    simpl. unfold not_nan. now destruct (PrimFloat.is_nan _). }
  assert (Hstock : r1 !! "stock" = Some (VInt (ProductCreate.stock p))).
  { unfold r1, stored_product. rewrite map_lookup_imap.
    do 5 rewrite lookup_insert_ne by discriminate. now rewrite lookup_insert_eq. }
  assert (Hvar : r1 !! "variants"
                 = Some (VStr (json_dumps
                                 (VList (map ProductVariant.dict (ProductCreate.variants p)))))).
  { unfold r1, stored_product. rewrite map_lookup_imap.
    do 9 rewrite lookup_insert_ne by discriminate. rewrite lookup_insert_eq.
    reflexivity. }
  clearbody r1.
  rewrite (float_field_at "price" (not_nan (ProductCreate.price p)))
    by (now rewrite str_field_lookup_ne by discriminate).
  cbn [mbind result_bind].
  rewrite (float_field_at "cost" (not_nan (ProductCreate.cost p)))
    by (now rewrite lookup_insert_ne, str_field_lookup_ne by discriminate).
  cbn [mbind result_bind].
  rewrite (int_field_at "stock" (ProductCreate.stock p))
    by (now rewrite !lookup_insert_ne, str_field_lookup_ne by discriminate).
  cbn [mbind result_bind].
  eexists. split; [reflexivity|]. repeat split.
  - rewrite decode_field_lookup_ne by discriminate. apply lookup_insert_eq.
  - rewrite decode_field_lookup_ne by discriminate.
    rewrite !lookup_insert_ne by discriminate. apply lookup_insert_eq.
  - rewrite decode_field_lookup_ne by discriminate.
    rewrite lookup_insert_ne by discriminate. apply lookup_insert_eq.
  - unfold decode_field.
    rewrite !lookup_insert_ne, str_field_lookup_ne, Hvar by discriminate.
    rewrite lookup_insert_eq.
    now rewrite json_loads_dumps by apply variants_json_safe.
Qed.

End ProductCreation.

Section ProductClaims.
Context `{PyText}.

Lemma mapM_Ok_Forall {A B} (f : A -> result B) (l : list A) (ys : list B) :
  mapM f l = Ok ys -> Forall (fun x => exists y, f x = Ok y) l.
Proof.
  revert ys. induction l as [|x l IH]; intros ys Hm; [constructor|].
  simpl in Hm. inv_bind Hm. constructor; eauto.
Qed.

Lemma Exists_head_filter {A} (p : A -> bool) (l : list A) :
  Exists (fun x => p x = true) l ->
  exists x, head (List.filter p l) = Some x /\ x ∈ l /\ p x = true.
Proof.
  induction 1 as [x l Hx | x l _ (y & Hh & Hin & Hy)]; simpl.
  - rewrite Hx. exists x. repeat split; [left | exact Hx].
  - destruct (p x) eqn:Hx.
    + exists x. repeat split; [left | exact Hx].
    + exists y. repeat split; [exact Hh | now right | exact Hy].
Qed.

Lemma find_by_sku_found (sku : string) (df ps : list (gmap string value)) :
  Exists (fun r => ProductCSVHandler.has_sku sku r = true) df ->
  ProductCSVHandler.get_all df = Ok ps ->
  exists p, ProductCSVHandler.find_by_sku sku df = Ok (Some p) /\ truthy (Some p) = true.
Proof.
  intros Hex Hall. unfold ProductCSVHandler.find_by_sku, ProductCSVHandler.get_all in *.
  destruct df as [|r0 df]; [inversion Hex|]. cbn [CSVHandler.empty] in *.
  destruct (Exists_head_filter _ _ Hex) as (r & -> & Hin & _).
  apply mapM_Ok_Forall in Hall. rewrite Forall_forall in Hall.
  destruct (Hall r Hin) as (p & Hp). rewrite Hp. exists p.
  split; [reflexivity | exact (product_record_truthy _ _ Hp)].
Qed.

Lemma find_by_sku_fresh (sku : string) (df : list (gmap string value)) :
  Forall (fun r => ProductCSVHandler.has_sku sku r = false) df ->
  ProductCSVHandler.find_by_sku sku df = Ok None.
Proof.
  intros Hall. unfold ProductCSVHandler.find_by_sku.
  destruct (CSVHandler.empty df); [reflexivity|].
  now rewrite (filter_none _ _ Hall).
Qed.

(** The check of [create_product], on a table whose sku cells are read as
    text: a request whose sku is the text of a cell fails with [Conflict] and
    leaves the table as it was; a request whose sku is the text of no cell
    appends its row and returns a record whose stock is an integer and whose
    price and cost are floats: the values of the request. The check is made by
    [create_product] with [find_by_sku]; the store itself appends whatever it
    is given. *)
Lemma create_product_checks_text_skus
    (uuid : string) (product : ProductCreate.t) (w : World) :
  (forall ps,
     Exists (fun r => ProductCSVHandler.has_sku (ProductCreate.sku product) r = true)
       (products_db w) ->
     ProductCSVHandler.get_all (products_db w) = Ok ps ->
     create_product uuid product w = (w, Raise (HTTPException 400 Conflict)))
  /\
  (Forall (fun r => ProductCSVHandler.has_sku (ProductCreate.sku product) r = false)
     (products_db w) ->
   exists rec,
     create_product uuid product w
       = (with_products (products_db w ++ [stored_product uuid product]) w, Ok rec)
     /\ stored_product uuid product !! "sku" = Some (VStr (ProductCreate.sku product))
     /\ rec !! "stock" = Some (VInt (ProductCreate.stock product))
     /\ (exists x, rec !! "price" = Some (VFloat x)
                   /\ (PrimFloat.is_nan (ProductCreate.price product) = false ->
                       x = ProductCreate.price product))
     /\ (exists y, rec !! "cost" = Some (VFloat y)
                   /\ (PrimFloat.is_nan (ProductCreate.cost product) = false ->
                       y = ProductCreate.cost product)))
  /\
  (forall data df, exists stored,
     CSVHandler.create uuid data df = ((df ++ [stored])%list, stored)).
Proof.
  repeat split.
  - intros ps Hex Hall. unfold create_product, try_http, io_bind, read_products.
    destruct (find_by_sku_found _ _ _ Hex Hall) as (p & -> & ->). reflexivity.
  - intros Hfresh. unfold create_product, try_http, io_bind, read_products.
    rewrite (find_by_sku_fresh _ _ Hfresh). cbn [truthy]. unfold on_products.
    rewrite product_create_stores.
    destruct (stored_product_record uuid product) as (rec & -> & Hs & Hp & Hc & _).
    exists rec. repeat split.
    + exact Hs.
    + exists (not_nan (ProductCreate.price product)). split; [exact Hp|].
      unfold not_nan. now intros ->.
    + exists (not_nan (ProductCreate.cost product)). split; [exact Hc|].
      unfold not_nan. now intros ->.
  - intros data df. destruct (csv_create_stored uuid data df) as (stored & Hs & _).
    eauto.
Qed.

(** X29. The variants of a product round-trip through the codec, for
    variants whose text the strings of the model hold (code points below
    256): the list that [create] encodes with [json.dumps] is, cell by cell,
    the list that the decoding of [_process_product_record] gives back, in
    the record that [create] returns too. *)
Theorem variants_round_trip :
  (forall (vs : list ProductVariant.t) (data : gmap string value),
     data !! "variants" = Some (VList (map ProductVariant.dict vs)) ->
     encode_list_field "variants" data !! "variants"
       = Some (VStr (json_dumps (VList (map ProductVariant.dict vs))))
     /\ decode_field "variants" (VList []) (encode_list_field "variants" data) !! "variants"
        = Some (VList (map ProductVariant.dict vs)))
  /\
  (forall (uuid : string) (p : ProductCreate.t) (df : list (gmap string value)),
     exists rec,
       ProductCSVHandler.create uuid (ProductCreate.dict p) df
         = ((df ++ [stored_product uuid p])%list, Ok rec)
       /\ stored_product uuid p !! "variants"
          = Some (VStr (json_dumps (VList (map ProductVariant.dict (ProductCreate.variants p)))))
       /\ rec !! "variants"
          = Some (VList (map ProductVariant.dict (ProductCreate.variants p)))).
Proof.
  split.
  - intros vs data Hd. split.
    + unfold encode_list_field. rewrite Hd. apply lookup_insert_eq.
    + unfold encode_list_field, decode_field. rewrite Hd, !lookup_insert_eq.
      now rewrite json_loads_dumps by apply variants_json_safe.
  - intros uuid p df. rewrite product_create_stores.
    destruct (stored_product_record uuid p) as (rec & -> & _ & _ & _ & Hv).
    exists rec. split; [reflexivity|]. split; [|exact Hv].
    unfold stored_product. do 9 rewrite lookup_insert_ne by discriminate.
    apply lookup_insert_eq.
Qed.

End ProductClaims.

(** ** The analytics aggregator *)

Lemma alookup_dict_add (k day : string) (x : float) (d : list (string * float)) :
  alookup day (dict_add k x d) =
    if String.eqb k day then Some (PrimFloat.add (default 0%float (alookup day d)) x)
    else alookup day d.
Proof.
  induction d as [|[k' a] d IH]; simpl.
  - destruct (String.eqb k day); reflexivity.
  - destruct (String.eqb_spec k' k) as [->|Hne]; simpl.
    + destruct (String.eqb k day); reflexivity.
    + destruct (String.eqb_spec k' day) as [->|Hne'].
      * destruct (String.eqb_spec k day) as [->|_]; [congruence | reflexivity].
      * exact IH.
Qed.

Lemma dict_add_keys (k : string) (x : float) (d : list (string * float)) :
  map fst (dict_add k x d) = map fst d
  \/ ((k ∉ map fst d) /\ map fst (dict_add k x d) = (map fst d ++ [k])%list).
Proof.
  induction d as [|[k' a] d IH]; simpl.
  - right. split; [apply not_elem_of_nil | reflexivity].
  - destruct (String.eqb_spec k' k) as [->|Hne]; simpl; [now left|].
    destruct IH as [-> | [Hk ->]]; [now left|].
    right. split; [|reflexivity].
    apply not_elem_of_cons. split; [congruence | exact Hk].
Qed.

Lemma dict_add_NoDup (k : string) (x : float) (d : list (string * float)) :
  NoDup (map fst d) -> NoDup (map fst (dict_add k x d)).
Proof.
  intros Hd. destruct (dict_add_keys k x d) as [-> | [Hk ->]]; [exact Hd|].
  apply NoDup_app. repeat split; [exact Hd | | apply NoDup_singleton].
  intros y Hy Hy'. apply list_elem_of_singleton in Hy' as ->. contradiction.
Qed.

Lemma daily_of_NoDup (l d : list (string * float)) :
  NoDup (map fst d) -> NoDup (map fst (daily_of l d)).
Proof.
  revert d. induction l as [|v l IH]; intros d Hd; [exact Hd|].
  apply IH, dict_add_NoDup, Hd.
Qed.

Lemma accumulate_Some (a : float) (xs : list float) :
  accumulate (Some a) xs = Some (fold_left PrimFloat.add xs a).
Proof. revert a. induction xs as [|x xs IH]; intros a; [reflexivity | apply IH]. Qed.

Lemma daily_of_lookup (day : string) (l d : list (string * float)) :
  alookup day (daily_of l d) = accumulate (alookup day d) (map snd (on_day day l)).
Proof.
  revert d. induction l as [|v l IH]; intros d; [reflexivity|].
  unfold daily_of in *. simpl. rewrite IH, alookup_dict_add. unfold on_day. simpl.
  destruct (String.eqb (sale_date (fst v)) day); reflexivity.
Qed.

Lemma alookup_elem (day : string) (x : float) (d : list (string * float)) :
  NoDup (map fst d) -> ((day, x) ∈ d <-> alookup day d = Some x).
Proof.
  induction d as [|[k a] d IH]; intros Hd; simpl.
  - split; [intros Hin; inversion Hin | discriminate].
  - apply NoDup_cons in Hd as [Hk Hd]. rewrite elem_of_cons, (IH Hd).
    destruct (String.eqb_spec k day) as [->|Hne].
    + split.
      * intros [[= ->] | Hl]; [reflexivity|].
        exfalso. apply Hk. apply (IH Hd) in Hl.
        apply list_elem_of_fmap. exists (day, x). split; [reflexivity | exact Hl].
      * intros [= ->]. now left.
    + split; [intros [[= -> ->] | Hl]; [congruence | exact Hl] | now right].
Qed.

(** The entries of the dict of daily sales: one for each day with a sale in
    the list, holding the revenue of that day. *)
Lemma daily_of_elem (day : string) (x : float) (l : list (string * float)) :
  (day, x) ∈ daily_of l [] <->
  (exists v, v ∈ l /\ sale_date (fst v) = day) /\ x = revenue (on_day day l).
Proof.
  rewrite alookup_elem by (apply daily_of_NoDup; constructor).
  rewrite daily_of_lookup. simpl alookup. unfold revenue.
  destruct (on_day day l) as [|v0 l0] eqn:Hday.
  - simpl. split; [discriminate|]. intros [(v & Hv & Hd) _].
    assert (Hin : In v (on_day day l)).
    { apply filter_In. split; [now apply list_elem_of_In | now apply String.eqb_eq]. }
    rewrite Hday in Hin. destruct Hin.
  - assert (Hin : In v0 (on_day day l)) by (rewrite Hday; now left).
    apply filter_In in Hin as [Hin Hd]. apply String.eqb_eq in Hd.
    cbn [map accumulate fold_left default from_option id].
    change (fold_left _ (map snd l0) (Some (PrimFloat.add 0 (snd v0))))
      with (accumulate (Some (PrimFloat.add 0 (snd v0))) (map snd l0)).
    rewrite accumulate_Some. split.
    + intros [= <-]. split; [|reflexivity].
      exists v0. split; [now apply list_elem_of_In | exact Hd].
    + intros [_ ->]. reflexivity.
Qed.

#[global] Instance item_le_total : Total item_le.
Proof.
  intros x y. unfold item_le.
  destruct (String.leb_total (fst x) (fst y)) as [-> | ->]; [left | right]; exact I.
Qed.

Lemma leb_neq_ltb (s t : string) : String.leb s t = true -> s <> t -> String.ltb s t = true.
Proof.
  unfold String.leb, String.ltb. intros Hle Hne.
  destruct (String.compare s t) eqn:Hc; try reflexivity; try discriminate.
  apply String.compare_eq_iff in Hc. contradiction.
Qed.

Lemma Sorted_strict (l : list (string * float)) :
  NoDup (map fst l) -> Sorted item_le l ->
  Sorted (fun x y => Is_true (String.ltb (fst x) (fst y))) l.
Proof.
  intros Hnd Hs. induction Hs as [|x l Hs IH Hhd]; [constructor|].
  simpl in Hnd. apply NoDup_cons in Hnd as [Hx Hnd].
  constructor; [now apply IH|].
  destruct Hhd as [|y l Hxy]; constructor.
  unfold item_le in Hxy. apply Is_true_true in Hxy. apply Is_true_true.
  apply leb_neq_ltb; [exact Hxy|].
  intros Heq. apply Hx. simpl. rewrite Heq. left.
Qed.

Section AnalyticsSteps.
Context `{PyText}.

Lemma sale_views_processed (df : list (gmap string value)) (views : list (string * float)) :
  mapM sale_view df = Ok views ->
  exists recs,
    mapM SalesCSVHandler._process_sale_record df = Ok recs /\ Forall2 viewed recs views.
Proof.
  revert views. induction df as [|r df IH]; intros views Hv; simpl in Hv.
  - injection Hv as <-. exists []. split; [reflexivity | constructor].
  - apply bind_Ok_inv in Hv as (v & Ev & Hv).
    apply bind_Ok_inv in Hv as (vs & Evs & Hv). injection Hv as <-.
    unfold sale_view in Ev. apply bind_Ok_inv in Ev as (p & Ep & Ev).
    destruct (p !! "timestamp") as [[]|] eqn:Ets; try discriminate.
    destruct (p !! "total") as [[]|] eqn:Etot; try discriminate.
    injection Ev as <-.
    destruct (IH _ Evs) as (recs & Hrecs & Hall).
    exists (p :: recs). split.
    + simpl. rewrite Ep. simpl. rewrite Hrecs. reflexivity.
    + constructor; [split; assumption | assumption].
Qed.

Lemma sale_views_get_all (df : list (gmap string value)) (views : list (string * float)) :
  mapM sale_view df = Ok views ->
  exists recs, SalesCSVHandler.get_all df = Ok recs /\ Forall2 viewed recs views.
Proof.
  intros Hv. destruct (sale_views_processed _ _ Hv) as (recs & Hrecs & Hall).
  exists recs. split; [|exact Hall].
  unfold SalesCSVHandler.get_all. destruct df; [|exact Hrecs].
  simpl in Hrecs. injection Hrecs as <-. reflexivity.
Qed.

Lemma in_window_viewed (cutoff_date : string) (s : gmap string value) (v : string * float) :
  viewed s v -> in_window cutoff_date s = Ok (in_window_view cutoff_date v).
Proof. intros [Hts _]. unfold in_window, get. now rewrite Hts. Qed.

Lemma filterM_window (cutoff_date : string) (recs : list (gmap string value))
    (views : list (string * float)) :
  Forall2 viewed recs views ->
  exists recent,
    filterM (in_window cutoff_date) recs = Ok recent
    /\ Forall2 viewed recent (List.filter (in_window_view cutoff_date) views).
Proof.
  induction 1 as [|s v recs views [Hts Htot] Hall (recent & Hf & Hrecent)].
  - exists []. split; [reflexivity | constructor].
  - cbn [filterM List.filter]. rewrite (in_window_viewed _ _ _ (conj Hts Htot)), Hf.
    cbn [mbind result_bind]. destruct (in_window_view cutoff_date v).
    + exists (s :: recent). split; [reflexivity|]. constructor; [split; assumption | assumption].
    + exists recent. split; [reflexivity | assumption].
Qed.

Lemma get_total_viewed (s : gmap string value) (v : string * float) :
  viewed s v -> get "total" (VInt 0) s = VFloat (snd v).
Proof. intros [_ Htot]. unfold get. now rewrite Htot. Qed.

Lemma daily_step_viewed (d : list (string * float)) (s : gmap string value)
    (v : string * float) :
  viewed s v -> daily_step d s = Ok (dict_add (sale_date (fst v)) (snd v) d).
Proof. intros [Hts Htot]. unfold daily_step, get. now rewrite Hts, Htot. Qed.

Lemma sum_from_float (recs : list (gmap string value)) (views : list (string * float))
    (a : float) :
  Forall2 viewed recs views ->
  fold_leftM py_add (map (get "total" (VInt 0)) recs) (VFloat a)
    = Ok (VFloat (fold_left PrimFloat.add (map snd views) a)).
Proof.
  intros Hall. revert a.
  induction Hall as [|s v recs views Hv Hall IH]; intros a; [reflexivity|].
  cbn [map fold_leftM]. rewrite (get_total_viewed _ _ Hv). apply IH.
Qed.

Lemma float_of_int_0 : float_of_int 0 = 0%float.
Proof. reflexivity. Qed.

(** [sum] over the totals of the window: the integer 0 when the window is
    empty, the float sum from 0.0 otherwise. *)
Lemma py_sum_totals (recs : list (gmap string value)) (views : list (string * float)) :
  Forall2 viewed recs views ->
  py_sum (map (get "total" (VInt 0)) recs)
    = Ok (match views with [] => VInt 0 | _ :: _ => VFloat (revenue views) end).
Proof.
  intros Hall. unfold py_sum, revenue.
  destruct Hall as [|s v recs views Hv Hall]; [reflexivity|].
  cbn [map fold_leftM]. rewrite (get_total_viewed _ _ Hv).
  apply (sum_from_float _ _ _ Hall).
Qed.

Lemma daily_from (recs : list (gmap string value)) (views d : list (string * float)) :
  Forall2 viewed recs views ->
  fold_leftM daily_step recs d = Ok (daily_of views d).
Proof.
  intros Hall. revert d.
  induction Hall as [|s v recs views Hv Hall IH]; intros d; [reflexivity|].
  cbn [fold_leftM]. rewrite (daily_step_viewed _ _ _ Hv). apply IH.
Qed.

End AnalyticsSteps.

Section AnalyticsClaims.
Context `{PyText}.

Lemma analytics_run (cutoff_date : string) (w : World) (views : list (string * float)) :
  mapM sale_view (sales_db w) = Ok views ->
  outcome (ProductCSVHandler.get_all (products_db w)) = Ok tt ->
  rollups cutoff_date w = Ok tt ->
  let window := List.filter (in_window_view cutoff_date) views in
  exists payment_methods,
    get_sales_analytics cutoff_date w =
      (w, Ok {| total_sales := revenue window;
                total_transactions := Z.of_nat (length window);
                average_order_value := average window;
                sales_by_payment_method := payment_methods;
                sales_by_day := daily_of window [];
                revenue_trend := merge_sort item_le (daily_of window []) |}).
Proof.
  intros Hv Hp Hr window.
  destruct (sale_views_get_all _ _ Hv) as (recs & Hrecs & Hall).
  destruct (filterM_window cutoff_date _ _ Hall) as (recent & Hf & Hrecent).
  fold window in Hrecent.
  pose proof (py_sum_totals _ _ Hrecent) as Hsum.
  pose proof (daily_from _ _ [] Hrecent) as Hdaily.
  pose proof (Forall2_length _ _ _ Hrecent) as Hlen.
  destruct (ProductCSVHandler.get_all (products_db w)) as [ps|e] eqn:Eps;
    [|discriminate Hp].
  unfold rollups in Hr. rewrite Hrecs in Hr. cbn [mbind result_bind] in Hr.
  rewrite Hf in Hr. cbn [mbind result_bind] in Hr.
  destruct (fold_leftM (sale_step (products_db w)) recent []) as [product_sales|e] eqn:Eloop;
    [|discriminate Hr].
  cbn [mbind result_bind] in Hr.
  destruct (Counter (map (get "payment_method" (VStr "unknown")) recent))
    as [payment_methods|e] eqn:Ecount; [|discriminate Hr].
  exists payment_methods.
  unfold get_sales_analytics, try_500, io_bind, read_sales, read_products, io_lift, io_ret.
  rewrite Hrecs, Eps, Hf, Hsum, Hlen, Eloop, Ecount, Hdaily.
  destruct window as [|v window']; [reflexivity|].
  change (0 <? Z.of_nat (length (v :: window'))) with true.
  reflexivity.
Qed.

(** C9. For a table of sales that each have a timestamp and a total, and a
    cutoff (the start of the day-window, as an ISO timestamp), when the
    rollups of the items and of the payment methods go through, the aggregator
    answers over the window, the sales whose timestamp is at or after the
    cutoff: the transaction count is their number, the total revenue is the
    sum of their totals, the average order value is the total revenue divided
    by the count, and 0 when the window is empty; [revenue_trend] has the
    days of [sales_by_day], in strictly increasing order of the date, one
    entry for each day on which the window has a sale, with the sum of that
    day's totals in the window. In the scenario of a thirty-day window the
    sale dated before the cutoff counts in neither the total nor the trend. *)
Theorem analytics_aggregate_the_window :
  (forall (cutoff_date : string) (w : World) (views : list (string * float)),
     mapM sale_view (sales_db w) = Ok views ->
     outcome (ProductCSVHandler.get_all (products_db w)) = Ok tt ->
     rollups cutoff_date w = Ok tt ->
     let window := List.filter (in_window_view cutoff_date) views in
     exists a,
       get_sales_analytics cutoff_date w = (w, Ok a)
       /\ total_transactions a = Z.of_nat (length window)
       /\ total_sales a = revenue window
       /\ average_order_value a
          = match window with
            | [] => 0%float
            | _ :: _ =>
                PrimFloat.div (total_sales a) (float_of_int (total_transactions a))
            end
       /\ Permutation (revenue_trend a) (sales_by_day a)
       /\ Sorted (fun x y => Is_true (String.ltb (fst x) (fst y))) (revenue_trend a)
       /\ (forall day x,
             (day, x) ∈ revenue_trend a <->
             (exists v, v ∈ window /\ sale_date (fst v) = day)
             /\ x = revenue (on_day day window)))
  /\
  (snd (get_sales_analytics scenario_D_cutoff scenario_D_world)
   = Ok {| total_sales := 35.5;
           total_transactions := 3;
           average_order_value := PrimFloat.div 35.5 3;
           sales_by_payment_method := [(VStr "cash", 3)];
           sales_by_day := [("2024-04-10", 25.5%float); ("2024-04-05", 10%float)];
           revenue_trend := [("2024-04-05", 10%float); ("2024-04-10", 25.5%float)] |}).
Proof.
  split.
  - intros cutoff_date w views Hv Hp Hr window.
    destruct (analytics_run cutoff_date w views Hv Hp Hr) as (payment_methods & Hrun).
    fold window in Hrun.
    eexists. split; [exact Hrun|]. cbn [total_transactions total_sales
      average_order_value sales_by_day revenue_trend].
    assert (Hnd : NoDup (map fst (daily_of window []))).
    { apply daily_of_NoDup. constructor. }
    assert (Hperm : Permutation (merge_sort item_le (daily_of window [])) (daily_of window [])).
    { apply merge_sort_Permutation. }
    split; [reflexivity|]. split; [reflexivity|].
    split; [destruct window; reflexivity|].
    split; [exact Hperm|].
    split.
    + apply Sorted_strict; [|apply (Sorted_merge_sort item_le)].
      assert (Hkeys : Permutation (map fst (merge_sort item_le (daily_of window [])))
                                  (map fst (daily_of window [])))
        by (apply Permutation_map; exact Hperm).
      rewrite Hkeys. exact Hnd.
    + intros day x. rewrite <- daily_of_elem.
      split; intros Hin; [rewrite <- Hperm | rewrite Hperm]; exact Hin.
  - vm_compute. reflexivity.
Qed.

End AnalyticsClaims.

(** ** The theorems at the scenarios *)

(** A sale of 2 and then 10 of a product with 5 in stock: the call fails at
    the second line, no sale is stored, and the product is left with 3. *)
Lemma create_sale_is_not_atomic_witness :
  let after := create_sale (H := example_text) scenario_env split_sale scenario_A_world in
  snd after = Raise (HTTPException 400 InsufficientStock)
  /\ sales_db (fst after) = []
  /\ stock_in_table (H := example_text) "p1" (products_db (fst after)) = Ok (Some 3).
Proof.
  set (p := found (ProductCSVHandler.find_by_id (H := example_text) "p1"
                     (products_db scenario_A_world))).
  set (taken := with_products (take_stock "p1" p 2 (products_db scenario_A_world))
                  scenario_A_world).
  assert (Hf : ProductCSVHandler.find_by_id (H := example_text) "p1"
                 (products_db scenario_A_world) = Ok (Some p))
    by (vm_compute; reflexivity).
  assert (Hle : 2 <= stock_of p) by (vm_compute; discriminate).
  assert (Hbad : item_rejected (H := example_text)
                   {| SaleItem.product_id := "p1"; SaleItem.variant_id := None;
                      SaleItem.quantity := 10; SaleItem.price := 20;
                      SaleItem.product_name := None |} taken InsufficientStock).
  { right. split; [reflexivity|].
    exists (found (ProductCSVHandler.find_by_id (H := example_text) "p1" (products_db taken))).
    split; vm_compute; reflexivity. }
  destruct (create_sale_is_not_atomic (H := example_text) scenario_env split_sale
              scenario_A_world taken _ _ [] [] p InsufficientStock
              eq_refl Hf Hle eq_refl Hbad) as (Hrun & Hsales & _ & Hstock & _).
  cbv zeta. rewrite Hrun. cbn [fst snd].
  split; [reflexivity|]. split; [exact Hsales | vm_compute; reflexivity].
Defined.

(** A sale of 5 of a product with 5 in stock that leaves [paid_amount] out:
    the call fails with the internal failure, no sale is stored, and the
    product is left with 0. *)
Lemma create_sale_without_paid_amount_fails_witness :
  let after := create_sale (H := example_text) scenario_env unpaid_sale scenario_A_world in
  snd after = Raise (HTTPException 500 InternalFailure)
  /\ sales_db (fst after) = []
  /\ stock_in_table (H := example_text) "p1" (products_db (fst after)) = Ok (Some 0).
Proof.
  destruct (create_sale_without_paid_amount_fails (H := example_text) scenario_env
              unpaid_sale scenario_A_world eq_refl) as (_ & Hsales & _ & Hlast).
  set (w1 := fst (io_for (SaleCreate.items unpaid_sale)
                    (check_and_take_stock (H := example_text)) scenario_A_world)).
  assert (Hrun := Hlast w1 w1).
  cbv zeta. rewrite Hrun; [|vm_compute; reflexivity|vm_compute; reflexivity].
  cbn [fst snd].
  split; [reflexivity|]. split; vm_compute; reflexivity.
Defined.

(** * Further properties of the record store *)

Lemma found_or_not {A} (p : A -> bool) (l : list A) :
  Exists (fun x => p x = true) l \/ Forall (fun x => p x = false) l.
Proof.
  destruct (existsb p l) eqn:He.
  - left. now apply existsb_Exists.
  - right. now apply existsb_Forall.
Qed.

Lemma filter_app_last {A} (p : A -> bool) (l : list A) (x : A) :
  List.filter p (l ++ [x]) = (List.filter p l ++ (if p x then [x] else []))%list.
Proof. rewrite List.filter_app. reflexivity. Qed.

Lemma created_record (uuid : string) (data : gmap string value)
    (df : list (gmap string value)) :
  CSVHandler.create uuid data df =
    let created := match data !! "id" with
                   | None => <["id" := VStr uuid]> data
                   | Some _ => data
                   end in
    ((df ++ [created])%list, created).
Proof. reflexivity. Qed.

(** X2. Deleting the id that [create] has just given to a record without an
    id, when no older row has it, gives the table back as it was. *)
Theorem delete_undoes_create
    (uuid : string) (data : gmap string value) (df : list (gmap string value)) :
  data !! "id" = None ->
  Forall (fun r => CSVHandler.has_id uuid r = false) df ->
  CSVHandler.delete uuid (fst (CSVHandler.create uuid data df)) = (df, true).
Proof.
  intros Hid Hfresh. rewrite created_record, Hid. cbv zeta. cbn [fst].
  assert (Hnew : CSVHandler.has_id uuid (<["id" := VStr uuid]> data) = true).
  { unfold CSVHandler.has_id. rewrite lookup_insert_eq. apply String.eqb_refl. }
  rewrite delete_found.
  - f_equal. rewrite filter_app_last, Hnew. cbn [negb]. rewrite app_nil_r.
    apply filter_all. eapply Forall_impl; [exact Hfresh|]. intros r Hr. cbn beta. now rewrite Hr.
  - apply Exists_app. right. now constructor.
Qed.

Lemma set_fields_twice (data r : gmap string value) :
  CSVHandler.set_fields data (CSVHandler.set_fields data r) = CSVHandler.set_fields data r.
Proof.
  unfold CSVHandler.set_fields. rewrite (assoc_L (∪)). f_equal. apply (idemp_L (∪)).
Qed.

Lemma updated_table_twice (record_id : string) (data : gmap string value)
    (df : list (gmap string value)) :
  updated_table record_id data (updated_table record_id data df)
    = updated_table record_id data df.
Proof.
  unfold updated_table. rewrite map_map. apply map_ext. intros r.
  destruct (CSVHandler.has_id record_id r) eqn:Hr.
  - now rewrite has_id_set_fields, Hr, set_fields_twice.
  - now rewrite Hr.
Qed.

Lemma updated_table_Exists (record_id : string) (data : gmap string value)
    (df : list (gmap string value)) :
  Exists (fun r => CSVHandler.has_id record_id r = true) df ->
  Exists (fun r => CSVHandler.has_id record_id r = true) (updated_table record_id data df).
Proof.
  intros Hex. unfold updated_table. apply Exists_exists in Hex as (r & Hin & Hr).
  apply Exists_exists. exists (CSVHandler.set_fields data r). split.
  - apply list_elem_of_fmap. exists r. now rewrite Hr.
  - now rewrite has_id_set_fields.
Qed.

(** X3. [update] is idempotent: the same update made again leaves the table
    that the first one left and returns the same record. *)
Theorem update_twice_is_update_once
    (record_id : string) (data : gmap string value) (df : list (gmap string value)) :
  CSVHandler.update record_id data (fst (CSVHandler.update record_id data df))
    = CSVHandler.update record_id data df.
Proof.
  destruct (found_or_not (CSVHandler.has_id record_id) df) as [Hex | Hnone].
  - rewrite (update_found _ _ _ Hex). cbn [fst].
    rewrite (update_found _ _ _ (updated_table_Exists _ data _ Hex)).
    now rewrite updated_table_twice.
  - rewrite (update_not_found _ _ _ Hnone). cbn [fst]. apply update_not_found, Hnone.
Qed.

(** * Further properties of the products *)

Section CodecErrors.
Context `{PyText}.

Lemma fill_missing_raises (missing : value -> bool) (dflt : string -> value)
    (r : gmap string value) (e : exn) :
  fill_missing missing dflt r = Raise e -> e = ValueError.
Proof. unfold fill_missing. destruct (bool_decide _); [discriminate | congruence]. Qed.

Lemma float_conversion_raises (v : value) (e : exn) :
  except_value_type (py_float v) 0%float = Raise e -> e = OverflowError.
Proof.
  destruct v as [| b | z | f | s | l | d]; unfold py_float; try discriminate.
  - destruct (is_inf (float_of_int z)); intros Heq; [|discriminate].
    now injection Heq as <-.
  - destruct (float_of_str s); discriminate.
Qed.

Lemma int_conversion_raises (v : value) (e : exn) :
  except_value_type (py_int v) 0 = Raise e -> e = OverflowError.
Proof.
  destruct v as [| b | z | f | s | l | d]; unfold py_int; try discriminate.
  - destruct (int_of_float f); [discriminate|].
    destruct (PrimFloat.is_nan f); intros Heq; [discriminate|].
    now injection Heq as <-.
  - destruct (int_of_str s); discriminate.
Qed.

Lemma float_field_raises (f : string) (r : gmap string value) (e : exn) :
  float_field f r = Raise e -> e = OverflowError.
Proof.
  unfold float_field. destruct (r !! f) as [v|]; [|discriminate].
  destruct v; try discriminate;
    (match goal with
     | |- context [except_value_type ?m ?d] =>
         destruct (except_value_type m d) as [x|e'] eqn:Hc; [discriminate|];
         apply float_conversion_raises in Hc as ->; cbn; intros Heq; congruence
     end).
Qed.

Lemma int_field_raises (f : string) (r : gmap string value) (e : exn) :
  int_field f r = Raise e -> e = OverflowError.
Proof.
  unfold int_field. destruct (r !! f) as [v|]; [|discriminate].
  destruct v; try discriminate;
    (match goal with
     | |- context [except_value_type ?m ?d] =>
         destruct (except_value_type m d) as [x|e'] eqn:Hc; [discriminate|];
         apply int_conversion_raises in Hc as ->; cbn; intros Heq; congruence
     end).
Qed.

Lemma bind_Raise_inv {A B} (m : result A) (k : A -> result B) (e : exn) :
  m ≫= k = Raise e -> m = Raise e \/ exists a, m = Ok a /\ k a = Raise e.
Proof. destruct m as [a|e']; [right; eauto | intros [= ->]; now left]. Qed.

Lemma product_record_raises (r : gmap string value) (e : exn) :
  ProductCSVHandler._process_product_record r = Raise e -> codec_error e.
Proof.
  unfold ProductCSVHandler._process_product_record. intros Hr.
  apply bind_Raise_inv in Hr as [Hr | (r1 & _ & Hr)];
    [apply fill_missing_raises in Hr as ->; constructor|].
  apply bind_Raise_inv in Hr as [Hr | (r2 & _ & Hr)];
    [apply float_field_raises in Hr as ->; constructor|].
  apply bind_Raise_inv in Hr as [Hr | (r3 & _ & Hr)];
    [apply float_field_raises in Hr as ->; constructor|].
  apply bind_Raise_inv in Hr as [Hr | (r4 & _ & Hr)];
    [apply int_field_raises in Hr as ->; constructor | discriminate].
Qed.

End CodecErrors.

Section ProductEndpointProperties.
Context `{PyText}.

Lemma product_find_cases (product_id : string) (df : list (gmap string value)) :
  (Forall (fun r => CSVHandler.has_id product_id r = false) df
   /\ ProductCSVHandler.find_by_id product_id df = Ok None)
  \/ (exists r, Exists (fun r => CSVHandler.has_id product_id r = true) df
        /\ head (List.filter (CSVHandler.has_id product_id) df) = Some r
        /\ ProductCSVHandler.find_by_id product_id df
           = Some <$> ProductCSVHandler._process_product_record r).
Proof.
  unfold ProductCSVHandler.find_by_id. rewrite find_by_id_head.
  destruct (found_or_not (CSVHandler.has_id product_id) df) as [Hex | Hnone].
  - right. destruct (Exists_head_filter _ _ Hex) as (r & Hh & _ & _).
    exists r. rewrite Hh. auto.
  - left. now rewrite (filter_none _ _ Hnone).
Qed.

Lemma get_product_missing (product_id : string) (w : World) :
  Forall (fun r => CSVHandler.has_id product_id r = false) (products_db w) ->
  get_product product_id w = (w, Raise (HTTPException 404 NotFound)).
Proof.
  intros Hnone. unfold get_product, try_http, io_bind, read_products.
  destruct (product_find_cases product_id (products_db w))
    as [[_ ->] | (r & Hex & _)]; [reflexivity|].
  destruct (Forall_not_Exists _ _ Hnone Hex).
Qed.

Lemma delete_product_missing (product_id : string) (w : World) :
  Forall (fun r => CSVHandler.has_id product_id r = false) (products_db w) ->
  delete_product product_id w = (w, Raise (HTTPException 404 NotFound)).
Proof.
  intros Hnone. unfold delete_product, try_http, io_bind, read_products.
  destruct (product_find_cases product_id (products_db w))
    as [[_ ->] | (r & Hex & _)]; [reflexivity|].
  destruct (Forall_not_Exists _ _ Hnone Hex).
Qed.

(** X7. [delete_product] answers 404 and leaves the table when no row has
    the id. When the product is found, it removes every row with the id and
    answers with success, after which [delete_product] and [get_product] of
    the id answer 404: the answer "Failed to delete product" is never given.
    When the lookup of the product raises, the answer is the internal failure
    and the table is left. *)
Theorem delete_product_then_not_found (product_id : string) (w : World) :
  (Forall (fun r => CSVHandler.has_id product_id r = false) (products_db w) ->
     delete_product product_id w = (w, Raise (HTTPException 404 NotFound)))
  /\ (forall p,
        ProductCSVHandler.find_by_id product_id (products_db w) = Ok (Some p) ->
        let w' :=
          with_products
            (List.filter (fun r => negb (CSVHandler.has_id product_id r)) (products_db w)) w in
        delete_product product_id w = (w', Ok tt)
        /\ delete_product product_id w' = (w', Raise (HTTPException 404 NotFound))
        /\ get_product product_id w' = (w', Raise (HTTPException 404 NotFound)))
  /\ (forall e,
        ProductCSVHandler.find_by_id product_id (products_db w) = Raise e ->
        delete_product product_id w = (w, Raise (HTTPException 500 InternalFailure))).
Proof.
  split; [apply delete_product_missing|]. split.
  - intros p Hf w'.
    destruct (product_find_inv _ _ _ Hf) as (r & Hh & Hp).
    pose proof (head_filter_Exists _ _ _ Hh) as [Hex _].
    assert (Hgone : Forall (fun r => CSVHandler.has_id product_id r = false) (products_db w')).
    { apply Forall_forall. intros x Hx. apply list_elem_of_In, filter_In in Hx as [_ Hx].
      now apply negb_true_iff in Hx. }
    split; [|split].
    + unfold delete_product, try_http, io_bind, read_products, on_products.
      rewrite Hf, (product_record_truthy _ _ Hp). cbn [negb].
      now rewrite (delete_found _ _ Hex).
    + now apply delete_product_missing.
    + now apply get_product_missing.
  - intros e He. unfold delete_product, try_http, io_bind, read_products. rewrite He.
    assert (Hc : codec_error e).
    { unfold ProductCSVHandler.find_by_id in He.
      destruct (CSVHandler.find_by_id product_id (products_db w)) as [r|]; [|discriminate].
      destruct (ProductCSVHandler._process_product_record r) eqn:Hr; [discriminate|].
      injection He as ->. exact (product_record_raises _ _ Hr). }
    now destruct Hc.
Qed.

Lemma product_update_table (record_id : string) (data : gmap string value)
    (df : list (gmap string value)) :
  fst (ProductCSVHandler.update record_id data df)
    = fst (CSVHandler.update record_id (encode_list_field "variants" data) df).
Proof.
  unfold ProductCSVHandler.update.
  now destruct (CSVHandler.update record_id _ df) as [df' [u|]].
Qed.

Lemma update_product_missing (product_id : string) (product_update : ProductUpdate.t)
    (w : World) :
  Forall (fun r => CSVHandler.has_id product_id r = false) (products_db w) ->
  update_product product_id product_update w = (w, Raise (HTTPException 404 NotFound)).
Proof.
  intros Hnone. unfold update_product, try_http, io_bind, read_products.
  destruct (product_find_cases product_id (products_db w))
    as [[_ ->] | (r & Hex & _)]; [reflexivity|].
  destruct (Forall_not_Exists _ _ Hnone Hex).
Qed.

Lemma update_product_writes (product_id : string) (product_update : ProductUpdate.t)
    (w : World) (p : gmap string value) :
  ProductCSVHandler.find_by_id product_id (products_db w) = Ok (Some p) ->
  fst (try_http
         (let* updated_product :=
            on_products (ProductCSVHandler.update product_id
                           (without_None (ProductUpdate.dict product_update))) in
          io_ret updated_product) w)
  = with_products
      (updated_table product_id
         (encode_list_field "variants" (without_None (ProductUpdate.dict product_update)))
         (products_db w)) w.
Proof.
  intros Hf. destruct (product_find_inv _ _ _ Hf) as (r & Hh & _).
  pose proof (head_filter_Exists _ _ _ Hh) as [Hex _].
  unfold try_http, io_bind, on_products.
  pose proof (product_update_table product_id
                (without_None (ProductUpdate.dict product_update)) (products_db w)) as Ht.
  rewrite (update_found _ _ _ Hex) in Ht. cbn [fst] in Ht.
  destruct (ProductCSVHandler.update _ _ _) as [df' [u|e]]; cbn [fst] in Ht; subst df'.
  - reflexivity.
  - now destruct e.
Qed.

(** X9. [update_product] answers 404 when no row has the id, and 400
    [Conflict] when the request names a sku that [find_by_sku] finds on a
    product with another id; in both cases the table is left as it was. A
    request without a sku, with a sku that no product has, or with the sku of
    the product itself is written: the rows with the id take the fields of the
    request that are not [None], the variants as their JSON text. *)
Theorem update_product_checks_the_sku
    (product_id : string) (product_update : ProductUpdate.t) (w : World) :
  (Forall (fun r => CSVHandler.has_id product_id r = false) (products_db w) ->
     update_product product_id product_update w = (w, Raise (HTTPException 404 NotFound)))
  /\ (forall p,
        ProductCSVHandler.find_by_id product_id (products_db w) = Ok (Some p) ->
        (forall sku q,
           ProductUpdate.sku product_update = Some sku -> sku <> "" ->
           ProductCSVHandler.find_by_sku sku (products_db w) = Ok (Some q) ->
           q !! "id" <> Some (VStr product_id) ->
           update_product product_id product_update w
             = (w, Raise (HTTPException 400 Conflict)))
        /\ ((ProductUpdate.sku product_update = None
             \/ exists sku,
                  ProductUpdate.sku product_update = Some sku
                  /\ (ProductCSVHandler.find_by_sku sku (products_db w) = Ok None
                      \/ exists q,
                           ProductCSVHandler.find_by_sku sku (products_db w) = Ok (Some q)
                           /\ q !! "id" = Some (VStr product_id))) ->
            fst (update_product product_id product_update w)
            = with_products
                (updated_table product_id
                   (encode_list_field "variants"
                      (without_None (ProductUpdate.dict product_update)))
                   (products_db w)) w)).
Proof.
  split; [apply update_product_missing|].
  intros p Hf. destruct (product_find_inv _ _ _ Hf) as (r & _ & Hp).
  pose proof (product_record_truthy _ _ Hp) as Ht.
  pose proof (update_product_writes product_id product_update w p Hf) as Hw.
  split.
  - intros sku q Hsku Hne Hq Hid.
    unfold update_product, check_new_sku, try_http, io_bind, read_products.
    rewrite Hf, Ht, Hsku. cbn [negb]. destruct sku as [|a sku]; [congruence|].
    rewrite Hq.
    assert (Hother : other_product (Some q) product_id = true).
    { unfold other_product. apply andb_true_iff. split.
      - unfold ProductCSVHandler.find_by_sku in Hq.
        destruct (CSVHandler.empty (products_db w)); [discriminate|].
        destruct (head _) as [r'|]; [|discriminate].
        apply fmap_Ok_inv in Hq as (q' & Hq' & [= ->]).
        exact (product_record_truthy _ _ Hq').
      - destruct (q !! "id") as [[]|]; try reflexivity.
        apply negb_true_iff, String.eqb_neq. congruence. }
    now rewrite Hother.
  - intros Hok. unfold update_product.
    unfold try_http at 1, io_bind at 1, read_products at 1.
    rewrite Hf, Ht. cbn [negb].
    assert (Hcheck : check_new_sku product_id product_update w = (w, Ok tt)).
    { unfold check_new_sku.
      destruct Hok as [-> | (sku & -> & Hfound)]; [reflexivity|].
      destruct sku as [|a sku]; [reflexivity|].
      unfold io_bind, read_products.
      destruct Hfound as [-> | (q & -> & Hid)]; [reflexivity|].
      unfold other_product. rewrite Hid, String.eqb_refl. cbn [negb].
      now rewrite andb_false_r. }
    unfold io_bind at 1. rewrite Hcheck. exact Hw.
Qed.

Lemma without_None_lookup (d : gmap string value) (k : string) :
  without_None d !! k =
    match d !! k with
    | Some VNone => None
    | o => o
    end.
Proof.
  unfold without_None. rewrite map_lookup_filter.
  destruct (d !! k) as [v|]; [|reflexivity]. cbn.
  destruct v; cbn; try reflexivity; case_guard; try reflexivity; try discriminate;
    exfalso; auto.
Qed.

End ProductEndpointProperties.

(** * Further properties of the customers *)

Section CustomerEndpointProperties.
Context `{PyText} {validation : Pydantic}.

Lemma customer_find_cases (customer_id : string) (df : list (gmap string value)) :
  (Forall (fun r => CSVHandler.has_id customer_id r = false) df
   /\ CustomerCSVHandler.find_by_id customer_id df = Ok None)
  \/ (exists r, Exists (fun r => CSVHandler.has_id customer_id r = true) df
        /\ head (List.filter (CSVHandler.has_id customer_id) df) = Some r
        /\ CustomerCSVHandler.find_by_id customer_id df
           = Some <$> CustomerCSVHandler._process_customer_record r).
Proof.
  unfold CustomerCSVHandler.find_by_id. rewrite find_by_id_head.
  destruct (found_or_not (CSVHandler.has_id customer_id) df) as [Hex | Hnone].
  - right. destruct (Exists_head_filter _ _ Hex) as (r & Hh & _ & _).
    exists r. rewrite Hh. auto.
  - left. now rewrite (filter_none _ _ Hnone).
Qed.

Lemma customer_update_points (customer_id : string) (df : list (gmap string value))
    (c : gmap string value) (n : Z) :
  CustomerCSVHandler.find_by_id customer_id df = Ok (Some c) ->
  CustomerCSVHandler.update customer_id {["loyalty_points" := VInt n]} df
    = (updated_table customer_id {["loyalty_points" := VInt n]} df,
       Ok (Some (<["loyalty_points" := VInt n]> c)))
  /\ CustomerCSVHandler.find_by_id customer_id
       (updated_table customer_id {["loyalty_points" := VInt n]} df)
     = Ok (Some (<["loyalty_points" := VInt n]> c)).
Proof.
  intros Hf. apply customer_find_inv in Hf as (r & Hh & Hp).
  pose proof (head_filter_Exists _ _ _ Hh) as [Hex _].
  assert (Hup : head (List.filter (CSVHandler.has_id customer_id)
                        (updated_table customer_id {["loyalty_points" := VInt n]} df))
                = Some (<["loyalty_points" := VInt n]> r)).
  { rewrite updated_table_filter.
    destruct (List.filter (CSVHandler.has_id customer_id) df) as [|r0 l]; [discriminate|].
    injection Hh as ->. simpl. now rewrite set_fields_singleton by discriminate. }
  pose proof (customer_record_set_int "loyalty_points" n _ _ (or_intror eq_refl) Hp) as Hset.
  split.
  - unfold CustomerCSVHandler.update.
    assert (He : dumps_if_dict "preferences" {["loyalty_points" := VInt n]}
                 = ({["loyalty_points" := VInt n]} : gmap string value)).
    { unfold dumps_if_dict. now rewrite lookup_singleton_ne by discriminate. }
    rewrite He, update_found, Hup by exact Hex. now rewrite Hset.
  - unfold CustomerCSVHandler.find_by_id. rewrite find_by_id_head, Hup. now rewrite Hset.
Qed.

(** X11. [update_customer_loyalty] never stores a negative number of points:
    for a customer that is found it writes [max(0, points)] to the rows with
    the id, whatever becomes of the response. It answers with the customer
    with that number, every other field as it was, when the response model
    accepts that record, and with the internal failure, the points written
    all the same, when it does not. For an id that no row has it answers 404
    and leaves the table. *)
Theorem update_customer_loyalty_clamps (customer_id : string) (points : Z) (w : World) :
  (Forall (fun r => CSVHandler.has_id customer_id r = false) (customers_db w) ->
     update_customer_loyalty customer_id points w = (w, Raise (HTTPException 404 NotFound)))
  /\ (forall c,
        CustomerCSVHandler.find_by_id customer_id (customers_db w) = Ok (Some c) ->
        let updated := <["loyalty_points" := VInt (Z.max 0 points)]> c in
        let w' :=
          with_customers
            (updated_table customer_id {["loyalty_points" := VInt (Z.max 0 points)]}
               (customers_db w)) w in
        update_customer_loyalty customer_id points w
          = (w', if accepts Customer updated then Ok (Some updated)
                 else Raise (HTTPException 500 InternalFailure))
        /\ points_of updated = Z.max 0 points
        /\ 0 <= points_of updated
        /\ (forall k, k <> "loyalty_points" -> updated !! k = c !! k)).
Proof.
  split.
  - intros Hnone. unfold update_customer_loyalty, try_http, io_bind, read_customers.
    destruct (customer_find_cases customer_id (customers_db w))
      as [[_ ->] | (r & Hex & _)]; [reflexivity|].
    destruct (Forall_not_Exists _ _ Hnone Hex).
  - intros c Hf updated w'.
    destruct (customer_update_points _ _ _ (Z.max 0 points) Hf) as [Hup _].
    destruct (customer_find_inv _ _ _ Hf) as (r & _ & Hp).
    assert (Hpts : points_of updated = Z.max 0 points).
    { unfold points_of, get, updated. now rewrite lookup_insert_eq. }
    split; [|split; [exact Hpts|split]].
    + unfold update_customer_loyalty, try_http, io_bind, read_customers, on_customers, respond.
      rewrite Hf, (customer_record_nonempty _ _ Hp). cbn [negb]. rewrite Hup.
      change (forallb (accepts Customer)
                (option_list (Some (<["loyalty_points" := VInt (Z.max 0 points)]> c))))
        with (accepts Customer updated && true).
      destruct (accepts Customer updated); reflexivity.
    + rewrite Hpts. lia.
    + intros k Hk. unfold updated. now rewrite lookup_insert_ne.
Qed.

Lemma mapM_Ok_elem {A B} (f : A -> result B) (l : list A) (ys : list B) (x : A) :
  mapM f l = Ok ys -> x ∈ l -> exists y, y ∈ ys /\ f x = Ok y.
Proof.
  revert ys. induction l as [|a l IH]; intros ys Hm Hx; [inversion Hx|].
  cbn [mapM] in Hm. apply bind_Ok_inv in Hm as (y & Hy & Hm).
  apply bind_Ok_inv in Hm as (ys' & Hys & Hm). injection Hm as <-.
  apply elem_of_cons in Hx as [-> | Hx].
  - exists y. split; [left | exact Hy].
  - destruct (IH _ Hys Hx) as (y' & Hin & Hy'). exists y'. split; [now right | exact Hy'].
Qed.

Lemma filterM_raises {A} (p : A -> result bool) (l : list A) (x : A) (e : exn) :
  x ∈ l -> p x = Raise e -> exists e', filterM p l = Raise e'.
Proof.
  induction l as [|a l IH]; intros Hx Hp; [inversion Hx|].
  cbn [filterM]. destruct (p a) as [b|e1] eqn:Ha; [|eauto].
  cbn [mbind result_bind].
  apply elem_of_cons in Hx as [-> | Hx]; [congruence|].
  destruct (IH Hx Hp) as (e' & ->). eauto.
Qed.

Lemma customer_record_absent (r c : gmap string value) (k : string) :
  CustomerCSVHandler._process_customer_record r = Ok c ->
  k <> "preferences" -> r !! k = None -> c !! k = None.
Proof.
  unfold CustomerCSVHandler._process_customer_record. intros Hp Hk Hr. inv_bind Hp.
  injection Hp as <-. rewrite decode_field_lookup_ne by congruence.
  assert (H0 : r0 !! k = None) by (now rewrite (fill_missing_lookup _ _ _ _ k E), Hr).
  assert (H1 : str_field "id" r0 !! k = None).
  { unfold str_field. destruct (r0 !! "id") eqn:Hid; [|exact H0].
    destruct (String.eqb_spec k "id") as [-> | Hne]; [congruence|].
    now rewrite lookup_insert_ne. }
  assert (Hint : forall f a b, int_field_or_zero f a = Ok b -> a !! k = None -> b !! k = None).
  { intros f a b Hs Ha. destruct (String.eqb_spec k f) as [-> | Hne].
    - unfold int_field_or_zero in Hs. rewrite Ha in Hs. now injection Hs as <-.
    - destruct (int_field_or_zero_converts f _ _ Hs) as (-> & _); assumption. }
  assert (Hfl : forall f a b, float_field_or_zero f a = Ok b -> a !! k = None -> b !! k = None).
  { intros f a b Hs Ha. destruct (String.eqb_spec k f) as [-> | Hne].
    - unfold float_field_or_zero in Hs. rewrite Ha in Hs. now injection Hs as <-.
    - destruct (float_field_or_zero_converts f _ _ Hs) as (-> & _); assumption. }
  eauto.
Qed.

Lemma customer_record_text (r c : gmap string value) (k : string) (v : value) :
  CustomerCSVHandler._process_customer_record r = Ok c ->
  k ∉ ["id"; "loyalty_points"; "total_spent"; "visits"; "preferences"] ->
  r !! k = Some v ->
  c !! k = Some (if is_missing_or_empty v then CustomerCSVHandler.nan_default k else v).
Proof.
  unfold CustomerCSVHandler._process_customer_record. intros Hp Hk Hr. inv_bind Hp.
  injection Hp as <-.
  assert (Hne : k <> "id" /\ k <> "loyalty_points" /\ k <> "total_spent"
                /\ k <> "visits" /\ k <> "preferences").
  { repeat split; intros ->; apply Hk; repeat constructor. }
  destruct Hne as (Hid & Hlp & Hts & Hv & Hpr).
  rewrite decode_field_lookup_ne by exact Hpr.
  destruct (int_field_or_zero_converts "visits" _ _ E2) as (-> & _); [|exact Hv].
  destruct (float_field_or_zero_converts "total_spent" _ _ E1) as (-> & _); [|exact Hts].
  destruct (int_field_or_zero_converts "loyalty_points" _ _ E0) as (-> & _); [|exact Hlp].
  rewrite str_field_lookup_ne by exact Hid.
  now rewrite (fill_missing_lookup _ _ _ _ k E), Hr.
Qed.

Lemma customer_matches_no_email (search_lower : string) (c : gmap string value) :
  search_lower <> "" -> c !! "name" = None -> c !! "email" = Some VNone ->
  customer_matches search_lower c = Raise AttributeError.
Proof.
  intros Hs Hn He. unfold customer_matches, get. rewrite Hn, He.
  destruct search_lower as [|a s]; [congruence|]. reflexivity.
Qed.

(** X12. A search of the customers fails as soon as one customer has no
    email: for a search text that is not empty and a table with a row that has
    no [name] cell and an empty email, [get_customers] answers the internal
    failure. The codec reads the empty email as [None], and [None] has no
    [lower]. *)
Theorem get_customers_search_needs_emails
    (skip limit : nat) (search : string) (w : World) (r : gmap string value) :
  search <> "" ->
  r ∈ customers_db w ->
  r !! "name" = None ->
  r !! "email" = Some VNone \/ r !! "email" = Some (VStr "") ->
  get_customers skip limit (Some search) w
    = (w, Raise (HTTPException 500 InternalFailure)).
Proof.
  intros Hs Hin Hname Hemail.
  unfold get_customers, try_500, io_bind, read_customers.
  destruct (customers_get_all (customers_db w)) as [cs|e] eqn:Hall; [|reflexivity].
  unfold customers_get_all in Hall.
  destruct (customers_db w) as [|r0 df] eqn:Hdf; [inversion Hin|].
  cbn [CSVHandler.empty] in Hall.
  destruct (mapM_Ok_elem _ _ _ _ Hall Hin) as (c & Hc & Hp).
  assert (Hcn : c !! "name" = None)
    by (apply (customer_record_absent r c "name" Hp); [discriminate | exact Hname]).
  assert (Hce : c !! "email" = Some VNone).
  { assert (Hk : "email" ∉ ["id"; "loyalty_points"; "total_spent"; "visits"; "preferences"]).
    { intros Hk. apply (bool_decide_pack _) in Hk. vm_compute in Hk. exact Hk. }
    destruct Hemail as [He | He];
      rewrite (customer_record_text r c "email" _ Hp Hk He); reflexivity. }
  assert (Hlow : py_lower search <> "") by (destruct search; [congruence | discriminate]).
  destruct (filterM_raises (customer_matches (py_lower search)) cs c AttributeError Hc
              (customer_matches_no_email _ _ Hlow Hcn Hce)) as (e' & Hf).
  destruct search as [|a s]; [congruence|]. unfold io_lift. now rewrite Hf.
Qed.

(** X13. The customer codec returns a text cell as it is, except a text
    that is empty or spells "nan" in any letter case, which it reads as a
    missing value: such a first name, last name, email, phone, address or
    gender comes back as [None]. *)
Theorem customer_text_nan_is_missing
    (r c : gmap string value) (k s : string) :
  CustomerCSVHandler._process_customer_record r = Ok c ->
  k ∈ ["first_name"; "last_name"; "email"; "phone"; "address"; "gender";
       "alternate_phone"; "last_visit"] ->
  r !! k = Some (VStr s) ->
  c !! k = Some (if String.eqb (py_lower s) "nan" || String.eqb s "" then VNone else VStr s).
Proof.
  intros Hp Hk Hr.
  assert (Hk' : k ∉ ["id"; "loyalty_points"; "total_spent"; "visits"; "preferences"]).
  { intros Hin. repeat (apply elem_of_cons in Hk as [-> | Hk];
      [apply (bool_decide_pack _) in Hin; vm_compute in Hin; exact Hin|]).
    inversion Hk. }
  rewrite (customer_record_text r c k _ Hp Hk' Hr).
  assert (Hd : CustomerCSVHandler.nan_default k = VNone).
  { repeat (apply elem_of_cons in Hk as [-> | Hk]; [reflexivity|]). inversion Hk. }
  rewrite Hd. unfold is_missing_or_empty, is_missing.
  destruct s as [|a s]; [reflexivity|]. cbn [String.eqb]. now rewrite !orb_false_r.
Qed.

Lemma preferences_json_safe (p : CustomerPreferences.t) :
  json_safe (CustomerPreferences.dict p).
Proof.
  unfold CustomerPreferences.dict. apply json_safe_dict. split.
  - simpl. apply (bool_decide_unpack _). vm_compute. exact I.
  - constructor; [now destruct (CustomerPreferences.size p)|].
    constructor; [|constructor]. cbn [snd].
    destruct (CustomerPreferences.style p) as [l|]; [|exact I].
    apply json_safe_list, Forall_map, Forall_forall. now intros x _.
Qed.

Lemma dict_text_not_missing (d : list (string * value)) :
  is_missing_or_empty (VStr (json_dumps (VDict d))) = false.
Proof. rewrite json_dumps_dict. reflexivity. Qed.

Lemma customer_record_preferences (r c : gmap string value) (s : string) :
  CustomerCSVHandler._process_customer_record r = Ok c ->
  r !! "preferences" = Some (VStr s) -> is_missing_or_empty (VStr s) = false ->
  c !! "preferences" = Some (default (VDict []) (json_loads s)).
Proof.
  unfold CustomerCSVHandler._process_customer_record. intros Hp Hr Hs. inv_bind Hp.
  injection Hp as <-.
  assert (Hcell : r3 !! "preferences" = Some (VStr s)).
  { destruct (int_field_or_zero_converts "visits" _ _ E2) as (-> & _); [|discriminate].
    destruct (float_field_or_zero_converts "total_spent" _ _ E1) as (-> & _); [|discriminate].
    destruct (int_field_or_zero_converts "loyalty_points" _ _ E0) as (-> & _); [|discriminate].
    rewrite str_field_lookup_ne by discriminate.
    rewrite (fill_missing_lookup _ _ _ _ "preferences" E), Hr.
    cbn [fmap option_fmap option_map]. now rewrite Hs. }
  unfold decode_field. rewrite Hcell. apply lookup_insert_eq.
Qed.

(** X14. The preferences of a customer round-trip through the codec, for
    preferences whose text the strings of the model hold (code points below
    256): [CustomerCSVHandler.create] stores the dict of the preferences as
    its JSON text, and the record that it returns has the dict again. *)
Theorem customer_preferences_round_trip
    (uuid : string) (data : gmap string value) (df : list (gmap string value))
    (p : CustomerPreferences.t) (rec : gmap string value) :
  data !! "preferences" = Some (CustomerPreferences.dict p) ->
  snd (CustomerCSVHandler.create uuid data df) = Ok rec ->
  (exists stored,
     fst (CustomerCSVHandler.create uuid data df) = (df ++ [stored])%list
     /\ stored !! "preferences"
        = Some (VStr (json_dumps (CustomerPreferences.dict p))))
  /\ rec !! "preferences" = Some (CustomerPreferences.dict p).
Proof.
  intros Hd Hrec.
  unfold CustomerCSVHandler.create in *. unfold dumps_if_dict in *.
  rewrite Hd in *. unfold CustomerPreferences.dict in Hrec |- * at 1.
  fold (CustomerPreferences.dict p) in *.
  rewrite created_record in *. cbv zeta in *. cbn [fst snd] in *.
  set (text := json_dumps (CustomerPreferences.dict p)) in *.
  set (stored := match <["preferences" := VStr text]> data !! "id" with
                 | Some _ => <["preferences" := VStr text]> data
                 | None => <["id" := VStr uuid]> (<["preferences" := VStr text]> data)
                 end) in *.
  assert (Hcell : stored !! "preferences" = Some (VStr text)).
  { subst stored. destruct (_ !! "id").
    - apply lookup_insert_eq.
    - rewrite lookup_insert_ne by discriminate. apply lookup_insert_eq. }
  split; [exists stored; split; [reflexivity | exact Hcell]|].
  rewrite (customer_record_preferences _ _ _ Hrec Hcell (dict_text_not_missing _)).
  unfold text. now rewrite (json_loads_dumps _ (preferences_json_safe p)).
Qed.

End CustomerEndpointProperties.

(** * Further properties of the sale processor *)

Section StockInvariant.
Context `{PyText}.

Lemma check_and_take_stock_cases (item : SaleItem.t) (w : World) :
  products_db (fst (check_and_take_stock item w)) = products_db w
  \/ (exists p,
        ProductCSVHandler.find_by_id (SaleItem.product_id item) (products_db w) = Ok (Some p)
        /\ SaleItem.quantity item <= stock_of p
        /\ products_db (fst (check_and_take_stock item w))
           = take_stock (SaleItem.product_id item) p (SaleItem.quantity item) (products_db w)).
Proof.
  destruct (ProductCSVHandler.find_by_id (SaleItem.product_id item) (products_db w))
    as [[p|]|e] eqn:Hf.
  - destruct (Z_lt_le_dec (stock_of p) (SaleItem.quantity item)) as [Hlt | Hle].
    + left. now rewrite (check_insufficient _ _ _ Hf Hlt).
    + right. exists p. rewrite (check_sufficient _ _ _ Hf Hle). auto.
  - left. unfold check_and_take_stock, io_bind, read_products. rewrite Hf. cbn [truthy negb].
    now destruct (ProductCSVHandler.get_all (products_db w)).
  - left. unfold check_and_take_stock, io_bind, read_products. now rewrite Hf.
Qed.

Lemma product_record_stock_written (r p : gmap string value) (n : Z) :
  ProductCSVHandler._process_product_record (<["stock" := VInt n]> r) = Ok p ->
  stock_of p = n.
Proof.
  unfold ProductCSVHandler._process_product_record. intros Hp. inv_bind Hp.
  injection Hp as <-. unfold stock_of, get.
  rewrite decode_field_lookup_ne by discriminate.
  assert (Hcell : r2 !! "stock" = Some (VInt n)).
  { destruct (float_field_converts "cost" _ _ E1) as (-> & _); [|discriminate].
    destruct (float_field_converts "price" _ _ E0) as (-> & _); [|discriminate].
    rewrite str_field_lookup_ne by discriminate.
    rewrite (fill_missing_lookup _ _ _ _ "stock" E), lookup_insert_eq. reflexivity. }
  unfold int_field in E2. rewrite Hcell in E2. cbn in E2. injection E2 as <-.
  now rewrite lookup_insert_eq.
Qed.

Lemma take_stock_not_negative (product_id : string) (p : gmap string value) (quantity : Z)
    (df : list (gmap string value)) :
  quantity <= stock_of p ->
  Forall stock_not_negative df ->
  Forall stock_not_negative (take_stock product_id p quantity df).
Proof.
  intros Hle Hall. unfold take_stock, updated_table. apply Forall_map.
  eapply Forall_impl; [exact Hall|]. intros r Hr. cbn beta.
  destruct (CSVHandler.has_id product_id r); [|exact Hr].
  rewrite set_fields_singleton by discriminate.
  intros p' Hp'. rewrite (product_record_stock_written _ _ _ Hp'). lia.
Qed.

Lemma stock_loop_not_negative (items : list SaleItem.t) (w : World) :
  Forall stock_not_negative (products_db w) ->
  Forall stock_not_negative (products_db (fst (io_for items check_and_take_stock w))).
Proof.
  revert w. induction items as [|item items IH]; intros w Hall; [exact Hall|].
  cbn [io_for]. unfold io_bind.
  assert (Hstep : Forall stock_not_negative
                    (products_db (fst (check_and_take_stock item w)))).
  { destruct (check_and_take_stock_cases item w) as [-> | (p & _ & Hle & ->)];
      [exact Hall | now apply take_stock_not_negative]. }
  destruct (check_and_take_stock item w) as [w1 [[]|e]]; cbn [fst] in *.
  - now apply IH.
  - exact Hstep.
Qed.

(** X15. A sale never leaves a product with a negative stock: if the stock
    of every row of the table of products is not negative, it is not negative
    after [create_sale], whatever the request is and whatever the call comes
    to. *)
Theorem create_sale_keeps_stock_not_negative
    (env : Env) (sale : SaleCreate.t) (w : World) :
  Forall stock_not_negative (products_db w) ->
  Forall stock_not_negative (products_db (fst (create_sale env sale w))).
Proof.
  intros Hall.
  pose proof (stock_loop_not_negative (SaleCreate.items sale) w Hall) as Hloop.
  unfold create_sale, try_http at 1, io_bind at 1.
  destruct (io_for (SaleCreate.items sale) check_and_take_stock w) as [w1 [[]|e]];
    cbn [fst] in Hloop; [|destruct e; exact Hloop].
  unfold io_bind at 1.
  pose proof (stats_frame env sale w1) as [Hp _].
  destruct (update_customer_stats env sale w1) as [w2 [[]|e]]; cbn [fst] in Hp;
    [|destruct e; cbn [fst]; now rewrite Hp].
  unfold io_bind, on_sales, io_ret.
  destruct (SalesCSVHandler.create _ _ _ _) as [df [rec|e]]; [|destruct e];
    cbn [fst products_db]; now rewrite Hp.
Qed.

End StockInvariant.

Section SaleEndpointProperties.
Context `{PyText}.

Lemma payment_status_id (data data' : gmap string value) :
  SalesCSVHandler.payment_status data = Ok data' -> data' !! "id" = data !! "id".
Proof.
  unfold SalesCSVHandler.payment_status.
  destruct (data !! "paid_amount") as [vp|]; [|now intros [= <-]].
  destruct (data !! "total") as [vt|]; [|now intros [= <-]].
  destruct (py_float vp) as [paid|]; [|discriminate]. cbn [mbind result_bind].
  destruct (py_float vt) as [total|]; [|discriminate]. cbn [mbind result_bind].
  destruct (PrimFloat.leb total paid); intros [= <-];
    now rewrite !lookup_insert_ne by discriminate.
Qed.

Lemma sale_record_truthy (r p : gmap string value) :
  SalesCSVHandler._process_sale_record r = Ok p -> truthy (Some p) = true.
Proof.
  unfold SalesCSVHandler._process_sale_record. intros Hp. inv_bind Hp.
  injection Hp as <-. cbn [truthy].
  rewrite bool_decide_eq_false_2; [reflexivity | apply decode_field_nonempty].
Qed.

Lemma payment_status_lookup (data data' : gmap string value) (k : string) :
  SalesCSVHandler.payment_status data = Ok data' ->
  k <> "paid_amount" -> k <> "remaining_amount" -> k <> "status" ->
  data' !! k = data !! k.
Proof.
  unfold SalesCSVHandler.payment_status. intros Hps Hp Hr Hs. revert Hps.
  destruct (data !! "paid_amount") as [vp|]; [|now intros [= <-]].
  destruct (data !! "total") as [vt|]; [|now intros [= <-]].
  destruct (py_float vp) as [paid|]; [|discriminate]. cbn [mbind result_bind].
  destruct (py_float vt) as [total|]; [|discriminate]. cbn [mbind result_bind].
  destruct (PrimFloat.leb total paid); intros [= <-];
    now rewrite !lookup_insert_ne by congruence.
Qed.

Lemma sale_record_lookup (r p : gmap string value) (k : string) :
  SalesCSVHandler._process_sale_record r = Ok p ->
  k ∉ ["id"; "cashier_id"; "subtotal"; "total"; "paid_amount"; "remaining_amount"; "items"] ->
  p !! k = (fun v => if is_missing v then SalesCSVHandler.nan_default k else v) <$> r !! k.
Proof.
  unfold SalesCSVHandler._process_sale_record. intros Hp Hk. inv_bind Hp.
  injection Hp as <-.
  assert (Hne : k <> "id" /\ k <> "cashier_id" /\ k <> "subtotal" /\ k <> "total"
                /\ k <> "paid_amount" /\ k <> "remaining_amount" /\ k <> "items").
  { repeat split; intros ->; apply Hk; repeat constructor. }
  destruct Hne as (H1 & H2 & H3 & H4 & H5 & H6 & H7).
  rewrite decode_field_lookup_ne by exact H7.
  destruct (float_field_converts "remaining_amount" _ _ E3) as (-> & _); [|exact H6].
  destruct (float_field_converts "paid_amount" _ _ E2) as (-> & _); [|exact H5].
  destruct (float_field_converts "total" _ _ E1) as (-> & _); [|exact H4].
  destruct (float_field_converts "subtotal" _ _ E0) as (-> & _); [|exact H3].
  rewrite !str_field_lookup_ne by assumption.
  apply (fill_missing_lookup _ _ _ _ k E).
Qed.

(** X17. The time of a sale is the time that the request states, never the
    clock of the server: the dict of a request always has the key [timestamp],
    so [SalesCSVHandler.create] never fills it in. A sale created from a
    request without a timestamp is stored, and returned, with [None] for its
    timestamp. *)
Theorem created_sale_keeps_request_timestamp
    (env : Env) (sale : SaleCreate.t) (w w' : World) (rec : gmap string value) :
  create_sale env sale w = (w', Ok rec) ->
  exists stored,
    sales_db w' = (sales_db w ++ [stored])%list
    /\ stored !! "timestamp" = Some (opt_str (SaleCreate.timestamp sale))
    /\ (SaleCreate.timestamp sale = None -> rec !! "timestamp" = Some VNone).
Proof.
  intros Hc. unfold create_sale, try_http, io_bind in Hc.
  destruct (io_for (SaleCreate.items sale) check_and_take_stock w) as [w1 [[]|e]] eqn:Hl;
    [|destruct e; discriminate].
  destruct (update_customer_stats env sale w1) as [w2 [[]|e]] eqn:Hs;
    [|destruct e; discriminate].
  unfold on_sales, io_ret in Hc.
  destruct (SalesCSVHandler.create (utcnow_sale env) (uuid4 env) (SaleCreate.dict sale)
              (sales_db w2)) as [df [rec'|e]] eqn:Hcr; [|destruct e; discriminate].
  injection Hc as <- <-. cbn [sales_db].
  pose proof (stock_loop_frame (SaleCreate.items sale) w) as [_ Hs1]. rewrite Hl in Hs1.
  pose proof (stats_frame env sale w1) as [_ Hs2]. rewrite Hs in Hs2. cbn [fst] in *.
  rewrite create_unfold in Hcr.
  destruct (SalesCSVHandler.payment_status (prepared (utcnow_sale env) (SaleCreate.dict sale)))
    as [data'|e] eqn:Hps; [|discriminate].
  pose proof (payment_status_id _ _ Hps) as Hid. rewrite sale_dict_no_id in Hid.
  assert (Hts : data' !! "timestamp" = Some (opt_str (SaleCreate.timestamp sale))).
  { rewrite (payment_status_lookup _ _ "timestamp" Hps) by discriminate.
    rewrite prepared_sale_dict.
    do 6 rewrite lookup_insert_ne by discriminate. apply lookup_insert_eq. }
  rewrite created_record, Hid in Hcr. cbv zeta in Hcr. injection Hcr as <- Hrec.
  exists (<["id" := VStr (uuid4 env)]> data').
  assert (Hst : <["id" := VStr (uuid4 env)]> data' !! "timestamp"
                = Some (opt_str (SaleCreate.timestamp sale)))
    by (now rewrite lookup_insert_ne by discriminate).
  split; [now rewrite Hs2, Hs1|]. split; [exact Hst|].
  intros Hnone. rewrite Hnone in Hst.
  assert (Hk : "timestamp" ∉ ["id"; "cashier_id"; "subtotal"; "total"; "paid_amount";
                              "remaining_amount"; "items"]).
  { intros Hk. apply (bool_decide_pack _) in Hk. vm_compute in Hk. exact Hk. }
  rewrite (sale_record_lookup _ _ "timestamp" Hrec Hk), Hst. reflexivity.
Qed.

Lemma sale_find_cases (sale_id : string) (df : list (gmap string value)) :
  (Forall (fun r => CSVHandler.has_id sale_id r = false) df
   /\ SalesCSVHandler.find_by_id sale_id df = Ok None)
  \/ (exists r, Exists (fun r => CSVHandler.has_id sale_id r = true) df
        /\ head (List.filter (CSVHandler.has_id sale_id) df) = Some r
        /\ SalesCSVHandler.find_by_id sale_id df
           = Some <$> SalesCSVHandler._process_sale_record r).
Proof.
  unfold SalesCSVHandler.find_by_id. rewrite find_by_id_head.
  destruct (found_or_not (CSVHandler.has_id sale_id) df) as [Hex | Hnone].
  - right. destruct (Exists_head_filter _ _ Hex) as (r & Hh & _ & _).
    exists r. rewrite Hh. auto.
  - left. now rewrite (filter_none _ _ Hnone).
Qed.

Lemma sale_update_table (record_id : string) (data : gmap string value)
    (df : list (gmap string value)) :
  fst (SalesCSVHandler.update record_id data df)
    = fst (CSVHandler.update record_id (dumps_if_list "items" data) df).
Proof.
  unfold SalesCSVHandler.update.
  now destruct (CSVHandler.update record_id _ df) as [df' [u|]].
Qed.

Lemma sale_update_data_lookup (sale_update : SaleUpdate.t) (k : string) :
  k <> "items" ->
  dumps_if_list "items" (without_None (SaleUpdate.dict sale_update)) !! k
  = match SaleUpdate.dict sale_update !! k with
    | Some VNone => None
    | o => o
    end.
Proof.
  intros Hk. rewrite dumps_if_list_lookup_ne by exact Hk. apply without_None_lookup.
Qed.

Lemma sale_update_dict_other (sale_update : SaleUpdate.t) (k : string) :
  k ∉ ["status"; "paid_amount"; "remaining_amount"; "items"; "cashier_id"] ->
  SaleUpdate.dict sale_update !! k = None.
Proof.
  intros Hk. unfold SaleUpdate.dict.
  rewrite !lookup_insert_ne; [apply lookup_empty | ..];
    intros <-; apply Hk; repeat constructor.
Qed.

(** X18. [update_sale] answers 404 and leaves the table when no sale has
    the id. For a sale that is found it writes the fields of the request that
    are not [None] to the rows with the id and nothing else: the total, the
    subtotal, the customer, the payment method and the timestamp of a sale
    cannot be changed, and the status is not derived from a new paid amount,
    as it is at creation: it changes only when the request states one. *)
Theorem update_sale_writes_only_its_fields
    (sale_id : string) (sale_update : SaleUpdate.t) (w : World) :
  (Forall (fun r => CSVHandler.has_id sale_id r = false) (sales_db w) ->
     update_sale sale_id sale_update w = (w, Raise (HTTPException 404 NotFound)))
  /\ (forall s,
        SalesCSVHandler.find_by_id sale_id (sales_db w) = Ok (Some s) ->
        let w' := fst (update_sale sale_id sale_update w) in
        products_db w' = products_db w
        /\ customers_db w' = customers_db w
        /\ length (sales_db w') = length (sales_db w)
        /\ (forall i r, sales_db w !! i = Some r ->
              CSVHandler.has_id sale_id r = false -> sales_db w' !! i = Some r)
        /\ (forall i r, sales_db w !! i = Some r ->
              CSVHandler.has_id sale_id r = true ->
              exists r', sales_db w' !! i = Some r'
                /\ (forall k,
                      k ∉ ["status"; "paid_amount"; "remaining_amount"; "items";
                           "cashier_id"] ->
                      r' !! k = r !! k)
                /\ (SaleUpdate.status sale_update = None -> r' !! "status" = r !! "status")
                /\ (forall st, SaleUpdate.status sale_update = Some st ->
                      r' !! "status" = Some (VStr (sale_status_value st)))
                /\ (forall paid, SaleUpdate.paid_amount sale_update = Some paid ->
                      r' !! "paid_amount" = Some (VFloat paid)))).
Proof.
  split.
  - intros Hnone. unfold update_sale, try_http, io_bind, read_sales.
    destruct (sale_find_cases sale_id (sales_db w)) as [[_ ->] | (r & Hex & _)];
      [reflexivity|].
    destruct (Forall_not_Exists _ _ Hnone Hex).
  - intros s Hf w'.
    destruct (sale_find_cases sale_id (sales_db w)) as [[_ Hn] | (r0 & Hex & Hh & Hfr)];
      [congruence|].
    rewrite Hfr in Hf. apply fmap_Ok_inv in Hf as (s' & Hs' & [= <-]).
    set (data := dumps_if_list "items" (without_None (SaleUpdate.dict sale_update))).
    assert (Hw : w' = with_sales (updated_table sale_id data (sales_db w)) w).
    { subst w'. unfold update_sale, try_http, io_bind, read_sales, on_sales.
      rewrite Hfr, Hs'. cbn [fmap result_fmap]. rewrite (sale_record_truthy _ _ Hs').
      cbn [negb].
      pose proof (sale_update_table sale_id (without_None (SaleUpdate.dict sale_update))
                    (sales_db w)) as Ht.
      rewrite (update_found _ _ _ Hex) in Ht. cbn [fst] in Ht. fold data in Ht.
      destruct (SalesCSVHandler.update _ _ _) as [df' [u|e]]; cbn [fst] in Ht; subst df';
        [reflexivity | now destruct e]. }
    rewrite Hw. cbn [products_db customers_db sales_db with_sales].
    split; [reflexivity|]. split; [reflexivity|].
    split; [unfold updated_table; apply length_map|].
    split.
    + intros i r Hi Hr. rewrite updated_table_lookup, Hi. cbn. now rewrite Hr.
    + intros i r Hi Hr. exists (CSVHandler.set_fields data r).
      split; [rewrite updated_table_lookup, Hi; cbn; now rewrite Hr|].
      split; [|split; [|split]].
      * intros k Hk. apply set_fields_unlisted.
        assert (Hki : k <> "items") by (intros ->; apply Hk; repeat constructor).
        unfold data. rewrite (sale_update_data_lookup _ _ Hki).
        now rewrite (sale_update_dict_other _ _ Hk).
      * intros Hst. apply set_fields_unlisted. unfold data.
        rewrite sale_update_data_lookup by discriminate.
        unfold SaleUpdate.dict. rewrite lookup_insert_eq. now rewrite Hst.
      * intros st Hst. apply set_fields_listed; [discriminate|]. unfold data.
        rewrite sale_update_data_lookup by discriminate.
        unfold SaleUpdate.dict. rewrite lookup_insert_eq. now rewrite Hst.
      * intros paid Hpaid. apply set_fields_listed; [discriminate|]. unfold data.
        rewrite sale_update_data_lookup by discriminate.
        unfold SaleUpdate.dict. rewrite lookup_insert_ne by discriminate.
        rewrite lookup_insert_eq. now rewrite Hpaid.
Qed.

End SaleEndpointProperties.

(** * Further properties of the analytics *)

Lemma on_entry_count (k : value) (c c' : list (value * Z)) :
  on_entry 0 k (fun n => Ok (n + 1)) c = Ok c' ->
  fold_right Z.add 0 (map snd c') = fold_right Z.add 0 (map snd c) + 1.
Proof.
  revert c'. induction c as [|[k0 n] c IH]; intros c' Hc; cbn [on_entry] in Hc.
  - injection Hc as <-. reflexivity.
  - destruct (key_eq k0 k).
    + injection Hc as <-. cbn [map fold_right snd]. lia.
    + apply bind_Ok_inv in Hc as (c1 & Hc1 & Hc). injection Hc as <-.
      cbn [map fold_right snd]. rewrite (IH _ Hc1). lia.
Qed.

Lemma Counter_total_from (l : list value) (c0 c : list (value * Z)) :
  fold_leftM
    (fun c k => if hashable k then on_entry 0 k (fun n => Ok (n + 1)) c else Raise TypeError)
    l c0 = Ok c ->
  fold_right Z.add 0 (map snd c) = fold_right Z.add 0 (map snd c0) + Z.of_nat (length l).
Proof.
  revert c0. induction l as [|k l IH]; intros c0 Hc; cbn [fold_leftM] in Hc.
  - injection Hc as <-. cbn [length]. lia.
  - apply bind_Ok_inv in Hc as (c1 & Hc1 & Hc).
    destruct (hashable k); [|discriminate].
    rewrite (IH _ Hc), (on_entry_count _ _ _ Hc1). cbn [length]. lia.
Qed.

Lemma Counter_total (l : list value) (c : list (value * Z)) :
  Counter l = Ok c -> fold_right Z.add 0 (map snd c) = Z.of_nat (length l).
Proof. intros Hc. now rewrite (Counter_total_from l [] c Hc). Qed.

Section AnalyticsCounts.
Context `{PyText}.

(** X19. The payment-method mix of the analytics accounts for every sale of
    the window once: whenever [get_sales_analytics] answers, the counts of
    [sales_by_payment_method] add up to [total_transactions]. *)
Theorem payment_mix_counts_every_sale
    (cutoff_date : string) (w w' : World) (a : SalesAnalytics) :
  get_sales_analytics cutoff_date w = (w', Ok a) ->
  fold_right Z.add 0 (map snd (sales_by_payment_method a)) = total_transactions a
  /\ 0 <= total_transactions a.
Proof.
  unfold get_sales_analytics, try_500, io_bind, read_sales, read_products, io_lift, io_ret.
  destruct (SalesCSVHandler.get_all (sales_db w)) as [all_sales|]; [|discriminate].
  destruct (ProductCSVHandler.get_all (products_db w)) as [all_products|]; [|discriminate].
  destruct (filterM (in_window cutoff_date) all_sales) as [recent_sales|]; [|discriminate].
  destruct (py_sum _) as [total|]; [|discriminate].
  destruct (if 0 <? Z.of_nat (length recent_sales) then _ else _) as [average|];
    [|discriminate].
  destruct (fold_leftM (sale_step (products_db w)) recent_sales [])
    as [product_sales|]; [|discriminate].
  destruct (Counter (map (get "payment_method" (VStr "unknown")) recent_sales))
    as [payment_methods|] eqn:Hc; [|discriminate].
  destruct (fold_leftM daily_step recent_sales []) as [daily_sales|]; [|discriminate].
  destruct (py_float total) as [t|]; [|discriminate].
  destruct (py_float average) as [av|]; [|discriminate].
  intros [= <- <-]. cbn [sales_by_payment_method total_transactions].
  rewrite (Counter_total _ _ Hc), length_map. split; [reflexivity | lia].
Qed.

End AnalyticsCounts.

(** * Further properties of the daily report *)

Lemma on_date_viewed (date : string) (s : gmap string value) (v : string * float) :
  viewed s v -> on_date date s = Ok (String.eqb (sale_date (fst v)) date).
Proof. intros [Hts _]. unfold on_date, get. now rewrite Hts. Qed.

Lemma filterM_on_date (date : string) (recs : list (gmap string value))
    (views : list (string * float)) :
  Forall2 viewed recs views ->
  exists daily,
    filterM (on_date date) recs = Ok daily /\ Forall2 viewed daily (on_day date views).
Proof.
  induction 1 as [|s v recs views Hv Hall (daily & Hf & Hdaily)].
  - exists []. split; [reflexivity | constructor].
  - cbn [filterM]. rewrite (on_date_viewed date s v Hv), Hf. cbn [mbind result_bind].
    unfold on_day. cbn [List.filter]. fold (on_day date views).
    destruct (String.eqb (sale_date (fst v)) date).
    + exists (s :: daily). split; [reflexivity | now constructor].
    + exists daily. split; [reflexivity | assumption].
Qed.

Lemma on_day_window (date cutoff_date : string) (views : list (string * float)) :
  (forall v, v ∈ on_day date views -> in_window_view cutoff_date v = true) ->
  on_day date (List.filter (in_window_view cutoff_date) views) = on_day date views.
Proof.
  intros Hin. unfold on_day in *. induction views as [|v views IH]; [reflexivity|].
  cbn [List.filter] in *.
  destruct (String.eqb (sale_date (fst v)) date) eqn:Hd.
  - rewrite (Hin v (ltac:(left))). cbn [List.filter]. rewrite Hd. f_equal.
    apply IH. intros x Hx. apply Hin. now right.
  - destruct (in_window_view cutoff_date v); cbn [List.filter]; rewrite ?Hd; now apply IH.
Qed.

Section DailyReportProperties.
Context `{PyText}.

Lemma daily_report_revenue (date : string) (w w' : World) (views : list (string * float))
    (report : DailyReport.t) :
  mapM sale_view (sales_db w) = Ok views ->
  get_daily_report date w = (w', Ok report) ->
  DailyReport.total_transactions report = Z.of_nat (length (on_day date views))
  /\ DailyReport.total_revenue report
     = match on_day date views with
       | [] => VInt 0
       | _ :: _ => VFloat (revenue (on_day date views))
       end
  /\ Forall2 viewed (DailyReport.sales report) (on_day date views).
Proof.
  intros Hv.
  destruct (sale_views_get_all _ _ Hv) as (recs & Hrecs & Hall).
  destruct (filterM_on_date date _ _ Hall) as (daily & Hf & Hdaily).
  pose proof (py_sum_totals _ _ Hdaily) as Hsum.
  pose proof (Forall2_length _ _ _ Hdaily) as Hlen.
  unfold get_daily_report, try_500, io_bind, read_sales, io_lift, io_ret.
  rewrite Hrecs, Hf, Hsum.
  destruct (fold_leftM _ daily (VInt 0)) as [sold|]; [|discriminate].
  destruct (if 0 <? Z.of_nat (length daily) then _ else _) as [average|];
    [|discriminate].
  intros [= <- <-]. cbn [DailyReport.total_transactions DailyReport.total_revenue
                         DailyReport.sales].
  rewrite Hlen. auto.
Qed.

(** X20. For a table of sales that each have a timestamp and a total, the
    daily report answers over the sales whose timestamp starts with the date:
    when it answers, its count is their number and its revenue is the sum of
    their totals; and when no sale has the date, it does answer, with 0 for the
    revenue, the count, the items sold and the average: there is no division
    by the count. *)
Theorem daily_report_covers_the_date
    (date : string) (w : World) (views : list (string * float)) :
  mapM sale_view (sales_db w) = Ok views ->
  let day := on_day date views in
  (forall w' report,
     get_daily_report date w = (w', Ok report) ->
     DailyReport.total_transactions report = Z.of_nat (length day)
     /\ DailyReport.total_revenue report
        = match day with [] => VInt 0 | _ :: _ => VFloat (revenue day) end
     /\ Forall2 viewed (DailyReport.sales report) day)
  /\ (day = [] ->
      get_daily_report date w
      = (w, Ok {| DailyReport.date := date;
                  DailyReport.total_revenue := VInt 0;
                  DailyReport.total_transactions := 0;
                  DailyReport.total_items_sold := VInt 0;
                  DailyReport.average_order_value := VInt 0;
                  DailyReport.sales := [] |})).
Proof.
  intros Hv day. split.
  - intros w' report Hrep. exact (daily_report_revenue date w w' views report Hv Hrep).
  - intros Hday.
    destruct (sale_views_get_all _ _ Hv) as (recs & Hrecs & Hall).
    destruct (filterM_on_date date _ _ Hall) as (daily & Hf & Hdaily).
    fold day in Hdaily. rewrite Hday in Hdaily. inversion Hdaily as [Hd|]; subst daily.
    unfold get_daily_report, try_500, io_bind, read_sales, io_lift, io_ret.
    rewrite Hrecs, Hf. reflexivity.
Qed.

Lemma analytics_days (cutoff_date : string) (w w' : World) (a : SalesAnalytics)
    (views : list (string * float)) :
  mapM sale_view (sales_db w) = Ok views ->
  get_sales_analytics cutoff_date w = (w', Ok a) ->
  sales_by_day a = daily_of (List.filter (in_window_view cutoff_date) views) []
  /\ revenue_trend a = merge_sort item_le (sales_by_day a).
Proof.
  intros Hv.
  destruct (sale_views_get_all _ _ Hv) as (recs & Hrecs & Hall).
  destruct (filterM_window cutoff_date _ _ Hall) as (recent & Hf & Hrecent).
  pose proof (py_sum_totals _ _ Hrecent) as Hsum.
  pose proof (daily_from _ _ [] Hrecent) as Hdaily.
  unfold get_sales_analytics, try_500, io_bind, read_sales, read_products, io_lift, io_ret.
  rewrite Hrecs.
  destruct (ProductCSVHandler.get_all (products_db w)) as [all_products|]; [|discriminate].
  rewrite Hf, Hsum.
  destruct (if 0 <? Z.of_nat (length recent) then _ else _) as [average|];
    [|discriminate].
  destruct (fold_leftM (sale_step (products_db w)) recent [])
    as [product_sales|]; [|discriminate].
  destruct (Counter _) as [payment_methods|]; [|discriminate].
  rewrite Hdaily.
  destruct (py_float _) as [t|]; [|discriminate].
  destruct (py_float average) as [av|]; [|discriminate].
  intros [= <- <-]. cbn [sales_by_day revenue_trend]. auto.
Qed.

(** X21. The daily report and the analytics agree on the revenue of a day:
    for a table of sales that each have a timestamp and a total, and a day
    with a sale, all of whose sales are in the window of the analytics, the
    revenue of the daily report of that day is the revenue that
    [sales_by_day] and [revenue_trend] have for it. *)
Theorem daily_report_agrees_with_analytics
    (date cutoff_date : string) (w w1 w2 : World) (views : list (string * float))
    (report : DailyReport.t) (a : SalesAnalytics) :
  mapM sale_view (sales_db w) = Ok views ->
  get_daily_report date w = (w1, Ok report) ->
  get_sales_analytics cutoff_date w = (w2, Ok a) ->
  (forall v, v ∈ on_day date views -> in_window_view cutoff_date v = true) ->
  on_day date views <> [] ->
  exists x,
    DailyReport.total_revenue report = VFloat x
    /\ (date, x) ∈ sales_by_day a
    /\ (date, x) ∈ revenue_trend a.
Proof.
  intros Hv Hrep Han Hwin Hday.
  destruct (daily_report_revenue _ _ _ _ _ Hv Hrep) as (_ & Hrev & _).
  destruct (analytics_days _ _ _ _ _ Hv Han) as [Hdays Htrend].
  exists (revenue (on_day date views)).
  split; [destruct (on_day date views); [congruence | exact Hrev]|].
  assert (Hin : (date, revenue (on_day date views)) ∈ sales_by_day a).
  { rewrite Hdays. apply daily_of_elem. rewrite (on_day_window _ _ _ Hwin).
    split; [|reflexivity].
    destruct (on_day date views) as [|v0 l] eqn:Hd; [congruence|].
    assert (Hv0 : In v0 (on_day date (List.filter (in_window_view cutoff_date) views))).
    { rewrite (on_day_window _ _ _ ltac:(rewrite Hd; exact Hwin)), Hd. now left. }
    unfold on_day in Hv0. apply filter_In in Hv0 as [Hv0 Hdate].
    exists v0. split; [now apply list_elem_of_In | now apply String.eqb_eq]. }
  split; [exact Hin|].
  rewrite Htrend. now rewrite merge_sort_Permutation.
Qed.

End DailyReportProperties.

(** * Further properties of the users *)

Section UserProperties.
Context `{PyText}.

Lemma strings_json_safe (l : list string) : json_safe (VList (map VStr l)).
Proof. apply json_safe_list, Forall_map, Forall_forall. now intros x _. Qed.

(** X22. A user that [UserCSVHandler.create] has stored is found by
    [find_by_email] when no older user has the email: the permissions, stored
    as their JSON text, come back as the list of the request, the id is the new
    uuid, and every other field, the hashed password among them, is returned
    as it was given. [create] itself returns the permissions as text. *)
Theorem created_user_is_found_by_email
    (uuid email : string) (permissions : list string) (data : gmap string value)
    (df : list (gmap string value)) :
  data !! "id" = None ->
  data !! "email" = Some (VStr email) ->
  data !! "permissions" = Some (VList (map VStr permissions)) ->
  Forall (fun r => UserCSVHandler.has_email email r = false) df ->
  snd (UserCSVHandler.create uuid data df) !! "permissions"
    = Some (VStr (json_dumps (VList (map VStr permissions))))
  /\ exists user,
       UserCSVHandler.find_by_email email (fst (UserCSVHandler.create uuid data df))
         = Some user
       /\ user !! "permissions" = Some (VList (map VStr permissions))
       /\ user !! "id" = Some (VStr uuid)
       /\ (forall k, k <> "id" -> k <> "permissions" -> user !! k = data !! k).
Proof.
  intros Hid Hemail Hperm Hfresh.
  unfold UserCSVHandler.create, dumps_if_list. rewrite Hperm.
  set (text := json_dumps (VList (map VStr permissions))).
  rewrite created_record. cbv zeta. rewrite lookup_insert_ne, Hid by discriminate.
  cbn [fst snd].
  set (stored := <["id" := VStr uuid]> (<["permissions" := VStr text]> data)).
  assert (Hsp : stored !! "permissions" = Some (VStr text)).
  { unfold stored. rewrite lookup_insert_ne by discriminate. apply lookup_insert_eq. }
  split; [exact Hsp|].
  assert (Hse : UserCSVHandler.has_email email stored = true).
  { unfold UserCSVHandler.has_email, stored.
    rewrite !lookup_insert_ne, Hemail by discriminate. apply String.eqb_refl. }
  exists (UserCSVHandler._process_user_record stored). split; [|split; [|split]].
  - unfold UserCSVHandler.find_by_email.
    rewrite filter_app_last, (filter_none _ _ Hfresh), Hse. cbn [app head].
    now destruct df.
  - unfold UserCSVHandler._process_user_record, decode_field.
    rewrite str_field_lookup_ne, Hsp, lookup_insert_eq by discriminate.
    unfold text. now rewrite (json_loads_dumps _ (strings_json_safe permissions)).
  - unfold UserCSVHandler._process_user_record.
    rewrite decode_field_lookup_ne by discriminate.
    unfold str_field, stored. rewrite lookup_insert_eq, lookup_insert_eq. reflexivity.
  - intros k Hk Hkp. unfold UserCSVHandler._process_user_record.
    rewrite decode_field_lookup_ne, str_field_lookup_ne by assumption.
    unfold stored. now rewrite !lookup_insert_ne by congruence.
Qed.

End UserProperties.

(** * Deleting a customer *)

Section DeleteCustomer.
Context `{PyText}.

(** What [delete_customer] comes to, by what the lookup of the customer
    finds. *)
Lemma delete_customer_cases (customer_id : string) (w : World) :
  (Forall (fun r => CSVHandler.has_id customer_id r = false) (customers_db w)
   /\ delete_customer customer_id w = (w, Raise (HTTPException 404 NotFound)))
  \/ (Exists (fun r => CSVHandler.has_id customer_id r = true) (customers_db w)
      /\ ((exists c,
             CustomerCSVHandler.find_by_id customer_id (customers_db w) = Ok (Some c)
             /\ delete_customer customer_id w
                = (with_customers
                     (List.filter (fun r => negb (CSVHandler.has_id customer_id r))
                        (customers_db w)) w, Ok tt))
          \/ (exists s d, delete_customer customer_id w = (w, Raise (HTTPException s d))))).
Proof.
  unfold delete_customer, try_http, io_bind, read_customers, on_customers.
  destruct (customer_find_cases customer_id (customers_db w))
    as [[Hnone ->] | (r & Hex & _ & ->)]; [left; split; [exact Hnone | reflexivity]|].
  right. split; [exact Hex|].
  destruct (CustomerCSVHandler._process_customer_record r) as [c|e] eqn:Hr; cbn [fmap result_fmap].
  - left. exists c. split; [reflexivity|].
    rewrite (customer_record_nonempty _ _ Hr). cbn [negb].
    now rewrite (delete_found _ _ Hex).
  - right. destruct e; eauto.
Qed.

(** X24. [delete_customer] removes the rows of the customer and nothing
    else: whatever the call comes to, the tables of sales and of products are
    as they were, so the sales that name the customer stay, with their
    [customer_id], and the rows of the other customers stay. For a customer
    that is found it answers with success, and the lookup of the id then finds
    nothing; for an id that no row has it answers 404. *)
Theorem delete_customer_keeps_the_sales (customer_id : string) (w : World) :
  let w' := fst (delete_customer customer_id w) in
  sales_db w' = sales_db w
  /\ products_db w' = products_db w
  /\ (forall r, r ∈ customers_db w -> CSVHandler.has_id customer_id r = false ->
        r ∈ customers_db w')
  /\ (Forall (fun r => CSVHandler.has_id customer_id r = false) (customers_db w) ->
      delete_customer customer_id w = (w, Raise (HTTPException 404 NotFound)))
  /\ (forall c,
        CustomerCSVHandler.find_by_id customer_id (customers_db w) = Ok (Some c) ->
        delete_customer customer_id w = (w', Ok tt)
        /\ customers_db w'
           = List.filter (fun r => negb (CSVHandler.has_id customer_id r)) (customers_db w)
        /\ CustomerCSVHandler.find_by_id customer_id (customers_db w') = Ok None).
Proof.
  intros w'. subst w'.
  destruct (delete_customer_cases customer_id w)
    as [[Hnone Hrun] | [Hex [(c & Hf & Hrun) | (s & d & Hrun)]]]; rewrite Hrun; cbn [fst].
  - split; [reflexivity|]. split; [reflexivity|]. split; [auto|]. split; [reflexivity|].
    intros c Hf. destruct (customer_find_inv _ _ _ Hf) as (r & Hh & _).
    destruct (head_filter_Exists _ _ _ Hh) as [Hex _].
    destruct (Forall_not_Exists _ _ Hnone Hex).
  - split; [reflexivity|]. split; [reflexivity|]. split; [|split].
    + intros r Hr Hid. cbn [with_customers customers_db].
      apply list_elem_of_In, filter_In. split; [now apply list_elem_of_In|].
      now rewrite Hid.
    + intros Hnone. destruct (Forall_not_Exists _ _ Hnone Hex).
    + intros c' _. split; [reflexivity|]. split; [reflexivity|].
      cbn [with_customers customers_db].
      destruct (customer_find_cases customer_id
                  (List.filter (fun r => negb (CSVHandler.has_id customer_id r))
                     (customers_db w)))
        as [[_ Hgone] | (r & Hex' & _)]; [exact Hgone|].
      apply Exists_exists in Hex' as (x & Hx & Hid).
      apply list_elem_of_In, filter_In in Hx as [_ Hx].
      rewrite Hid in Hx. discriminate Hx.
  - split; [reflexivity|]. split; [reflexivity|]. split; [auto|]. split.
    + intros Hnone. destruct (Forall_not_Exists _ _ Hnone Hex).
    + intros c Hf. exfalso.
      destruct (customer_find_inv _ _ _ Hf) as (r & Hh & Hp).
      unfold delete_customer, try_http, io_bind, read_customers, on_customers in Hrun.
      rewrite Hf, (customer_record_nonempty _ _ Hp) in Hrun. cbn [negb] in Hrun.
      rewrite (delete_found _ _ Hex) in Hrun. cbn in Hrun. discriminate Hrun.
Qed.

End DeleteCustomer.

(** * Further properties of the lists *)

Lemma page_length {A} (skip limit : nat) (l : list A) :
  length (page skip limit l) = Nat.min limit (length l - skip).
Proof. unfold page. now rewrite length_firstn, length_skipn. Qed.

Lemma page_app {A} (skip limit more : nat) (l : list A) :
  (page skip limit l ++ page (skip + limit) more l)%list = page skip (limit + more) l.
Proof.
  unfold page. rewrite (Nat.add_comm skip limit), <- (skipn_skipn limit skip l).
  set (t := skipn skip l). clearbody t. revert t.
  induction limit as [|n IH]; intros t; [reflexivity|].
  destruct t as [|x t]; [now rewrite skipn_nil, !firstn_nil|].
  cbn [firstn skipn app Nat.add]. now rewrite IH.
Qed.

Section ListProperties.
Context `{PyText} {validation : Pydantic}.

(** What [get_customers] comes to, by the customers that match. *)
Lemma get_customers_inv (skip limit : nat) (search : option string) (w w' : World)
    (customers : list (gmap string value)) (total : Z) :
  get_customers skip limit search w = (w', Ok (customers, total)) ->
  exists matching,
    (forall skip' limit',
       get_customers skip' limit' search w
       = (w, if forallb (accepts Customer) (page skip' limit' matching)
             then Ok (page skip' limit' matching, Z.of_nat (length matching))
             else Raise (HTTPException 500 InternalFailure)))
    /\ w' = w /\ customers = page skip limit matching
    /\ total = Z.of_nat (length matching).
Proof.
  unfold get_customers, try_500, io_bind, read_customers, io_lift, io_ret, respond, io_raise.
  destruct (customers_get_all (customers_db w)) as [cs|]; [|discriminate].
  assert (Hpages : forall matching skip' limit',
            (let '(w1, r) :=
               (if forallb (accepts Customer) (page skip' limit' matching)
                then (w, Ok tt) else (w, Raise ValueError)) in
             match r with
             | Ok _ => (w1, Ok (page skip' limit' matching, Z.of_nat (length matching)))
             | Raise e => (w1, Raise e)
             end)
            = (w, if forallb (accepts Customer) (page skip' limit' matching)
                  then Ok (page skip' limit' matching, Z.of_nat (length matching))
                  else Raise ValueError))
    by (intros matching skip' limit'; destruct (forallb _ _); reflexivity).
  destruct search as [[|a s]|].
  - destruct (forallb _ (page skip limit cs)) eqn:Hacc; [|discriminate].
    intros [= <- <- <-]. exists cs. split; [|auto].
    intros skip' limit'. destruct (forallb _ (page skip' limit' cs)); reflexivity.
  - destruct (filterM _ cs) as [ms|]; [|discriminate].
    destruct (forallb _ (page skip limit ms)) eqn:Hacc; [|discriminate].
    intros [= <- <- <-]. exists ms. split; [|auto].
    intros skip' limit'. destruct (forallb _ (page skip' limit' ms)); reflexivity.
  - destruct (forallb _ (page skip limit cs)) eqn:Hacc; [|discriminate].
    intros [= <- <- <-]. exists cs. split; [|auto].
    intros skip' limit'. destruct (forallb _ (page skip' limit' cs)); reflexivity.
Qed.

(** X25. The pages of [get_customers] are slices of one list, the customers
    that match: when one call answers, its total is their number and its page
    has [min(limit, total - skip)] of them, and every call with the same
    search comes to its own slice with the same total when the response model
    accepts the customers of that slice, and to the internal failure when it
    does not. A page followed by the next one is the page of both: when both
    are answered, so is the page of both, with the customers of the two. *)
Theorem get_customers_pages_tile
    (skip limit : nat) (search : option string) (w w' : World)
    (customers : list (gmap string value)) (total : Z) :
  get_customers skip limit search w = (w', Ok (customers, total)) ->
  w' = w
  /\ length customers = Nat.min limit (Z.to_nat total - skip)
  /\ (exists matching,
        total = Z.of_nat (length matching)
        /\ customers = page skip limit matching
        /\ forall skip' limit',
             get_customers skip' limit' search w
             = (w, if forallb (accepts Customer) (page skip' limit' matching)
                   then Ok (page skip' limit' matching, total)
                   else Raise (HTTPException 500 InternalFailure)))
  /\ (forall more next,
        get_customers (skip + limit) more search w = (w, Ok (next, total)) ->
        get_customers skip (limit + more) search w
        = (w, Ok ((customers ++ next)%list, total))).
Proof.
  intros Hrun. destruct (get_customers_inv _ _ _ _ _ _ _ Hrun)
    as (matching & Hall & -> & -> & ->).
  rewrite Nat2Z.id. split; [reflexivity|]. split; [apply page_length|]. split.
  - exists matching. split; [reflexivity|]. split; [reflexivity | exact Hall].
  - intros more next Hnext. rewrite Hall in Hrun, Hnext.
    destruct (forallb _ (page skip limit matching)) eqn:Hfirst; [|discriminate Hrun].
    destruct (forallb _ (page (skip + limit) more matching)) eqn:Hsecond;
      [|discriminate Hnext].
    injection Hnext as <-.
    now rewrite Hall, <- page_app, forallb_app, Hfirst, Hsecond.
Qed.

(** The sales of the window, as the analytics and the list read them. *)
Lemma analytics_window (cutoff_date : string) (w w' : World) (a : SalesAnalytics) :
  get_sales_analytics cutoff_date w = (w', Ok a) ->
  exists all_sales recent_sales,
    SalesCSVHandler.get_all (sales_db w) = Ok all_sales
    /\ filterM (in_window cutoff_date) all_sales = Ok recent_sales
    /\ total_transactions a = Z.of_nat (length recent_sales).
Proof.
  unfold get_sales_analytics, try_500, io_bind, read_sales, read_products, io_lift, io_ret.
  destruct (SalesCSVHandler.get_all (sales_db w)) as [all_sales|] eqn:Hall; [|discriminate].
  destruct (ProductCSVHandler.get_all (products_db w)) as [all_products|]; [|discriminate].
  destruct (filterM (in_window cutoff_date) all_sales) as [recent_sales|] eqn:Hrecent;
    [|discriminate].
  destruct (py_sum _) as [total|]; [|discriminate].
  destruct (if 0 <? Z.of_nat (length recent_sales) then _ else _) as [average|];
    [|discriminate].
  destruct (fold_leftM (sale_step (products_db w)) recent_sales [])
    as [product_sales|]; [|discriminate].
  destruct (Counter (map (get "payment_method" (VStr "unknown")) recent_sales))
    as [payment_methods|]; [|discriminate].
  destruct (fold_leftM daily_step recent_sales []) as [daily_sales|]; [|discriminate].
  destruct (py_float total) as [t|]; [|discriminate].
  destruct (py_float average) as [av|]; [|discriminate].
  intros [= <- <-]. exists all_sales, recent_sales.
  split; [reflexivity|]. split; [exact Hrecent | reflexivity].
Qed.

(** X26. The list of sales and the analytics count the same sales: when
    [get_sales_analytics] answers for a cutoff, [get_sales] with that cutoff
    as its [start_date] and no other filter reports no other total. Its page
    has [min(limit, total - skip)] sales, each with a timestamp that is a
    string not before the cutoff; it answers with that page and the
    [total_transactions] of the analytics when the response model accepts the
    sales of the page, and with the internal failure when it does not. *)
Theorem sales_list_agrees_with_analytics
    (cutoff_date : string) (w w' : World) (a : SalesAnalytics) (skip limit : nat) :
  cutoff_date <> "" ->
  get_sales_analytics cutoff_date w = (w', Ok a) ->
  exists sales,
    get_sales skip limit None None (Some cutoff_date) None w
    = (w, if forallb (accepts Sale) sales then Ok (sales, total_transactions a)
          else Raise (HTTPException 500 InternalFailure))
    /\ length sales = Nat.min limit (Z.to_nat (total_transactions a) - skip)
    /\ Forall (fun s => exists ts,
                 s !! "timestamp" = Some (VStr ts)
                 /\ String.leb cutoff_date ts = true) sales.
Proof.
  intros Hne Hrun.
  destruct (analytics_window _ _ _ _ Hrun) as (all_sales & recent_sales & Hall & Hrecent & ->).
  exists (page skip limit recent_sales). rewrite Nat2Z.id.
  split; [|split; [apply page_length|]].
  - unfold get_sales, try_500, io_bind, read_sales, io_lift, io_ret, respond, io_raise.
    rewrite Hall.
    destruct cutoff_date as [|c cutoff_date]; [congruence|]. rewrite Hrecent.
    destruct (forallb _ _); reflexivity.
  - assert (Hwin : Forall (fun s => exists ts,
                             s !! "timestamp" = Some (VStr ts)
                             /\ String.leb cutoff_date ts = true) recent_sales).
    { clear Hall Hrun. revert recent_sales Hrecent.
      induction all_sales as [|s l IH]; intros recent Hf.
      - injection Hf as <-. constructor.
      - cbn [filterM] in Hf. apply bind_Ok_inv in Hf as (b & Hb & Hf).
        apply bind_Ok_inv in Hf as (ys & Hys & Hf). injection Hf as <-.
        specialize (IH ys Hys). destruct b; [|exact IH].
        constructor; [|exact IH].
        unfold in_window, get in Hb.
        destruct (s !! "timestamp") as [v|] eqn:Hts; cbn [default] in Hb.
        + destruct v; try discriminate Hb. injection Hb as Hb. eauto.
        + injection Hb as Hb. destruct cutoff_date; [congruence | discriminate Hb]. }
    unfold page. apply Forall_forall. intros s Hs.
    apply (proj1 (Forall_forall _ _) Hwin).
    apply (subseteq_drop skip), (subseteq_take limit). exact Hs.
Qed.

Lemma is_low_stock_int (threshold z : Z) (p : gmap string value) :
  get "stock" (VInt 0) p = VInt z ->
  is_low_stock threshold p = Ok ((z <=? threshold) && (0 <? z)).
Proof.
  intros Hs. unfold is_low_stock. rewrite Hs. cbn.
  now destruct (z <=? threshold).
Qed.

Lemma filterM_pure {A} (p : A -> result bool) (q : A -> bool) (l : list A) :
  Forall (fun x => p x = Ok (q x)) l -> filterM p l = Ok (List.filter q l).
Proof.
  induction 1 as [|x l Hx _ IH]; [reflexivity|].
  cbn [filterM List.filter]. rewrite Hx, IH. reflexivity.
Qed.

Lemma get_all_stocks (df ps : list (gmap string value)) :
  ProductCSVHandler.get_all df = Ok ps ->
  Forall (fun p => get "stock" (VInt 0) p = VInt (stock_of p)) ps.
Proof.
  unfold ProductCSVHandler.get_all. destruct (CSVHandler.empty df).
  - intros [= <-]. constructor.
  - revert ps. induction df as [|r df IH]; intros ps Hm.
    + injection Hm as <-. constructor.
    + cbn [mapM] in Hm. apply bind_Ok_inv in Hm as (p & Hp & Hm).
      apply bind_Ok_inv in Hm as (ps' & Hps & Hm). injection Hm as <-.
      constructor; [|exact (IH _ Hps)].
      destruct (product_record_stock _ _ Hp) as (z & Hz).
      unfold stock_of. now rewrite Hz.
Qed.

(** X27. The filters of the two stock lists never fail on products that the
    codec accepts, for the codec leaves an integer for the stock: the
    low-stock list is the products with [0 < stock <= threshold] and the
    out-of-stock list the products with [stock = 0], each in the order of the
    table. An endpoint answers with its list, and the length of the list for
    the total, when the response model accepts the products of the list, and
    with the internal failure when it does not. No product is in both lists,
    and for a threshold that is not negative a product is in one of them
    exactly when its stock is between 0 and the threshold. *)
Theorem stock_lists_split_the_products
    (threshold : Z) (w : World) (products : list (gmap string value)) :
  ProductCSVHandler.get_all (products_db w) = Ok products ->
  let low := List.filter (fun p => (stock_of p <=? threshold) && (0 <? stock_of p)) products in
  let out := List.filter (fun p => stock_of p =? 0) products in
  get_low_stock_products threshold w
    = (w, if forallb (accepts Product) low then Ok (low, Z.of_nat (length low))
          else Raise (HTTPException 500 InternalFailure))
  /\ get_out_of_stock_products w
     = (w, if forallb (accepts Product) out then Ok (out, Z.of_nat (length out))
           else Raise (HTTPException 500 InternalFailure))
  /\ (forall p, p ∈ low -> p ∈ out -> False)
  /\ (0 <= threshold ->
      forall p, p ∈ products ->
        (p ∈ low \/ p ∈ out <-> 0 <= stock_of p <= threshold)).
Proof.
  intros Hall low out. pose proof (get_all_stocks _ _ Hall) as Hstock.
  split; [|split; [|split]].
  - unfold get_low_stock_products, try_500, io_bind, read_products, io_lift, io_ret,
      respond, io_raise.
    rewrite Hall.
    rewrite (filterM_pure _ (fun p => (stock_of p <=? threshold) && (0 <? stock_of p))).
    + fold low. destruct (forallb _ low); reflexivity.
    + eapply Forall_impl; [exact Hstock|]. intros p Hp. now apply is_low_stock_int.
  - unfold get_out_of_stock_products, try_500, io_bind, read_products, io_ret,
      respond, io_raise.
    rewrite Hall.
    assert (Heq : List.filter (fun p => eq_int (get "stock" (VInt 0) p) 0) products = out).
    { unfold out. clear Hall low out. induction Hstock as [|p l Hp _ IH]; [reflexivity|].
      cbn [List.filter]. rewrite IH, Hp. reflexivity. }
    rewrite Heq. destruct (forallb _ out); reflexivity.
  - intros p Hl Ho. apply list_elem_of_In, filter_In in Hl as [_ Hl].
    apply list_elem_of_In, filter_In in Ho as [_ Ho]. lia.
  - intros Hth p Hp. unfold low, out. rewrite !list_elem_of_In, !filter_In.
    apply list_elem_of_In in Hp. split.
    + intros [[_ Hl] | [_ Ho]]; lia.
    + intros Hr. destruct (Z.eq_dec (stock_of p) 0) as [Hz|Hz].
      * right. split; [exact Hp | lia].
      * left. split; [exact Hp | lia].
Qed.

End ListProperties.

(** * Further properties of the ranking *)

Lemma insert_desc_points (x : gmap string value) (l : list (gmap string value)) :
  int_points x -> Forall int_points l ->
  insert_desc (get "loyalty_points" (VInt 0)) x l = Ok (insert_by_points x l).
Proof.
  intros Hx. induction 1 as [|y l Hy _ IH]; [reflexivity|].
  cbn [insert_desc insert_by_points]. rewrite Hx, Hy.
  change (py_lt (VInt (points_of y)) (VInt (points_of x)))
    with (@Ok bool (points_of y <? points_of x)).
  cbn [mbind result_bind]. destruct (points_of y <? points_of x); [reflexivity|].
  now rewrite IH.
Qed.

Lemma insert_by_points_Permutation (x : gmap string value) (l : list (gmap string value)) :
  Permutation (insert_by_points x l) (x :: l).
Proof.
  induction l as [|y l IH]; [reflexivity|]. cbn [insert_by_points].
  destruct (points_of y <? points_of x); [reflexivity|].
  rewrite IH. apply perm_swap.
Qed.

Lemma insert_by_points_sorted (x : gmap string value) (l : list (gmap string value)) :
  StronglySorted more_points l -> StronglySorted more_points (insert_by_points x l).
Proof.
  induction 1 as [|y l Hs IH Hall]; [repeat constructor|].
  cbn [insert_by_points]. destruct (Z.ltb_spec (points_of y) (points_of x)) as [Hlt | Hge].
  - constructor; [now constructor|]. constructor; [unfold more_points; lia|].
    eapply Forall_impl; [exact Hall|]. unfold more_points. intros z Hz. lia.
  - constructor; [exact IH|].
    rewrite (insert_by_points_Permutation x l). constructor; [exact Hge | exact Hall].
Qed.

Lemma rank_from (l ranked : list (gmap string value)) :
  Forall int_points l -> Forall int_points ranked -> StronglySorted more_points ranked ->
  let ranked' := fold_left (fun ranked x => insert_by_points x ranked) l ranked in
  fold_leftM (fun ranked x => insert_desc (get "loyalty_points" (VInt 0)) x ranked) l ranked
    = Ok ranked'
  /\ Permutation ranked' (ranked ++ l)
  /\ StronglySorted more_points ranked'.
Proof.
  intros Hl. revert ranked. induction Hl as [|x l Hx Hl IH]; intros ranked Hr Hs.
  - cbn. rewrite app_nil_r. auto.
  - cbn [fold_leftM fold_left]. rewrite (insert_desc_points x ranked Hx Hr).
    cbn [mbind result_bind].
    destruct (IH (insert_by_points x ranked)) as (Hrun & Hperm & Hsorted).
    + rewrite (insert_by_points_Permutation x ranked). now constructor.
    + now apply insert_by_points_sorted.
    + split; [exact Hrun|]. split; [|exact Hsorted].
      rewrite Hperm, (insert_by_points_Permutation x ranked).
      now rewrite <- Permutation_middle.
Qed.

Section RankingProperties.
Context `{PyText} {validation : Pydantic}.

Lemma customers_get_all_points (df cs : list (gmap string value)) :
  customers_get_all df = Ok cs -> Forall int_points cs.
Proof.
  unfold customers_get_all. destruct (CSVHandler.empty df).
  - intros [= <-]. constructor.
  - revert cs. induction df as [|r df IH]; intros cs Hm.
    + injection Hm as <-. constructor.
    + cbn [mapM] in Hm. apply bind_Ok_inv in Hm as (c & Hc & Hm).
      apply bind_Ok_inv in Hm as (cs' & Hcs & Hm). injection Hm as <-.
      constructor; [|exact (IH _ Hcs)].
      exact (proj2 (proj2 (customer_record_typed _ _ Hc))).
Qed.

(** X28. The ranking of [get_top_loyalty_customers] never fails on
    customers that the codec accepts, for the codec leaves an integer for the
    points. The list of the endpoint is the first [limit] of a ranking of all
    the customers, each followed only by customers with no more points than
    it has: it has [min(limit, number of customers)] customers, ordered from
    the most points down, and no customer that it leaves out has more points
    than one that it lists. The endpoint answers with that list when the
    response model accepts its customers, and with the internal failure when
    it does not. *)
Theorem top_loyalty_customers_are_ranked
    (limit : nat) (w : World) (customers : list (gmap string value)) :
  customers_get_all (customers_db w) = Ok customers ->
  exists ranked,
    Permutation ranked customers
    /\ StronglySorted more_points ranked
    /\ get_top_loyalty_customers limit w
       = (w, if forallb (accepts Customer) (firstn limit ranked)
             then Ok (firstn limit ranked, Z.of_nat (Nat.min limit (length customers)))
             else Raise (HTTPException 500 InternalFailure))
    /\ StronglySorted more_points (firstn limit ranked)
    /\ (forall a b, a ∈ firstn limit ranked -> b ∈ skipn limit ranked ->
          points_of b <= points_of a).
Proof.
  intros Hall. pose proof (customers_get_all_points _ _ Hall) as Hpts.
  destruct (rank_from customers [] Hpts) as (Hrun & Hperm & Hsorted);
    [constructor | constructor |].
  exists (rank_by_points customers). fold (rank_by_points customers) in Hrun, Hperm, Hsorted.
  cbn [app] in Hperm.
  split; [exact Hperm|]. split; [exact Hsorted|]. split; [|split].
  - unfold get_top_loyalty_customers, try_500, io_bind, read_customers, io_lift, io_ret,
      respond, io_raise.
    rewrite Hall. unfold sorted_desc. rewrite Hrun.
    rewrite length_firstn, (Permutation_length Hperm).
    destruct (forallb _ _); reflexivity.
  - rewrite <- (firstn_skipn limit (rank_by_points customers)) in Hsorted.
    exact (StronglySorted_app_1_l _ _ _ Hsorted).
  - intros a b Ha Hb.
    rewrite <- (firstn_skipn limit (rank_by_points customers)) in Hsorted.
    exact (StronglySorted_app_1_elem_of _ _ _ a b Hsorted Ha Hb).
Qed.

End RankingProperties.

(** * The further properties at the scenarios *)

(** A call that answered, as the record that it returned. *)
Lemma answered_returned (x : result (gmap string value)) :
  outcome x = Ok tt -> x = Ok (returned x).
Proof. destruct x as [p|e]; [reflexivity | intros Hx; discriminate Hx]. Qed.

Lemma ran_returned (x : World * result (gmap string value)) :
  outcome (snd x) = Ok tt -> x = (fst x, Ok (returned (snd x))).
Proof. destruct x as [w [p|e]]; [reflexivity | intros Hx; discriminate Hx]. Qed.

(** Creating a record in the table of scenario A and deleting it again. *)
Lemma delete_undoes_create_witness :
  CSVHandler.delete "u-2"
    (fst (CSVHandler.create "u-2" {["name" := VStr "Scarf"]} [scenario_A_product]))
  = ([scenario_A_product], true).
Proof.
  apply delete_undoes_create; [reflexivity|].
  constructor; [vm_compute; reflexivity | constructor].
Defined.

(** A search in a table with one customer, who has no email. *)
Lemma get_customers_search_needs_emails_witness :
  get_customers (H := example_text) (validation := example_pydantic) 0 100 (Some "bob")
    {| products_db := []; customers_db := [example_customer_no_email]; sales_db := [] |}
  = ({| products_db := []; customers_db := [example_customer_no_email]; sales_db := [] |},
     Raise (HTTPException 500 InternalFailure)).
Proof.
  apply (get_customers_search_needs_emails (H := example_text)
           (validation := example_pydantic) 0 100 "bob" _ example_customer_no_email).
  - discriminate.
  - apply list_elem_of_here.
  - reflexivity.
  - right. reflexivity.
Defined.

(** A customer whose first name is Nan. *)
Lemma customer_text_nan_is_missing_witness :
  returned (CustomerCSVHandler._process_customer_record (H := example_text)
              example_customer_nan) !! "first_name"
  = Some VNone.
Proof.
  apply (customer_text_nan_is_missing (H := example_text) example_customer_nan
           (returned (CustomerCSVHandler._process_customer_record (H := example_text)
                        example_customer_nan))
           "first_name" "Nan").
  - apply answered_returned. vm_compute. reflexivity.
  - apply list_elem_of_here.
  - vm_compute. reflexivity.
Defined.

(** The sale of scenario A, 5 of a product with 5 in stock. *)
Lemma create_sale_keeps_stock_not_negative_witness :
  Forall (stock_not_negative (H := example_text))
    (products_db (fst (create_sale (H := example_text) scenario_env (scenario_A_sale 5)
                         scenario_A_world))).
Proof.
  apply (create_sale_keeps_stock_not_negative (H := example_text)).
  constructor; [|constructor].
  intros p Hp.
  replace p
    with (returned (ProductCSVHandler._process_product_record (H := example_text)
                      scenario_A_product))
    by (rewrite Hp; reflexivity).
  vm_compute. discriminate.
Defined.

Lemma created_sale_keeps_request_timestamp_witness :
  returned (snd (create_sale (H := example_text) scenario_env (scenario_A_sale 5)
                   scenario_A_world)) !! "timestamp"
  = Some VNone.
Proof.
  set (created := create_sale (H := example_text) scenario_env (scenario_A_sale 5)
                    scenario_A_world).
  assert (Hc : created = (fst created, Ok (returned (snd created))))
    by (apply ran_returned; vm_compute; reflexivity).
  destruct (created_sale_keeps_request_timestamp (H := example_text) scenario_env
              (scenario_A_sale 5) scenario_A_world (fst created) (returned (snd created)) Hc)
    as (stored & _ & _ & Hts).
  apply Hts. reflexivity.
Defined.

Lemma scenario_D_answers :
  get_sales_analytics (H := example_text) scenario_D_cutoff scenario_D_world
  = (scenario_D_world, Ok scenario_D_analytics).
Proof. vm_compute. reflexivity. Defined.

Lemma scenario_D_sale_views :
  mapM (sale_view (H := example_text)) (sales_db scenario_D_world) = Ok scenario_D_views.
Proof. vm_compute. reflexivity. Defined.

(** The three sales of the window of scenario D, all paid in cash. *)
Lemma payment_mix_counts_every_sale_witness :
  fold_right Z.add 0 (map snd (sales_by_payment_method scenario_D_analytics))
  = total_transactions scenario_D_analytics
  /\ 0 <= total_transactions scenario_D_analytics.
Proof.
  exact (payment_mix_counts_every_sale (H := example_text) scenario_D_cutoff
           scenario_D_world scenario_D_world scenario_D_analytics scenario_D_answers).
Defined.

(** The tenth of April in scenario D: two sales, of 20 and of 5.5. *)
Lemma daily_report_covers_the_date_witness :
  exists report,
    snd (get_daily_report (H := example_text) "2024-04-10" scenario_D_world) = Ok report
    /\ DailyReport.total_transactions report = 2
    /\ DailyReport.total_revenue report = VFloat 25.5.
Proof.
  destruct (get_daily_report (H := example_text) "2024-04-10" scenario_D_world)
    as [w' [report|e]] eqn:Hrep; [|vm_compute in Hrep; discriminate Hrep].
  exists report. split; [reflexivity|].
  destruct (daily_report_covers_the_date (H := example_text) "2024-04-10" scenario_D_world
              scenario_D_views scenario_D_sale_views) as [Hcov _].
  destruct (Hcov w' report Hrep) as (Hn & Hr & _). split; [exact Hn | exact Hr].
Defined.

Lemma daily_report_agrees_with_analytics_witness :
  exists report x,
    snd (get_daily_report (H := example_text) "2024-04-10" scenario_D_world) = Ok report
    /\ DailyReport.total_revenue report = VFloat x
    /\ ("2024-04-10", x) ∈ sales_by_day scenario_D_analytics
    /\ ("2024-04-10", x) ∈ revenue_trend scenario_D_analytics.
Proof.
  destruct (get_daily_report (H := example_text) "2024-04-10" scenario_D_world)
    as [w' [report|e]] eqn:Hrep; [|vm_compute in Hrep; discriminate Hrep].
  assert (Hwindow : forall v, v ∈ on_day "2024-04-10" scenario_D_views ->
                     in_window_view scenario_D_cutoff v = true).
  { apply Forall_forall. apply (bool_decide_unpack _). vm_compute. exact I. }
  assert (Hday : on_day "2024-04-10" scenario_D_views <> []) by discriminate.
  destruct (daily_report_agrees_with_analytics (H := example_text) "2024-04-10"
              scenario_D_cutoff scenario_D_world w' scenario_D_world scenario_D_views
              report scenario_D_analytics scenario_D_sale_views Hrep scenario_D_answers
              Hwindow Hday)
    as (x & Hx).
  exists report, x. split; [reflexivity | exact Hx].
Defined.

(** The first user of an empty table. *)
Lemma created_user_is_found_by_email_witness :
  snd (UserCSVHandler.create (H := example_text) "u-1" example_user [])
    !! "permissions"
  = Some (VStr (json_dumps (H := example_text) (VList (map VStr ["sales"; "products"])))).
Proof.
  destruct (created_user_is_found_by_email (H := example_text) "u-1" "ada@example.org"
              ["sales"; "products"] example_user []) as [Hperm _];
    [vm_compute; reflexivity | vm_compute; reflexivity | vm_compute; reflexivity
    | constructor | exact Hperm].
Defined.

(** An equation that holds by evaluating its two sides. *)
Ltac evaluated :=
  lazymatch goal with
  | |- @eq ?T ?x _ => vm_cast_no_check (@eq_refl T x)
  end.

(** The preferences of a customer who takes size M, in an empty table. *)
Lemma customer_preferences_round_trip_witness :
  returned
    (snd (CustomerCSVHandler.create (H := example_text) "u-1" example_customer_data []))
    !! "preferences"
  = Some (CustomerPreferences.dict example_preferences).
Proof.
  destruct (customer_preferences_round_trip (H := example_text) "u-1" example_customer_data []
              example_preferences
              (returned (snd (CustomerCSVHandler.create (H := example_text) "u-1"
                                example_customer_data []))))
    as [_ Hrec]; [evaluated | apply answered_returned; evaluated | exact Hrec].
Defined.

(** The one customer of scenario C, on a page of ten; the page after it is
    empty. *)
Lemma get_customers_pages_tile_witness :
  let customer :=
    returned (CustomerCSVHandler._process_customer_record (H := example_text)
                scenario_C_customer) in
  length [customer] = Nat.min 10 (Z.to_nat 1 - 0)
  /\ get_customers (H := example_text) (validation := example_pydantic) 0 (10 + 5) None
       scenario_C_world
     = (scenario_C_world, Ok (([customer] ++ [])%list, 1)).
Proof.
  cbv zeta.
  assert (Hrun : get_customers (H := example_text) (validation := example_pydantic)
                   0 10 None scenario_C_world
                 = (scenario_C_world,
                    Ok ([returned (CustomerCSVHandler._process_customer_record
                                     (H := example_text) scenario_C_customer)], 1)))
    by evaluated.
  destruct (get_customers_pages_tile (H := example_text) (validation := example_pydantic)
              0 10 None scenario_C_world _ _ _ Hrun)
    as (_ & Hlen & _ & Hnext).
  split; [exact Hlen | apply Hnext; evaluated].
Defined.

(** The first two of the three sales of the window of scenario D. *)
Lemma sales_list_agrees_with_analytics_witness :
  exists sales,
    get_sales (H := example_text) (validation := example_pydantic) 0 2 None None
      (Some scenario_D_cutoff) None scenario_D_world
    = (scenario_D_world,
       if forallb (accepts (Pydantic := example_pydantic) Sale) sales
       then Ok (sales, 3) else Raise (HTTPException 500 InternalFailure))
    /\ length sales = 2%nat.
Proof.
  destruct (sales_list_agrees_with_analytics (H := example_text)
              (validation := example_pydantic) scenario_D_cutoff
              scenario_D_world scenario_D_world scenario_D_analytics 0 2)
    as (sales & Hrun & Hlen & _); [discriminate | exact scenario_D_answers |].
  exists sales. split; [exact Hrun | exact Hlen].
Defined.

(** The product of scenario A, 5 in stock, under a threshold of 10. *)
Lemma stock_lists_split_the_products_witness :
  let product :=
    returned (ProductCSVHandler._process_product_record (H := example_text)
                scenario_A_product) in
  get_low_stock_products (H := example_text) (validation := example_pydantic) 10
    scenario_A_world
  = (scenario_A_world,
     if forallb (accepts (Pydantic := example_pydantic) Product) [product]
     then Ok ([product], 1) else Raise (HTTPException 500 InternalFailure))
  /\ get_out_of_stock_products (H := example_text) (validation := example_pydantic)
       scenario_A_world
     = (scenario_A_world, Ok ([], 0)).
Proof.
  cbv zeta.
  assert (Hall : ProductCSVHandler.get_all (H := example_text) (products_db scenario_A_world)
                 = Ok [returned (ProductCSVHandler._process_product_record
                                   (H := example_text) scenario_A_product)])
    by evaluated.
  destruct (stock_lists_split_the_products (H := example_text)
              (validation := example_pydantic) 10 scenario_A_world _ Hall)
    as (Hlow & Hout & _).
  split; [exact Hlow | exact Hout].
Defined.

(** Two customers, of 0 and of 4 points, and a list of one: the customer of
    4 points. *)
Lemma top_loyalty_customers_are_ranked_witness :
  let w := {| products_db := [];
              customers_db := [scenario_C_customer; example_customer_no_email];
              sales_db := [] |} in
  exists top,
    get_top_loyalty_customers (H := example_text) (validation := example_pydantic) 1 w
    = (w, if forallb (accepts (Pydantic := example_pydantic) Customer) top
          then Ok (top, 1) else Raise (HTTPException 500 InternalFailure))
    /\ map points_of top = [4].
Proof.
  cbv zeta.
  set (w := {| products_db := [];
               customers_db := [scenario_C_customer; example_customer_no_email];
               sales_db := [] |}).
  assert (Hall : customers_get_all (H := example_text) (customers_db w)
                 = Ok (map (fun r => returned (CustomerCSVHandler._process_customer_record
                                                 (H := example_text) r))
                         (customers_db w)))
    by evaluated.
  destruct (top_loyalty_customers_are_ranked (H := example_text)
              (validation := example_pydantic) 1 w _ Hall)
    as (ranked & Hperm & Hsorted & Hrun & _ & Hrest).
  exists (firstn 1 ranked). split; [exact Hrun|].
  symmetry in Hperm. subst w. cbn [customers_db map] in Hperm.
  apply Permutation_length_2_inv in Hperm as [-> | ->].
  - exfalso. specialize (Hrest _ _ (list_elem_of_here _ _) (list_elem_of_here _ _)).
    vm_compute in Hrest. apply Hrest. reflexivity.
  - vm_compute. reflexivity.
Defined.

(** * The check of the sku at a sku of digits *)

(** C7. The check of [create_product] misses a sku of digits. On the
    table that is read for a file whose one product was created with the sku
    12345, [find_by_sku] of the text 12345 finds no product, for no integer
    equals a text; so the request of a second product with that sku is not
    refused with [Conflict]: it is answered with success and written as a
    second row, with the same sku in the file. *)
Theorem create_product_misses_a_numeric_sku :
  ProductCSVHandler.find_by_sku (H := example_text) "12345" (products_db numeric_sku_world)
  = Ok None
  /\ outcome (snd (create_product (H := example_text) "u-2" numeric_sku_product
                     numeric_sku_world))
     = Ok tt
  /\ products_db (fst (create_product (H := example_text) "u-2" numeric_sku_product
                         numeric_sku_world))
     = [numeric_sku_row; stored_product (H := example_text) "u-2" numeric_sku_product]
  /\ stored_product (H := example_text) "u-2" numeric_sku_product !! "sku"
     = Some (VStr "12345").
Proof.
  split; [evaluated|]. split; [evaluated|]. split; evaluated.
Qed.
